(** * Recording orchestrator of the webRTC-SFU server

    A shallow embedding of the recording code
    (src/recording/mixed-recording-manager.js and its revised copy,
    src/recording/per-participant-recorder.js,
    src/recording/recording-manager.js, src/recording/ffmpeg.js,
    sdp.js and utils.js) and the properties of the recording
    specification checked against it.

    Conventions of the embedding:
    - JavaScript numbers that the code only uses as integers (ports, payload
      types, clock rates, timestamps in ms, frame sizes) are [Z]; loop
      counters and input counts are [nat];
    - strings are [string]; template literals are written out with [+:+];
    - [undefined]/[null] is [None];
    - a JavaScript [Map] or array that the code iterates is a list in
      insertion order; the registry [this.active] is a [gmap] keyed by the
      recording id;
    - calls on the outside world (mediasoup router, file system, child
      processes, timers) are recorded, in program order, in a call trace, and
      their outcomes are read from an environment of oracles. *)

From Stdlib Require Import ZArith String Ascii List DecimalString Lia Bool.
From stdpp Require Import gmap strings list.
Import ListNotations.
Local Open Scope Z_scope.

(** ** JavaScript primitives used by the recorders *)

Module JS.

(** [`${n}`] for an integer-valued number. *)
Definition showZ (z : Z) : string := NilZero.string_of_int (Z.to_int z).

Definition showNat (n : nat) : string := showZ (Z.of_nat n).

(** [`${s}`] for a string that may be [undefined]. *)
Definition showOptStr (s : option string) : string :=
  match s with
  | Some x => x
  | None => "undefined"
  end.

(** ['\n'] *)
Definition nl : string := String (ascii_of_nat 10) "".

(** [Array.prototype.join] on an array of strings. *)
Fixpoint join (sep : string) (l : list string) : string :=
  match l with
  | [] => ""
  | x :: rest =>
      match rest with
      | [] => x
      | _ :: _ => x +:+ sep +:+ join sep rest
      end
  end.

(** [String.prototype.toLowerCase], on the ASCII letters. *)
Definition lowerAscii (c : ascii) : ascii :=
  let n := nat_of_ascii c in
  if ((65 <=? n) && (n <=? 90))%nat then ascii_of_nat (n + 32) else c.

Fixpoint toLowerCase (s : string) : string :=
  match s with
  | EmptyString => EmptyString
  | String c rest => String (lowerAscii c) (toLowerCase rest)
  end.

(** [s.includes(sub)] *)
Fixpoint includes (s sub : string) : bool :=
  String.prefix sub s ||
  match s with
  | EmptyString => false
  | String _ rest => includes rest sub
  end.

(** [s.split(sep)] for a one-character separator. *)
Fixpoint split (sep : ascii) (s : string) : list string :=
  match s with
  | EmptyString => [""]
  | String c rest =>
      if Ascii.eqb c sep then "" :: split sep rest
      else
        match split sep rest with
        | [] => [String c ""]
        | w :: ws => String c w :: ws
        end
  end.

(** [s.replace(pat, '')]: the first occurrence of [pat] is removed. *)
Fixpoint dropN (n : nat) (s : string) : string :=
  match n, s with
  | O, _ => s
  | S n', String _ rest => dropN n' rest
  | S _, EmptyString => EmptyString
  end.

Fixpoint removeFirst (pat s : string) : string :=
  if String.prefix pat s then dropN (String.length pat) s
  else
    match s with
    | EmptyString => EmptyString
    | String c rest => String c (removeFirst pat rest)
    end.

(** [n || d] on a number that may be [undefined]: [0] is falsy too. *)
Definition numOr (n : option Z) (d : Z) : Z :=
  match n with
  | Some v => if v =? 0 then d else v
  | None => d
  end.

(** [path.join(a, b)], without the normalisation of [.] and [..]. *)
Definition pathJoin (a b : string) : string := a +:+ "/" +:+ b.

End JS.

(** ** Data model: mediasoup RTP parameters *)

Inductive Kind := video | audio.

Definition kindName (k : Kind) : string :=
  match k with
  | video => "video"
  | audio => "audio"
  end.

Definition Kind_eqb (a b : Kind) : bool :=
  match a, b with
  | video, video | audio, audio => true
  | _, _ => false
  end.

(** A value of [codec.parameters]: a number or a string. *)
Inductive ParamValue :=
| PNum (n : Z)
| PStr (s : string).

Definition showParam (v : ParamValue) : string :=
  match v with
  | PNum n => JS.showZ n
  | PStr s => s
  end.

Record RtpCodec := {
  mimeType : string;
  payloadType : Z;
  clockRate : Z;
  channels : option Z;
  parameters : option (list (string * ParamValue))
}.

(** [rtpParameters]; [codecs = None] stands for a [codecs] field that is
    missing or not an array. *)
Record RtpParameters := {
  codecs : option (list RtpCodec)
}.

(** What the recorders extract from a codec. *)
Record CodecInfo := {
  ci_payloadType : Z;
  ci_codecName : option string;
  ci_clockRate : Z;
  ci_channels : option Z;
  ci_fmtp : string
}.

(** [Object.entries(p).map(([k, v]) => `${k}=${v}`).join(';')] *)
Definition fmtpOfEntries (p : list (string * ParamValue)) : string :=
  JS.join ";" (map (fun kv => fst kv +:+ "=" +:+ showParam (snd kv)) p).

(** The codec extraction shared, word for word, by
    [MixedRecordingManager._codecFromRtpParameters] and
    [PerParticipantRecorder._codecInfo]. *)
Definition codecOfRtpParameters (kind : Kind) (rtpParameters : option RtpParameters)
  : option CodecInfo :=
  match rtpParameters with
  | None => None
  | Some rp =>
      match codecs rp with
      | None => None
      | Some cs =>
          match find (fun x => JS.includes (JS.toLowerCase (mimeType x)) (kindName kind)) cs with
          | None => None
          | Some c =>
              let fmtp :=
                match parameters c with
                | Some p => if (length p =? 0)%nat then "" else fmtpOfEntries p
                | None => ""
                end in
              Some {| ci_payloadType := payloadType c;
                      ci_codecName := nth_error (JS.split "/" (mimeType c)) 1;
                      ci_clockRate := clockRate c;
                      ci_channels :=
                        match kind with
                        | audio => Some (JS.numOr (channels c) 2)
                        | video => None
                        end;
                      ci_fmtp := fmtp |}
          end
      end
  end.

(** The five lines every synthesized SDP starts with. *)
Definition sdpPreamble (sessionName : string) : list string :=
  ["v=0"; "o=- 0 0 IN IP4 127.0.0.1"; "s=" +:+ sessionName; "c=IN IP4 127.0.0.1"; "t=0 0"].

(** [if (fmtp) lines.push(`a=fmtp:${payloadType} ${fmtp}`)]: the empty string
    is falsy. *)
Definition fmtpLine (pt : Z) (fmtp : string) : list string :=
  if String.eqb fmtp "" then [] else ["a=fmtp:" +:+ JS.showZ pt +:+ " " +:+ fmtp].

(** [lines.join('\n') + '\n'] *)
Definition sdpText (lines : list string) : string := JS.join JS.nl lines +:+ JS.nl.

(** A line that opens a media section. *)
Definition isMediaLine (l : string) : bool := String.prefix "m=" l.

Definition mediaSections (lines : list string) : nat :=
  length (List.filter isMediaLine lines).


(** ** The room, as the recorders see it *)

Record Producer := {
  prod_id : string;
  prod_kind : Kind;
  prod_rtpParameters : option RtpParameters
}.

Record Peer := {
  peer_id : string;
  peer_producers : list Producer      (* the Map [peer.producers], in insertion order *)
}.

Record Room := {
  router : bool;                      (* [room.router] is set *)
  peers : list Peer                   (* [room.getPeers()], in insertion order *)
}.

(** Handles of the objects the outside world hands back. A handle is the
    position, in the call trace, of the call that created the object. *)
Definition TransportId := nat.
Definition ConsumerId := nat.
Definition ProcId := nat.
Definition TimerId := nat.

Record Consumer := {
  cons_id : ConsumerId;
  cons_kind : Kind;
  cons_producerId : string;
  cons_rtpParameters : option RtpParameters
}.

(** ** Calls on the outside world *)

Inductive Call :=
| CreatePlainTransport                                   (* router.createPlainTransport({listenIp:'127.0.0.1', rtcpMux:false, comedia:false}) *)
| Consume (t : TransportId) (producerId : string) (paused : bool)
| Connect (t : TransportId) (port rtcpPort : Z)           (* transport.connect({ip:'127.0.0.1', port, rtcpPort}) *)
| Resume (c : ConsumerId)
| RequestKeyFrame (c : ConsumerId)
| CloseConsumer (c : ConsumerId)
| CloseTransport (t : TransportId)
| BindProbe (port : Z)                                   (* isPortFree(port) *)
| Mkdir (path : string)
| WriteFile (path text : string)
| RemoveDirLater (path : string) (ms : Z)                (* setTimeout(() => fs.rmSync(path), ms) *)
| Spawn (cmd : string) (args : list string)
| StdinWrite (p : ProcId) (text : string)
| StdinEnd (p : ProcId)
| Kill (p : ProcId) (signal : string)
| WaitClose (p : ProcId) (timeoutMs : Z)                 (* _waitForProcessClose(child, timeoutMs) *)
| SetInterval (c : ConsumerId) (ms : Z)                  (* the keyframe pump of consumer [c] *)
| ClearInterval (h : TimerId)
| Sleep (ms : Z)                                         (* await new Promise((r) => setTimeout(r, ms)) *)
| Emit (event detail : string)                           (* socket.emit(event, {..., state: detail}) *)
| RegistrySet (recordingId : string)                     (* this.active.set(recordingId, state) *)
| RegistryDelete (recordingId : string).                 (* this.active.delete(recordingId) *)

(** The environment: what the outside world answers. The first argument of
    every oracle is the time of the question, counted in calls made so far. *)
Record Env := {
  env_throws : nat -> Call -> option string;     (* the call throws this message *)
  env_canConsume : string -> bool;               (* router.canConsume, by producer id *)
  env_consumerRtp : Producer -> option RtpParameters;
                                                 (* the rtpParameters the router assigns to
                                                    a recording consumer of this producer *)
  env_random : nat -> Z;                         (* Math.floor(Math.random() * 40000) *)
  env_portFree : nat -> Z -> bool;               (* the bind probe succeeds *)
  env_now : nat -> Z;                            (* Date.now() *)
  env_exists : nat -> string -> bool;            (* fs.existsSync *)
  env_exited : nat -> ProcId -> Z -> bool;       (* the child closes within the timeout *)
  env_stdinWritable : nat -> ProcId -> bool;     (* ff.stdin && !ff.stdin.destroyed *)
  env_probeDuration : nat -> string -> string;   (* the duration ffprobe reports for a file,
                                                    as decimal text; 0 when it reports none *)
  env_localPort : TransportId -> option Z;       (* transport.tuple.localPort *)
  env_fileSize : nat -> string -> Z;             (* fs.statSync(path).size *)
  env_recordDir : option string                  (* process.env.RECORD_FILE_LOCATION_PATH *)
}.

(** ** A state, exception and call-trace monad

    A computation reads the manager's registry [S] and the current time (the
    number of calls made before it starts), and yields its outcome, the new
    registry and the calls it made, in program order. A thrown exception
    keeps the registry and the calls made before it. *)

Inductive Outcome (A : Type) :=
| Returned (a : A)
| Thrown (message : string).
Arguments Returned {A} a.
Arguments Thrown {A} message.

Definition M (S A : Type) : Type := S -> nat -> Outcome A * S * list Call.

Definition ret {S A} (a : A) : M S A := fun s _ => (Returned a, s, []).

Definition throw {S A} (message : string) : M S A := fun s _ => (Thrown message, s, []).

Definition bind {S A B} (m : M S A) (k : A -> M S B) : M S B :=
  fun s n =>
    match m s n with
    | (Returned a, s1, tr1) =>
        match k a s1 (n + length tr1)%nat with
        | (r, s2, tr2) => (r, s2, tr1 ++ tr2)
        end
    | (Thrown e, s1, tr1) => (Thrown e, s1, tr1)
    end.

Declare Scope js_scope.
Delimit Scope js_scope with js.
Notation "x <- m ;; k" := (bind m (fun x => k))
  (at level 100, m at next level, right associativity) : js_scope.
Notation "m ;; k" := (bind m (fun _ => k))
  (at level 100, right associativity) : js_scope.
Local Open Scope js_scope.

(** [try { m } catch {}] *)
Definition try_ {S} (m : M S unit) : M S unit :=
  fun s n =>
    match m s n with
    | (Returned _, s1, tr) => (Returned tt, s1, tr)
    | (Thrown _, s1, tr) => (Returned tt, s1, tr)
    end.

(** [try { m } catch (error) { throw new Error(error.message || fallback) }] *)
Definition rethrow {S A} (fallback : string) (m : M S A) : M S A :=
  fun s n =>
    match m s n with
    | (Returned a, s1, tr) => (Returned a, s1, tr)
    | (Thrown e, s1, tr) => (Thrown (if String.eqb e "" then fallback else e), s1, tr)
    end.

(** The time: the number of calls made so far. *)
Definition time {S} : M S nat := fun s n => (Returned n, s, []).

Definition getState {S} : M S S := fun s _ => (Returned s, s, []).

Definition setState {S} (s' : S) : M S unit := fun _ _ => (Returned tt, s', []).

(** A mutation of an object held by the registry. *)
Definition modifyState {S} (f : S -> S) : M S unit := fun s _ => (Returned tt, f s, []).

(** [for (const x of l) { acc = body(acc, x) }], the arrays the body pushes
    to being the accumulator. *)
Fixpoint forOf {S X Acc} (l : list X) (body : Acc -> X -> M S Acc) (acc : Acc) : M S Acc :=
  match l with
  | [] => ret acc
  | x :: rest => acc' <- body acc x ;; forOf rest body acc'
  end.

(** [for (const x of l) { body(x) }] *)
Fixpoint forEach {S X} (l : list X) (body : X -> M S unit) : M S unit :=
  match l with
  | [] => ret tt
  | x :: rest => body x ;; forEach rest body
  end.

Section Primitives.
Context {S : Type}.
Variable env : Env.

(** A call that yields an answer computed from the time it is made at. *)
Definition perform {A} (c : Call) (answer : nat -> A) : M S A :=
  fun s n =>
    match env_throws env n c with
    | Some e => (Thrown e, s, [c])
    | None => (Returned (answer n), s, [c])
    end.

Definition createPlainTransport : M S TransportId :=
  perform CreatePlainTransport (fun n => n).

Definition consume (t : TransportId) (producer : Producer) (paused : bool) : M S Consumer :=
  perform (Consume t (prod_id producer) paused)
    (fun n => {| cons_id := n;
                 cons_kind := prod_kind producer;
                 cons_producerId := prod_id producer;
                 cons_rtpParameters := env_consumerRtp env producer |}).

Definition connect (t : TransportId) (port rtcpPort : Z) : M S unit :=
  perform (Connect t port rtcpPort) (fun _ => tt).

Definition resume (c : Consumer) : M S unit := perform (Resume (cons_id c)) (fun _ => tt).

Definition requestKeyFrame (c : Consumer) : M S unit :=
  perform (RequestKeyFrame (cons_id c)) (fun _ => tt).

Definition closeConsumer (c : Consumer) : M S unit :=
  perform (CloseConsumer (cons_id c)) (fun _ => tt).

Definition closeTransport (t : TransportId) : M S unit :=
  perform (CloseTransport t) (fun _ => tt).

Definition mkdirSync (path : string) : M S unit := perform (Mkdir path) (fun _ => tt).

Definition writeFileSync (path text : string) : M S unit :=
  perform (WriteFile path text) (fun _ => tt).

Definition spawn (cmd : string) (args : list string) : M S ProcId :=
  perform (Spawn cmd args) (fun n => n).

Definition stdinWrite (p : ProcId) (text : string) : M S unit :=
  perform (StdinWrite p text) (fun _ => tt).

Definition stdinEnd (p : ProcId) : M S unit := perform (StdinEnd p) (fun _ => tt).

Definition processKill (p : ProcId) (signal : string) : M S unit :=
  perform (Kill p signal) (fun _ => tt).

Definition setInterval (c : Consumer) (ms : Z) : M S TimerId :=
  perform (SetInterval (cons_id c) ms) (fun n => n).

(** The calls below never throw. *)
Definition quiet {A} (c : Call) (answer : nat -> A) : M S A :=
  fun s n => (Returned (answer n), s, [c]).

Definition clearInterval (h : TimerId) : M S unit := quiet (ClearInterval h) (fun _ => tt).

Definition sleep (ms : Z) : M S unit := quiet (Sleep ms) (fun _ => tt).

Definition removeDirLater (path : string) (ms : Z) : M S unit :=
  quiet (RemoveDirLater path ms) (fun _ => tt).

(** [isPortFree(port)]: resolves [false] on a bind error, never rejects. *)
Definition isPortFree (port : Z) : M S bool :=
  quiet (BindProbe port) (fun n => env_portFree env n port).

(** [_waitForProcessClose(child, timeoutMs)] *)
Definition waitForProcessClose (p : ProcId) (timeoutMs : Z) : M S bool :=
  quiet (WaitClose p timeoutMs) (fun n => env_exited env n p timeoutMs).

Definition emit (event detail : string) : M S unit := quiet (Emit event detail) (fun _ => tt).

(** Mutations of the registry; they are recorded in the trace so that they
    are ordered with the calls. *)
Definition registryUpdate (recordingId : string) (f : S -> S) : M S unit :=
  fun s _ => (Returned tt, f s, [RegistrySet recordingId]).

Definition registryDelete (recordingId : string) (f : S -> S) : M S unit :=
  fun s _ => (Returned tt, f s, [RegistryDelete recordingId]).

Definition stdinWritable (p : ProcId) : M S bool :=
  fun s n => (Returned (env_stdinWritable env n p), s, []).

Definition dateNow : M S Z := fun s n => (Returned (env_now env n), s, []).

Definition existsSync (path : string) : M S bool :=
  fun s n => (Returned (env_exists env n path), s, []).

(** [Math.floor(Math.random() * 40000)] *)
Definition randomBelow40000 : M S Z := fun s n => (Returned (env_random env n), s, []).

(** [process.env.RECORD_FILE_LOCATION_PATH || './files'] *)
Definition recordDir : string :=
  match env_recordDir env with
  | Some d => if String.eqb d "" then "./files" else d
  | None => "./files"
  end.

(** [for (let i = 0; i < tries; i += 1) { candidate = base + random;
    if (await isPortFree(candidate)) return candidate }
    throw new Error('No free UDP port available')] *)
Fixpoint freePortLoop (base : Z) (tries : nat) : M S Z :=
  match tries with
  | O => throw "No free UDP port available"
  | Datatypes.S tries' =>
      r <- randomBelow40000 ;;
      let candidate := base + r in
      free <- isPortFree candidate ;;
      if free then ret candidate else freePortLoop base tries'
  end.

(** The producers of the room, in enumeration order, with their peer. *)
Definition roomProducers (room : Room) : list (Peer * Producer) :=
  flat_map (fun peer => map (fun p => (peer, p)) (peer_producers peer)) (peers room).

End Primitives.

(** ** utils.js *)

Module Utils.

(** [getCodecInfoFromRtpParameters(kind, rtpParameters)]: the first codec
    of the list, whatever its kind; throws when there is none. *)
Definition getCodecInfoFromRtpParameters (kind : Kind) (rtpParameters : option RtpParameters)
  : Outcome CodecInfo :=
  match rtpParameters with
  | Some {| codecs := Some (codec :: _) |} =>
      Returned {| ci_payloadType := payloadType codec;
                  ci_codecName := Some (JS.removeFirst (kindName kind +:+ "/") (mimeType codec));
                  ci_clockRate := clockRate codec;
                  ci_channels := match kind with audio => channels codec | video => None end;
                  ci_fmtp := "" |}
  | _ => Thrown ("No codecs found for " +:+ kindName kind +:+ " in rtpParameters")
  end.

End Utils.

(** ** sdp.js *)

Module Sdp.

(** The fields of the argument of [createSdpText] that it reads. *)
Record FfmpegRtpParameters := {
  videoCodec : option RtpParameters;
  audioCodec : option RtpParameters;
  remoteRtpPort : Z;
  remoteAudioRtpPort : option Z
}.

(** [codec && codec.codecs && Array.isArray(codec.codecs) && codec.codecs.length > 0] *)
Definition firstCodec (rp : option RtpParameters) : option RtpCodec :=
  match rp with
  | Some {| codecs := Some (c :: _) |} => Some c
  | _ => None
  end.

(** [if (info.parameters) sdpLines.push(`a=fmtp:${pt} ${entries joined}`)]:
    an object is truthy even when it is empty. *)
Definition fmtpOfCodec (pt : Z) (c : RtpCodec) : list string :=
  match parameters c with
  | Some p => ["a=fmtp:" +:+ JS.showZ pt +:+ " " +:+ fmtpOfEntries p]
  | None => []
  end.

Definition videoSection (rtp : FfmpegRtpParameters) : Outcome (list string) :=
  match firstCodec (videoCodec rtp) with
  | None => Returned []
  | Some videoCodecInfo =>
      match Utils.getCodecInfoFromRtpParameters video (videoCodec rtp) with
      | Thrown e => Thrown e
      | Returned videoInfo =>
          Returned
            (["m=video " +:+ JS.showZ (remoteRtpPort rtp) +:+ " RTP/AVP "
                +:+ JS.showZ (ci_payloadType videoInfo);
              "a=rtpmap:" +:+ JS.showZ (ci_payloadType videoInfo) +:+ " "
                +:+ JS.showOptStr (ci_codecName videoInfo) +:+ "/"
                +:+ JS.showZ (ci_clockRate videoInfo);
              "a=recvonly"]
             ++ fmtpOfCodec (ci_payloadType videoInfo) videoCodecInfo)
      end
  end.

Definition audioSection (rtp : FfmpegRtpParameters) : Outcome (list string) :=
  match firstCodec (audioCodec rtp) with
  | None => Returned []
  | Some audioCodecInfo =>
      match Utils.getCodecInfoFromRtpParameters audio (audioCodec rtp) with
      | Thrown e => Thrown e
      | Returned audioInfo =>
          let audioPort := JS.numOr (remoteAudioRtpPort rtp) (remoteRtpPort rtp + 2) in
          Returned
            (["m=audio " +:+ JS.showZ audioPort +:+ " RTP/AVP "
                +:+ JS.showZ (ci_payloadType audioInfo);
              "a=rtpmap:" +:+ JS.showZ (ci_payloadType audioInfo) +:+ " "
                +:+ JS.showOptStr (ci_codecName audioInfo) +:+ "/"
                +:+ JS.showZ (ci_clockRate audioInfo) +:+ "/"
                +:+ JS.showZ (JS.numOr (ci_channels audioInfo) 2);
              "a=recvonly"]
             ++ fmtpOfCodec (ci_payloadType audioInfo) audioCodecInfo)
      end
  end.

Definition sdpLines (rtp : FfmpegRtpParameters) : Outcome (list string) :=
  match videoSection rtp with
  | Thrown e => Thrown e
  | Returned v =>
      match audioSection rtp with
      | Thrown e => Thrown e
      | Returned a => Returned (sdpPreamble "FFmpeg" ++ v ++ a)
      end
  end.

Definition createSdpText (rtp : FfmpegRtpParameters) : Outcome string :=
  match sdpLines rtp with
  | Thrown e => Thrown e
  | Returned lines => Returned (sdpText lines)
  end.

End Sdp.

(** ** ffmpeg.js: the muxer of the single-file recorder *)

Module FFmpeg.
Section WithEnv.
Context {S : Type}.
Variable env : Env.

(** [get _commandArgs()] *)
Definition _commandArgs (rtp : Sdp.FfmpegRtpParameters) : M S (list string) :=
  now <- dateNow env ;;
  let fileName := "recording-" +:+ JS.showZ now +:+ ".mp4" in
  ret (["-loglevel"; "debug"; "-protocol_whitelist"; "pipe,udp,rtp"; "-fflags"; "+genpts";
        "-f"; "sdp"; "-i"; "pipe:0"]
       ++ (match Sdp.videoCodec rtp with
           | Some _ => ["-map"; "0:v:0"; "-c:v"; "copy"]
           | None => []
           end)
       ++ (match Sdp.audioCodec rtp with
           | Some _ => ["-map"; "0:a:0"; "-c:a"; "copy"]
           | None => []
           end)
       ++ ["-flags"; "+global_header"; recordDir env +:+ "/" +:+ fileName]).

(** [new FFmpeg(rtpParameters)], that is [_createProcess()]: the SDP is
    synthesized, the process spawned and the SDP piped to its standard
    input. *)
Definition new (rtp : Sdp.FfmpegRtpParameters) : M S ProcId :=
  match Sdp.createSdpText rtp with
  | Thrown e => throw e
  | Returned sdpString =>
      args <- _commandArgs rtp ;;
      p <- spawn env "ffmpeg" args ;;
      stdinWrite env p sdpString ;;
      stdinEnd env p ;;
      ret p
  end.

(** [kill()] *)
Definition kill (p : ProcId) : M S unit := processKill env p "SIGKILL".

End WithEnv.
End FFmpeg.

(** ** mixed-recording-manager.js *)

Module Mixed.

(** The argument object of [_buildPerInputSdp]. *)
Record SdpInput := {
  si_kind : Kind;
  si_codecName : option string;
  si_clockRate : Z;
  si_channels : option Z;
  si_payloadType : Z;
  si_port : Z;
  si_fmtp : string
}.

Definition sdpLines (i : SdpInput) : list string :=
  sdpPreamble "FFmpegInput" ++
  match si_kind i with
  | video =>
      ["m=video " +:+ JS.showZ (si_port i) +:+ " RTP/AVP " +:+ JS.showZ (si_payloadType i);
       "a=rtpmap:" +:+ JS.showZ (si_payloadType i) +:+ " " +:+ JS.showOptStr (si_codecName i)
         +:+ "/" +:+ JS.showZ (si_clockRate i);
       "a=rtcp:" +:+ JS.showZ (si_port i + 1) +:+ " IN IP4 127.0.0.1";
       "a=recvonly"]
      ++ fmtpLine (si_payloadType i) (si_fmtp i)
  | audio =>
      ["m=audio " +:+ JS.showZ (si_port i) +:+ " RTP/AVP " +:+ JS.showZ (si_payloadType i);
       "a=rtpmap:" +:+ JS.showZ (si_payloadType i) +:+ " " +:+ JS.showOptStr (si_codecName i)
         +:+ "/" +:+ JS.showZ (si_clockRate i)
         +:+ "/" +:+ JS.showZ (JS.numOr (si_channels i) 2);
       "a=rtcp:" +:+ JS.showZ (si_port i + 1) +:+ " IN IP4 127.0.0.1";
       "a=recvonly"]
      ++ fmtpLine (si_payloadType i) (si_fmtp i)
  end.

Definition _buildPerInputSdp (i : SdpInput) : string := sdpText (sdpLines i).

Definition _codecFromRtpParameters := codecOfRtpParameters.

Record Layout := {
  rows : nat;
  cols : nat;
  cellW : Z;
  cellH : Z
}.

(** [Math.floor(width / 2)] is [width / 2] on [Z]. *)
Definition _computeLayout (numVideos : nat) (width height : Z) : Layout :=
  if (numVideos <=? 1)%nat then {| rows := 1; cols := 1; cellW := width; cellH := height |}
  else if (numVideos =? 2)%nat then {| rows := 1; cols := 2; cellW := width / 2; cellH := height |}
  else if (numVideos =? 3)%nat then {| rows := 2; cols := 2; cellW := width / 2; cellH := height / 2 |}
  else {| rows := 2; cols := 2; cellW := width / 2; cellH := height / 2 |}.

(** The chain pushed for video input [i]. *)
Definition videoChain (l : Layout) (i : nat) : string :=
  "[" +:+ JS.showNat i +:+ ":v]"
  +:+ "scale=" +:+ JS.showZ (cellW l) +:+ ":" +:+ JS.showZ (cellH l)
  +:+ ":force_original_aspect_ratio=decrease:eval=frame,"
  +:+ "pad=" +:+ JS.showZ (cellW l) +:+ ":" +:+ JS.showZ (cellH l)
  +:+ ":(ow-iw)/2:(oh-ih)/2:color=black,"
  +:+ "fps=25,setsar=1,format=yuv420p[v" +:+ JS.showNat i +:+ "]".

Definition videoLabel (i : nat) : string := "[v" +:+ JS.showNat i +:+ "]".

(** The entry of the layout string for the cell in row [r], column [c]. *)
Definition cellCorner (l : Layout) (r c : nat) : string :=
  JS.showZ (Z.of_nat c * cellW l) +:+ "_" +:+ JS.showZ (Z.of_nat r * cellH l).

(** [for r < rows, for c < cols: if (r * cols + c < videoCount) push] *)
Definition layoutParts (l : Layout) (videoCount : nat) : list string :=
  flat_map
    (fun r =>
       flat_map
         (fun c =>
            let idx := (r * cols l + c)%nat in
            if (idx <? videoCount)%nat then [cellCorner l r c] else [])
         (seq 0 (cols l)))
    (seq 0 (rows l)).

Definition xstack (l : Layout) (videoCount : nat) : string :=
  JS.join "" (map videoLabel (seq 0 videoCount))
  +:+ "xstack=inputs=" +:+ JS.showNat videoCount
  +:+ ":layout=" +:+ JS.join "|" (layoutParts l videoCount)
  +:+ ":fill=black:shortest=0[vtmp]".

Definition audioChain (videoCount j : nat) : string :=
  "[" +:+ JS.showNat (videoCount + j) +:+ ":a]aresample=async=1:min_hard_comp=0.100:first_pts=0[a"
  +:+ JS.showNat j +:+ "]".

Definition audioLabel (j : nat) : string := "[a" +:+ JS.showNat j +:+ "]".

Definition audioParts (videoCount audioCount : nat) : list string :=
  if (0 <? audioCount)%nat then
    map (audioChain videoCount) (seq 0 audioCount)
    ++ (if (audioCount =? 1)%nat then
          [JS.showOptStr (nth_error (map audioLabel (seq 0 audioCount)) 0)
             +:+ "asetpts=PTS-STARTPTS[aout]"]
        else
          [JS.join "" (map audioLabel (seq 0 audioCount))
             +:+ "amix=inputs=" +:+ JS.showNat audioCount
             +:+ ":normalize=0:duration=longest:dropout_transition=2[amix]";
           "[amix]asetpts=PTS-STARTPTS[aout]"])
  else [].

(** The array [parts] of [_buildFilterComplex]. *)
Definition filterParts (videoCount audioCount : nat) (targetW targetH : Z) : list string :=
  let l := _computeLayout videoCount targetW targetH in
  map (videoChain l) (seq 0 videoCount)
  ++ [xstack l videoCount; "[vtmp]setpts=PTS-STARTPTS[vout]"]
  ++ audioParts videoCount audioCount.

Definition _buildFilterComplex (videoCount audioCount : nat) (targetW targetH : Z) : string :=
  JS.join ";" (filterParts videoCount audioCount targetW targetH).

(** An element of [inputs]. *)
Record Input := {
  in_kind : Kind;
  in_sdpPath : string
}.

Definition countKind (k : Kind) (inputs : list Input) : nat :=
  length (List.filter (fun i => Kind_eqb (in_kind i) k) inputs).

(** The options that map the outputs of the filter graph. *)
Definition mapArgs (audioCount : nat) : list string :=
  ["-map"; "[vout]"] ++ (if (0 <? audioCount)%nat then ["-map"; "[aout]"] else []).

(** The argument vector [ffArgs] the muxer is spawned with. *)
Definition ffArgs (inputs : list Input) (width height : Z) (outputPath : string) : list string :=
  let videoCount := countKind video inputs in
  let audioCount := countKind audio inputs in
  ["-y"; "-loglevel"; "info"; "-fflags"; "+genpts+nobuffer"; "-flags"; "low_delay";
   "-max_delay"; "0"; "-analyzeduration"; "1000000"; "-probesize"; "1000000"]
  ++ flat_map
       (fun inp =>
          ["-thread_queue_size"; "1024"; "-protocol_whitelist"; "file,crypto,data,udp,rtp";
           "-f"; "sdp"; "-i"; in_sdpPath inp])
       inputs
  ++ ["-filter_complex"; _buildFilterComplex videoCount audioCount width height]
  ++ mapArgs audioCount
  ++ ["-use_wallclock_as_timestamps"; "1"; "-muxpreload"; "0"; "-muxdelay"; "0";
      "-c:v"; "libx264"; "-preset"; "ultrafast"; "-tune"; "zerolatency";
      "-profile:v"; "baseline"; "-pix_fmt"; "yuv420p"; "-g"; "50"; "-keyint_min"; "50";
      "-c:a"; "aac"; "-b:a"; "128k"; "-movflags"; "+faststart";
      "-map_metadata"; "-1"; "-map_chapters"; "-1"; outputPath].

(** The value stored in [this.active]. *)
Record State := {
  st_recordingId : string;
  st_fileName : string;
  st_outputPath : string;
  st_sdpDir : string;
  st_transports : list TransportId;
  st_consumers : list Consumer;
  st_ff : ProcId;
  st_keyframeIntervals : list TimerId;
  st_startedAt : Z
}.

Abbreviation Registry := (gmap string State).

(** The arrays [inputs], [transports] and [consumers] of a start. *)
Record Bound := {
  b_inputs : list Input;
  b_transports : list TransportId;
  b_consumers : list Consumer
}.

Record StartResult := {
  recording_id : string;
  file_name : string;
  file_path : string
}.

Inductive StopResult :=
| NotFound                                        (* { success: false, error: 'Not found' } *)
| Stopped (fileName filePath : string) (fileExists : bool) (duration : string).

Section WithEnv.
Variable env : Env.
Variable room : option Room.                    (* this.room *)

Definition _getFreePort : M Registry Z := freePortLoop env 15000 200.

(** The body of the loops over [selectedVideos] and [selectedAudios]: the
    two bodies differ only in the kind, in the prefix of the file name
    and in that the video one passes no [channels]. *)
Definition bindProducer (kind : Kind) (sdpDir : string) (acc : Bound) (producer : Producer)
  : M Registry Bound :=
  if negb (env_canConsume env (prod_id producer)) then ret acc
  else
    transport <- createPlainTransport env ;;
    consumer <- consume env transport producer true ;;
    match _codecFromRtpParameters kind (cons_rtpParameters consumer) with
    | None => try_ (closeTransport env transport) ;; ret acc
    | Some codecInfo =>
        port <- _getFreePort ;;
        connect env transport port (port + 1) ;;
        let sdp :=
          _buildPerInputSdp
            {| si_kind := kind;
               si_codecName := ci_codecName codecInfo;
               si_clockRate := ci_clockRate codecInfo;
               si_channels := match kind with audio => ci_channels codecInfo | video => None end;
               si_payloadType := ci_payloadType codecInfo;
               si_port := port;
               si_fmtp := ci_fmtp codecInfo |} in
        let sdpPath :=
          JS.pathJoin sdpDir
            ((match kind with video => "v-" | audio => "a-" end) +:+ prod_id producer +:+ ".sdp") in
        writeFileSync env sdpPath sdp ;;
        ret {| b_inputs := b_inputs acc ++ [{| in_kind := kind; in_sdpPath := sdpPath |}];
               b_transports := b_transports acc ++ [transport];
               b_consumers := b_consumers acc ++ [consumer] |}
    end.

(** [try { await consumer.resume(); if (video) { try { requestKeyFrame } catch {} } } catch {}] *)
Definition resumeConsumer (consumer : Consumer) : M Registry unit :=
  try_ (resume env consumer ;;
        match cons_kind consumer with
        | video => try_ (requestKeyFrame env consumer)
        | audio => ret tt
        end).

(** The keyframe pump: one 2 s interval per video consumer. *)
Definition startKeyframePump (consumers : list Consumer) : M Registry (list TimerId) :=
  forOf consumers
    (fun hs consumer =>
       match cons_kind consumer with
       | video => h <- setInterval env consumer 2000 ;; ret (hs ++ [h])
       | audio => ret hs
       end)
    [].

Definition producersOfKind (k : Kind) (r : Room) : list Producer :=
  List.filter (fun p => Kind_eqb (prod_kind p) k) (map snd (roomProducers r)).

(** [startMixedRecording({ room_id, user_name, width = 1280, height = 720 })] *)
Definition startMixedRecording (width height : option Z) : M Registry StartResult :=
  let width := default 1280 width in
  let height := default 720 height in
  match room with
  | None => throw "Router not initialized"
  | Some r =>
      if negb (router r) then throw "Router not initialized"
      else
        let videoProducers := producersOfKind video r in
        let audioProducers := producersOfKind audio r in
        if ((length videoProducers =? 0) && (length audioProducers =? 0))%nat
        then throw "No producers to mix"
        else
          let selectedVideos := firstn 4 videoProducers in
          let selectedAudios := audioProducers in
          now <- dateNow env ;;
          let recordingId := "rec-mix-" +:+ JS.showZ now in
          let fileName := "mixed-" +:+ recordingId +:+ ".mp4" in
          let outDir := recordDir env in
          present <- existsSync env outDir ;;
          (if present then ret tt else mkdirSync env outDir) ;;
          let sdpDir := JS.pathJoin (JS.pathJoin outDir "sdp") recordingId in
          mkdirSync env sdpDir ;;
          let outputPath := JS.pathJoin outDir fileName in
          b <- forOf selectedVideos (bindProducer video sdpDir)
                 {| b_inputs := []; b_transports := []; b_consumers := [] |} ;;
          b <- forOf selectedAudios (bindProducer audio sdpDir) b ;;
          if (length (b_inputs b) =? 0)%nat then throw "No mixable inputs created"
          else
            ff <- spawn env "ffmpeg" (ffArgs (b_inputs b) width height outputPath) ;;
            forEach (b_consumers b) resumeConsumer ;;
            keyframeIntervals <- startKeyframePump (b_consumers b) ;;
            startedAt <- dateNow env ;;
            registryUpdate recordingId
              (fun active : Registry =>
                 <[recordingId :=
                     {| st_recordingId := recordingId;
                        st_fileName := fileName;
                        st_outputPath := outputPath;
                        st_sdpDir := sdpDir;
                        st_transports := b_transports b;
                        st_consumers := b_consumers b;
                        st_ff := ff;
                        st_keyframeIntervals := keyframeIntervals;
                        st_startedAt := startedAt |}]> active) ;;
            ret {| recording_id := recordingId; file_name := fileName; file_path := outputPath |}
  end.

(** The two loops that close the consumers, then the transports, each
    close in its own [try {} catch {}]. *)
Definition closeResources (st : State) : M Registry unit :=
  forEach (st_consumers st) (fun c => try_ (closeConsumer env c)) ;;
  forEach (st_transports st) (fun t => try_ (closeTransport env t)).

(** [checkDuration()] *)
Definition checkDuration (outputPath : string) : M Registry string :=
  spawn env "ffprobe"
    ["-v"; "error"; "-show_entries"; "format=duration"; "-of"; "json"; outputPath] ;;
  n <- time ;;
  ret (env_probeDuration env n outputPath).

Definition minRunMs : Z := 20000.

(** [stopMixedRecording({ recording_id })] *)
Definition stopMixedRecording (recording_id : string) : M Registry StopResult :=
  active <- getState ;;
  match (active : Registry) !! recording_id with
  | None => ret NotFound
  | Some st =>
      now <- dateNow env ;;
      let elapsed := now - (if st_startedAt st =? 0 then now else st_startedAt st) in
      (if elapsed <? minRunMs then sleep (minRunMs - elapsed) else ret tt) ;;
      exited <- waitForProcessClose env (st_ff st) 300 ;;
      exited <- (if negb exited then
                   try_ (writable <- stdinWritable env (st_ff st) ;;
                         if writable then
                           stdinWrite env (st_ff st) ("q" +:+ JS.nl) ;;
                           stdinEnd env (st_ff st)
                         else ret tt) ;;
                   waitForProcessClose env (st_ff st) 30000
                 else ret exited) ;;
      exited <- (if negb exited then
                   closeResources st ;;
                   waitForProcessClose env (st_ff st) 5000
                 else ret exited) ;;
      forEach (st_keyframeIntervals st) clearInterval ;;
      closeResources st ;;
      registryDelete recording_id (fun active : Registry => delete recording_id active) ;;
      duration <- checkDuration (st_outputPath st) ;;
      removeDirLater (st_sdpDir st) 1500 ;;
      present <- existsSync env (st_outputPath st) ;;
      ret (Stopped (st_fileName st) (st_outputPath st) present duration)
  end.

End WithEnv.
End Mixed.

(** ** per-participant-recorder.js *)

Module PerParticipant.

Definition sdpLines (kind : Kind) (payloadType : Z) (codecName : option string) (clockRate : Z)
    (port : Z) (channels : option Z) (fmtp : string) : list string :=
  sdpPreamble "FFmpegInput" ++
  match kind with
  | video =>
      ["m=video " +:+ JS.showZ port +:+ " RTP/AVP " +:+ JS.showZ payloadType;
       "a=rtpmap:" +:+ JS.showZ payloadType +:+ " " +:+ JS.showOptStr codecName
         +:+ "/" +:+ JS.showZ clockRate;
       "a=recvonly"]
      ++ fmtpLine payloadType fmtp
  | audio =>
      ["m=audio " +:+ JS.showZ port +:+ " RTP/AVP " +:+ JS.showZ payloadType;
       "a=rtpmap:" +:+ JS.showZ payloadType +:+ " " +:+ JS.showOptStr codecName
         +:+ "/" +:+ JS.showZ clockRate +:+ "/" +:+ JS.showZ (JS.numOr channels 2);
       "a=recvonly"]
      ++ fmtpLine payloadType fmtp
  end.

Definition _sdpFor (kind : Kind) (payloadType : Z) (codecName : option string) (clockRate : Z)
    (port : Z) (channels : option Z) (fmtp : string) : string :=
  sdpText (sdpLines kind payloadType codecName clockRate port channels fmtp).

Definition _codecInfo := codecOfRtpParameters.

(** An element of [items]. *)
Record Item := {
  it_peerId : string;
  it_producerId : string;
  it_kind : Kind;
  it_transport : TransportId;
  it_consumer : Consumer;
  it_sdpPath : string;
  it_outFile : string;
  it_ff : ProcId
}.

(** The value stored in [this.active]. *)
Record State := {
  st_id : string;
  st_roomId : string;
  st_baseDir : string;
  st_startedAt : Z;
  st_items : list Item
}.

Abbreviation Registry := (gmap string State).

Record Metadata := {
  md_id : string;
  md_roomId : string;
  md_startedAt : Z;
  md_endedAt : Z;
  md_durationMs : Z;
  md_files : list string
}.

(** The double quote. *)
Definition quote : string := String (ascii_of_nat 34) "".

Definition quoted (s : string) : string := quote +:+ s +:+ quote.

(** [JSON.stringify(metadata, null, 2)], for strings that need no escape. *)
Definition jsonFiles (files : list string) : string :=
  match files with
  | [] => "[]"
  | _ :: _ =>
      "[" +:+ JS.nl
      +:+ JS.join ("," +:+ JS.nl) (map (fun f => "    " +:+ quoted f) files)
      +:+ JS.nl +:+ "  ]"
  end.

Definition jsonOfMetadata (m : Metadata) : string :=
  "{" +:+ JS.nl
  +:+ JS.join ("," +:+ JS.nl)
        ["  " +:+ quoted "id" +:+ ": " +:+ quoted (md_id m);
         "  " +:+ quoted "roomId" +:+ ": " +:+ quoted (md_roomId m);
         "  " +:+ quoted "startedAt" +:+ ": " +:+ JS.showZ (md_startedAt m);
         "  " +:+ quoted "endedAt" +:+ ": " +:+ JS.showZ (md_endedAt m);
         "  " +:+ quoted "durationMs" +:+ ": " +:+ JS.showZ (md_durationMs m);
         "  " +:+ quoted "files" +:+ ": " +:+ jsonFiles (md_files m)]
  +:+ JS.nl +:+ "}".

(** The argument vector of the muxer of one producer. *)
Definition ffArgs (kind : Kind) (sdpPath outFile : string) : list string :=
  ["-nostdin"; "-y"; "-loglevel"; "info"; "-protocol_whitelist"; "file,udp,rtp";
   "-fflags"; "+genpts"; "-analyzeduration"; "10000000"; "-probesize"; "10000000";
   "-f"; "sdp"; "-i"; sdpPath]
  ++ (match kind with video => ["-map"; "0:v:0"] | audio => ["-map"; "0:a:0"] end)
  ++ (match kind with
      | video => ["-c:v"; "libvpx"; "-b:v"; "2000k"; "-crf"; "32"; "-r"; "30"; "-pix_fmt"; "yuv420p"]
      | audio => ["-c:a"; "libopus"; "-b:a"; "128k"]
      end)
  ++ [outFile].

(** The [TypeError] of reading a property of [null]. *)
Definition nullDereference : string :=
  "Cannot read properties of null (reading 'payloadType')".

Section WithEnv.
Variable env : Env.
Variable room : option Room.                    (* this.room *)

Definition _getFreePort : M Registry Z := freePortLoop env 20000 200.

(** The body of the loop of [start] over the producers. *)
Definition recordProducer (baseDir : string) (items : list Item) (entry : Peer * Producer)
  : M Registry (list Item) :=
  let peerId := peer_id (fst entry) in
  let producer := snd entry in
  if negb (env_canConsume env (prod_id producer)) then ret items
  else
    transport <- createPlainTransport env ;;
    consumer <- consume env transport producer true ;;
    let ci := _codecInfo (prod_kind producer) (cons_rtpParameters consumer) in
    port <- _getFreePort ;;
    connect env transport port (port + 1) ;;
    let stem :=
      kindName (prod_kind producer) +:+ "-" +:+ peerId +:+ "-" +:+ prod_id producer in
    let sdpPath := JS.pathJoin baseDir (stem +:+ ".sdp") in
    match ci with
    | None => throw nullDereference
    | Some ci =>
        writeFileSync env sdpPath
          (_sdpFor (prod_kind producer) (ci_payloadType ci) (ci_codecName ci)
             (ci_clockRate ci) port (ci_channels ci) (ci_fmtp ci)) ;;
        let outFile := JS.pathJoin baseDir (stem +:+ ".webm") in
        ff <- spawn env "ffmpeg" (ffArgs (prod_kind producer) sdpPath outFile) ;;
        try_ (resume env consumer) ;;
        match prod_kind producer with
        | video => try_ (requestKeyFrame env consumer)
        | audio => ret tt
        end ;;
        ret (items ++ [{| it_peerId := peerId;
                          it_producerId := prod_id producer;
                          it_kind := prod_kind producer;
                          it_transport := transport;
                          it_consumer := consumer;
                          it_sdpPath := sdpPath;
                          it_outFile := outFile;
                          it_ff := ff |}])
    end.

(** [start(roomId)] *)
Definition start (roomId : string) : M Registry string :=
  match room with
  | None => throw "Router not initialized"
  | Some r =>
      if negb (router r) then throw "Router not initialized"
      else
        let producers := roomProducers r in
        if (length producers =? 0)%nat then throw "No producers to record"
        else
          now <- dateNow env ;;
          let recordingId := "rec-per-" +:+ JS.showZ now in
          let baseDir :=
            JS.pathJoin (JS.pathJoin (JS.pathJoin (recordDir env) "per") roomId) recordingId in
          mkdirSync env baseDir ;;
          items <- forOf producers (recordProducer baseDir) [] ;;
          startedAt <- dateNow env ;;
          registryUpdate recordingId
            (fun active : Registry =>
               <[recordingId :=
                   {| st_id := recordingId;
                      st_roomId := roomId;
                      st_baseDir := baseDir;
                      st_startedAt := startedAt;
                      st_items := items |}]> active) ;;
          ret recordingId
  end.

(** The body of the loop of [stop] over the items. *)
Definition stopItem (it : Item) : M Registry unit :=
  try_ (processKill env (it_ff it) "SIGINT") ;;
  try_ (closeConsumer env (it_consumer it)) ;;
  try_ (closeTransport env (it_transport it)).

(** [stop(recordingId)] *)
Definition stop (recordingId : string) : M Registry Metadata :=
  active <- getState ;;
  match (active : Registry) !! recordingId with
  | None => throw "Recording not found"
  | Some st =>
      forEach (st_items st) stopItem ;;
      endedAt <- dateNow env ;;
      let metadata :=
        {| md_id := st_id st;
           md_roomId := st_roomId st;
           md_startedAt := st_startedAt st;
           md_endedAt := endedAt;
           md_durationMs := endedAt - st_startedAt st;
           md_files := map it_outFile (st_items st) |} in
      try_ (writeFileSync env (JS.pathJoin (st_baseDir st) "metadata.json")
              (jsonOfMetadata metadata)) ;;
      registryDelete recordingId (fun active : Registry => delete recordingId active) ;;
      ret metadata
  end.

End WithEnv.
End PerParticipant.

(** ** recording-manager.js: the single-file recorder *)

Module RecordingManager.

(** The value stored in [this.activeRecordings]. *)
Record Recording := {
  rec_ffmpeg : ProcId;
  rec_videoTransport : option TransportId;
  rec_audioTransport : option TransportId;
  rec_fileName : string;
  rec_filePath : string;
  rec_startTime : Z;
  rec_room_id : string;
  rec_user_name : string;
  rec_producers : list Consumer                 (* the consumers, despite the name *)
}.

Abbreviation Registry := (gmap string Recording).

Record StartResult := {
  recording_id : string;
  file_name : string
}.

Record StopResult := {
  stop_file_name : string;
  stop_file_path : string;
  stop_file_exists : bool;
  stop_duration : Z
}.

(** [if (producer.kind === k && !codec) codec = producer.rtpParameters],
    over the producers in enumeration order. *)
Definition firstRtpParameters (k : Kind) (r : Room) : option RtpParameters :=
  fold_left
    (fun codec producer =>
       match codec with
       | None => if Kind_eqb (prod_kind producer) k then prod_rtpParameters producer else None
       | Some _ => codec
       end)
    (map snd (roomProducers r)) None.

Definition pushConsumer (recordingId : string) (consumer : Consumer) (active : Registry)
  : Registry :=
  match active !! recordingId with
  | Some rec =>
      <[recordingId :=
          {| rec_ffmpeg := rec_ffmpeg rec;
             rec_videoTransport := rec_videoTransport rec;
             rec_audioTransport := rec_audioTransport rec;
             rec_fileName := rec_fileName rec;
             rec_filePath := rec_filePath rec;
             rec_startTime := rec_startTime rec;
             rec_room_id := rec_room_id rec;
             rec_user_name := rec_user_name rec;
             rec_producers := rec_producers rec ++ [consumer] |}]> active
  | None => active
  end.

Section WithEnv.
Variable env : Env.
Variable room : option Room.                    (* this.room *)

(** [_getFreeBasePort()] *)
Fixpoint freeBasePortLoop (attempts : nat) : M Registry Z :=
  match attempts with
  | O => throw "Unable to allocate free UDP ports for recording"
  | Datatypes.S attempts' =>
      r <- randomBelow40000 env ;;
      let candidate := 10000 + r in
      ok1 <- isPortFree env candidate ;;
      ok2 <- isPortFree env (candidate + 2) ;;
      if ok1 && ok2 then ret candidate else freeBasePortLoop attempts'
  end.

Definition _getFreeBasePort : M Registry Z := freeBasePortLoop 50.

(** The body of the loop of [connectProducersToRecording], inside its
    [try {} catch (error) { console.error }]. *)
Definition connectProducer (recordingId : string) (rec : Recording) (producer : Producer)
  : M Registry unit :=
  try_
    (if negb (env_canConsume env (prod_id producer)) then ret tt
     else
       match (match prod_kind producer with
              | video => rec_videoTransport rec
              | audio => rec_audioTransport rec
              end) with
       | None => ret tt
       | Some transport =>
           consumer <- consume env transport producer true ;;
           resume env consumer ;;
           modifyState (pushConsumer recordingId consumer)
       end).

(** [connectProducersToRecording(recordingId)] *)
Definition connectProducersToRecording (recordingId : string) : M Registry unit :=
  active <- getState ;;
  match (active : Registry) !! recordingId with
  | None => ret tt
  | Some rec =>
      match room with
      | None => throw "Cannot read properties of undefined (reading 'getPeers')"
      | Some r => forEach (map snd (roomProducers r)) (connectProducer recordingId rec)
      end
  end.

Definition createAndConnect (wanted : bool) (port : Z) : M Registry (option TransportId) :=
  if wanted then
    t <- createPlainTransport env ;;
    connect env t port (port + 1) ;;
    ret (Some t)
  else ret None.

Definition isSome {A} (o : option A) : bool :=
  match o with Some _ => true | None => false end.

(** [startRecording(data)] *)
Definition startRecording (room_id user_name : string) : M Registry StartResult :=
  rethrow "Failed to start recording"
    (match room with
     | None => throw "Room not initialized"
     | Some r =>
         if negb (router r) then throw "Router not initialized"
         else
           now <- dateNow env ;;
           let recordingId := "rec-" +:+ JS.showZ now in
           let fileName := "recording-" +:+ recordingId +:+ ".webm" in
           let filePath := JS.pathJoin "files" fileName in
           present <- existsSync env (recordDir env) ;;
           (if present then ret tt else mkdirSync env (recordDir env)) ;;
           let videoCodec := firstRtpParameters video r in
           let audioCodec := firstRtpParameters audio r in
           if negb (isSome videoCodec) && negb (isSome audioCodec)
           then throw "No video or audio producers found for recording"
           else
             basePort <- _getFreeBasePort ;;
             let ffmpegVideoPort := basePort in
             let ffmpegAudioPort := basePort + 2 in
             ffmpeg <- FFmpeg.new env
                         {| Sdp.videoCodec := videoCodec;
                            Sdp.audioCodec := audioCodec;
                            Sdp.remoteRtpPort := ffmpegVideoPort;
                            Sdp.remoteAudioRtpPort :=
                              if isSome audioCodec then Some ffmpegAudioPort else None |} ;;
             videoTransport <- createAndConnect (isSome videoCodec) ffmpegVideoPort ;;
             audioTransport <- createAndConnect (isSome audioCodec) ffmpegAudioPort ;;
             startTime <- dateNow env ;;
             registryUpdate recordingId
               (fun active : Registry =>
                  <[recordingId :=
                      {| rec_ffmpeg := ffmpeg;
                         rec_videoTransport := videoTransport;
                         rec_audioTransport := audioTransport;
                         rec_fileName := fileName;
                         rec_filePath := filePath;
                         rec_startTime := startTime;
                         rec_room_id := room_id;
                         rec_user_name := user_name;
                         rec_producers := [] |}]> active) ;;
             connectProducersToRecording recordingId ;;
             ret {| recording_id := recordingId; file_name := fileName |}
     end).

Definition closeIfSet (t : option TransportId) : M Registry unit :=
  try_ (match t with
        | Some t => closeTransport env t
        | None => ret tt
        end).

(** [stopRecording(data)] *)
Definition stopRecording (recording_id : string) : M Registry StopResult :=
  rethrow "Failed to stop recording"
    (active <- getState ;;
     match (active : Registry) !! recording_id with
     | None => throw "Recording not found"
     | Some recording =>
         forEach (rec_producers recording) (fun c => try_ (closeConsumer env c)) ;;
         FFmpeg.kill env (rec_ffmpeg recording) ;;
         closeIfSet (rec_videoTransport recording) ;;
         closeIfSet (rec_audioTransport recording) ;;
         fileExists <- existsSync env (rec_filePath recording) ;;
         registryDelete recording_id (fun active : Registry => delete recording_id active) ;;
         now <- dateNow env ;;
         ret {| stop_file_name := rec_fileName recording;
                stop_file_path := rec_filePath recording;
                stop_file_exists := fileExists;
                stop_duration := now - rec_startTime recording |}
     end).

End WithEnv.
End RecordingManager.

(** ** recording-manager.js, second class of the file: the recorder with one
    transport for both kinds *)

Module RecordingManagerSingleTransport.

(** The value stored in [this.activeRecordings]. *)
Record Recording := {
  rec_ffmpeg : ProcId;
  rec_transport : TransportId;
  rec_fileName : string;
  rec_filePath : string;
  rec_startTime : Z;
  rec_room_id : string;
  rec_user_name : string;
  rec_producers : list Consumer
}.

Abbreviation Registry := (gmap string Recording).

Definition pushConsumer (recordingId : string) (consumer : Consumer) (active : Registry)
  : Registry :=
  match active !! recordingId with
  | Some rec =>
      <[recordingId :=
          {| rec_ffmpeg := rec_ffmpeg rec;
             rec_transport := rec_transport rec;
             rec_fileName := rec_fileName rec;
             rec_filePath := rec_filePath rec;
             rec_startTime := rec_startTime rec;
             rec_room_id := rec_room_id rec;
             rec_user_name := rec_user_name rec;
             rec_producers := rec_producers rec ++ [consumer] |}]> active
  | None => active
  end.

Section WithEnv.
Variable env : Env.
Variable room : option Room.                    (* this.room *)

(** The body of the loop of [connectProducersToRecording], inside its
    [try {} catch (error) { console.error }]. *)
Definition connectProducer (recordingId : string) (rec : Recording) (producer : Producer)
  : M Registry unit :=
  try_
    (match Sdp.firstCodec (prod_rtpParameters producer) with
     | None => ret tt                           (* 'no valid codecs found' *)
     | Some codec =>
         consumer <- consume env (rec_transport rec) producer false ;;
         resume env consumer ;;
         modifyState (pushConsumer recordingId consumer)
     end).

(** [connectProducersToRecording(recordingId)] *)
Definition connectProducersToRecording (recordingId : string) : M Registry unit :=
  active <- getState ;;
  match (active : Registry) !! recordingId with
  | None => ret tt
  | Some rec =>
      match room with
      | None => throw "Cannot read properties of undefined (reading 'getPeers')"
      | Some r => forEach (map snd (roomProducers r)) (connectProducer recordingId rec)
      end
  end.

(** [startRecording(data)] *)
Definition startRecording (room_id user_name : string)
  : M Registry RecordingManager.StartResult :=
  rethrow "Failed to start recording"
    (match room with
     | None => throw "Room not initialized"
     | Some r =>
         if negb (router r) then throw "Router not initialized"
         else
           transport <- createPlainTransport env ;;
           now <- dateNow env ;;
           let recordingId := "rec-" +:+ JS.showZ now in
           let fileName := "recording-" +:+ recordingId +:+ ".mp4" in
           let filePath := JS.pathJoin "files" fileName in
           present <- existsSync env (recordDir env) ;;
           (if present then ret tt else mkdirSync env (recordDir env)) ;;
           let videoCodec := RecordingManager.firstRtpParameters video r in
           let audioCodec := RecordingManager.firstRtpParameters audio r in
           if negb (RecordingManager.isSome videoCodec) && negb (RecordingManager.isSome audioCodec)
           then throw "No video or audio producers found for recording"
           else
             match env_localPort env transport with
             | None => throw "Transport tuple or localPort is undefined"
             | Some localPort =>
                 if localPort =? 0 then throw "Transport tuple or localPort is undefined"
                 else
                   ffmpeg <- FFmpeg.new env
                               {| Sdp.videoCodec := videoCodec;
                                  Sdp.audioCodec := audioCodec;
                                  Sdp.remoteRtpPort := localPort;
                                  Sdp.remoteAudioRtpPort := None |} ;;
                   startTime <- dateNow env ;;
                   registryUpdate recordingId
                     (fun active : Registry =>
                        <[recordingId :=
                            {| rec_ffmpeg := ffmpeg;
                               rec_transport := transport;
                               rec_fileName := fileName;
                               rec_filePath := filePath;
                               rec_startTime := startTime;
                               rec_room_id := room_id;
                               rec_user_name := user_name;
                               rec_producers := [] |}]> active) ;;
                   connectProducersToRecording recordingId ;;
                   ret {| RecordingManager.recording_id := recordingId;
                          RecordingManager.file_name := fileName |}
             end
     end).

(** [stopRecording(data)] *)
Definition stopRecording (recording_id : string) : M Registry RecordingManager.StopResult :=
  rethrow "Failed to stop recording"
    (active <- getState ;;
     match (active : Registry) !! recording_id with
     | None => throw "Recording not found"
     | Some recording =>
         forEach (rec_producers recording) (fun c => try_ (closeConsumer env c)) ;;
         FFmpeg.kill env (rec_ffmpeg recording) ;;
         try_ (closeTransport env (rec_transport recording)) ;;
         fileExists <- existsSync env (rec_filePath recording) ;;
         registryDelete recording_id (fun active : Registry => delete recording_id active) ;;
         now <- dateNow env ;;
         ret {| RecordingManager.stop_file_name := rec_fileName recording;
                RecordingManager.stop_file_path := rec_filePath recording;
                RecordingManager.stop_file_exists := fileExists;
                RecordingManager.stop_duration := now - rec_startTime recording |}
     end).

End WithEnv.
End RecordingManagerSingleTransport.

(** ** ffmpeg.js, the recording manager at the end of the file: the
    single-file recorder that creates its consumers before the muxer *)

Module RecordingManagerCollect.

(** The value stored in [this.activeRecordings]; [rec_ffmpeg] is [null]
    until the muxer exists. *)
Record Recording := {
  rec_ffmpeg : option ProcId;
  rec_videoTransport : option TransportId;
  rec_audioTransport : option TransportId;
  rec_fileName : string;
  rec_filePath : string;
  rec_startTime : Z;
  rec_room_id : string;
  rec_user_name : string;
  rec_producers : list Consumer;                (* the consumers, despite the name *)
  rec_videoRtpParameters : option RtpParameters;
  rec_audioRtpParameters : option RtpParameters
}.

Abbreviation Registry := (gmap string Recording).

(** The mutations of the object that the registry holds for a recording. *)
Definition updateRecording (recordingId : string) (f : Recording -> Recording)
    (active : Registry) : Registry :=
  match active !! recordingId with
  | Some rec => <[recordingId := f rec]> active
  | None => active
  end.

(** [recording.producers.push(consumer)] *)
Definition pushConsumer (consumer : Consumer) (rec : Recording) : Recording :=
  {| rec_ffmpeg := rec_ffmpeg rec;
     rec_videoTransport := rec_videoTransport rec;
     rec_audioTransport := rec_audioTransport rec;
     rec_fileName := rec_fileName rec;
     rec_filePath := rec_filePath rec;
     rec_startTime := rec_startTime rec;
     rec_room_id := rec_room_id rec;
     rec_user_name := rec_user_name rec;
     rec_producers := rec_producers rec ++ [consumer];
     rec_videoRtpParameters := rec_videoRtpParameters rec;
     rec_audioRtpParameters := rec_audioRtpParameters rec |}.

(** [recording.videoRtpParameters = v; recording.audioRtpParameters = a] *)
Definition setRtpParameters (v a : option RtpParameters) (rec : Recording) : Recording :=
  {| rec_ffmpeg := rec_ffmpeg rec;
     rec_videoTransport := rec_videoTransport rec;
     rec_audioTransport := rec_audioTransport rec;
     rec_fileName := rec_fileName rec;
     rec_filePath := rec_filePath rec;
     rec_startTime := rec_startTime rec;
     rec_room_id := rec_room_id rec;
     rec_user_name := rec_user_name rec;
     rec_producers := rec_producers rec;
     rec_videoRtpParameters := v;
     rec_audioRtpParameters := a |}.

(** [rec.ffmpeg = ffmpeg] *)
Definition setFfmpeg (ffmpeg : ProcId) (rec : Recording) : Recording :=
  {| rec_ffmpeg := Some ffmpeg;
     rec_videoTransport := rec_videoTransport rec;
     rec_audioTransport := rec_audioTransport rec;
     rec_fileName := rec_fileName rec;
     rec_filePath := rec_filePath rec;
     rec_startTime := rec_startTime rec;
     rec_room_id := rec_room_id rec;
     rec_user_name := rec_user_name rec;
     rec_producers := rec_producers rec;
     rec_videoRtpParameters := rec_videoRtpParameters rec;
     rec_audioRtpParameters := rec_audioRtpParameters rec |}.

(** [try { acc = m } catch (error) { console.error }]: the variables keep
    their values when the body throws. *)
Definition tryKeeping {A} (acc : A) (m : M Registry A) : M Registry A :=
  fun s n =>
    match m s n with
    | (Returned a, s1, tr) => (Returned a, s1, tr)
    | (Thrown _, s1, tr) => (Returned acc, s1, tr)
    end.

(** [hasVideo], [hasAudio]: some producer of the room has the kind. *)
Definition hasKind (k : Kind) (r : Room) : bool :=
  existsb (fun producer => Kind_eqb (prod_kind producer) k) (map snd (roomProducers r)).

Section WithEnv.
Variable env : Env.
Variable room : option Room.                    (* this.room *)

(** [_getFreeBasePort()] *)
Fixpoint freeBasePortLoop (attempts : nat) : M Registry Z :=
  match attempts with
  | O => throw "Unable to allocate free UDP ports for recording"
  | Datatypes.S attempts' =>
      r <- randomBelow40000 env ;;
      let candidate := 10000 + r in
      ok1 <- isPortFree env candidate ;;
      ok2 <- isPortFree env (candidate + 2) ;;
      if ok1 && ok2 then ret candidate else freeBasePortLoop attempts'
  end.

Definition _getFreeBasePort : M Registry Z := freeBasePortLoop 50.

(** The body of the loop of [_connectAndCollectRtp] over the producers: the
    accumulator is the pair of [videoRtpParameters] and
    [audioRtpParameters]. *)
Definition collectProducer (recordingId : string) (recording : Recording)
    (acc : option RtpParameters * option RtpParameters) (producer : Producer)
  : M Registry (option RtpParameters * option RtpParameters) :=
  tryKeeping acc
    (if negb (env_canConsume env (prod_id producer)) then ret acc
     else
       match (match prod_kind producer with
              | video => rec_videoTransport recording
              | audio => rec_audioTransport recording
              end) with
       | None => ret acc
       | Some transport =>
           consumer <- consume env transport producer true ;;
           modifyState (updateRecording recordingId (pushConsumer consumer)) ;;
           ret (match prod_kind producer with
                | video => (cons_rtpParameters consumer, snd acc)
                | audio => (fst acc, cons_rtpParameters consumer)
                end)
       end).

(** [_connectAndCollectRtp(recordingId)], for the room [r] of the manager. *)
Definition _connectAndCollectRtp (r : Room) (recordingId : string)
  : M Registry (option RtpParameters * option RtpParameters) :=
  active <- getState ;;
  match (active : Registry) !! recordingId with
  | None => ret (None, None)
  | Some recording =>
      collected <- forOf (map snd (roomProducers r)) (collectProducer recordingId recording)
                     (None, None) ;;
      modifyState
        (updateRecording recordingId (setRtpParameters (fst collected) (snd collected))) ;;
      ret collected
  end.

Definition createAndConnect (wanted : bool) (port : Z) : M Registry (option TransportId) :=
  if wanted then
    t <- createPlainTransport env ;;
    connect env t port (port + 1) ;;
    ret (Some t)
  else ret None.

(** [try { await consumer.resume(); if (video) { try { requestKeyFrame } catch {} } } catch {}] *)
Definition resumeConsumer (consumer : Consumer) : M Registry unit :=
  try_ (resume env consumer ;;
        match cons_kind consumer with
        | video => try_ (requestKeyFrame env consumer)
        | audio => ret tt
        end).

(** [startRecording(data)] *)
Definition startRecording (room_id user_name : string)
  : M Registry RecordingManager.StartResult :=
  rethrow "Failed to start recording"
    (match room with
     | None => throw "Room not initialized"
     | Some r =>
         if negb (router r) then throw "Router not initialized"
         else
           now <- dateNow env ;;
           let recordingId := "rec-" +:+ JS.showZ now in
           let fileName := "recording-" +:+ recordingId +:+ ".webm" in
           let filePath := JS.pathJoin "files" fileName in
           present <- existsSync env (recordDir env) ;;
           (if present then ret tt else mkdirSync env (recordDir env)) ;;
           let hasVideo := hasKind video r in
           let hasAudio := hasKind audio r in
           if negb hasVideo && negb hasAudio
           then throw "No video or audio producers found for recording"
           else
             basePort <- _getFreeBasePort ;;
             let ffmpegVideoPort := basePort in
             let ffmpegAudioPort := basePort + 2 in
             videoTransport <- createAndConnect hasVideo ffmpegVideoPort ;;
             audioTransport <- createAndConnect hasAudio ffmpegAudioPort ;;
             startTime <- dateNow env ;;
             registryUpdate recordingId
               (fun active : Registry =>
                  <[recordingId :=
                      {| rec_ffmpeg := None;
                         rec_videoTransport := videoTransport;
                         rec_audioTransport := audioTransport;
                         rec_fileName := fileName;
                         rec_filePath := filePath;
                         rec_startTime := startTime;
                         rec_room_id := room_id;
                         rec_user_name := user_name;
                         rec_producers := [];
                         rec_videoRtpParameters := None;
                         rec_audioRtpParameters := None |}]> active) ;;
             collected <- _connectAndCollectRtp r recordingId ;;
             ffmpeg <- FFmpeg.new env
                         {| Sdp.videoCodec := fst collected;
                            Sdp.audioCodec := snd collected;
                            Sdp.remoteRtpPort := ffmpegVideoPort;
                            Sdp.remoteAudioRtpPort :=
                              match snd collected with
                              | Some _ => Some ffmpegAudioPort
                              | None => None
                              end |} ;;
             modifyState (updateRecording recordingId (setFfmpeg ffmpeg)) ;;
             active <- getState ;;
             match (active : Registry) !! recordingId with
             | Some rec => forEach (rec_producers rec) resumeConsumer
             | None => ret tt
             end ;;
             ret {| RecordingManager.recording_id := recordingId;
                    RecordingManager.file_name := fileName |}
     end).

Definition closeIfSet (t : option TransportId) : M Registry unit :=
  try_ (match t with
        | Some t => closeTransport env t
        | None => ret tt
        end).

(** [stopRecording(data)] *)
Definition stopRecording (recording_id : string) : M Registry RecordingManager.StopResult :=
  rethrow "Failed to stop recording"
    (active <- getState ;;
     match (active : Registry) !! recording_id with
     | None => throw "Recording not found"
     | Some recording =>
         forEach (rec_producers recording) (fun c => try_ (closeConsumer env c)) ;;
         match rec_ffmpeg recording with
         | Some ffmpeg => FFmpeg.kill env ffmpeg
         | None => ret tt
         end ;;
         closeIfSet (rec_videoTransport recording) ;;
         closeIfSet (rec_audioTransport recording) ;;
         fileExists <- existsSync env (rec_filePath recording) ;;
         registryDelete recording_id (fun active : Registry => delete recording_id active) ;;
         now <- dateNow env ;;
         ret {| RecordingManager.stop_file_name := rec_fileName recording;
                RecordingManager.stop_file_path := rec_filePath recording;
                RecordingManager.stop_file_exists := fileExists;
                RecordingManager.stop_duration := now - rec_startTime recording |}
     end).

End WithEnv.
End RecordingManagerCollect.

(** ** The revised copy of mixed-recording-manager.js: its stop *)

Module MixedRevised.

(** The value stored in [this.active]; [st_ffmpegStartedAt] is set by a
    timer of the start once the muxer is seen to process frames. *)
Record State := {
  st_recordingId : string;
  st_fileName : string;
  st_outputPath : string;
  st_sdpDir : string;
  st_transports : list TransportId;
  st_consumers : list Consumer;
  st_ff : ProcId;
  st_keyframeIntervals : list TimerId;
  st_startedAt : Z;
  st_ffmpegStartedAt : option Z;
  st_monitorInterval : option TimerId
}.

Abbreviation Registry := (gmap string State).

Inductive StopResult :=
| NotFound
| Stopped (fileName filePath : string) (fileExists : bool) (duration : string)
    (actualElapsed : Z).

Definition minRunMs : Z := 5000.

(** [st.ffmpegStartedAt || st.startedAt] *)
Definition actualStartTime (st : State) : Z :=
  JS.numOr (st_ffmpegStartedAt st) (st_startedAt st).

Section WithEnv.
Variable env : Env.
Variable socket : bool.                         (* this.socket is set *)

Definition emitIfSocket (event detail : string) : M Registry unit :=
  if socket then emit event detail else ret tt.

Definition closeResources (st : State) : M Registry unit :=
  forEach (st_consumers st) (fun c => try_ (closeConsumer env c)) ;;
  forEach (st_transports st) (fun t => try_ (closeTransport env t)).

(** [checkDuration()] *)
Definition checkDuration (outputPath : string) : M Registry string :=
  present <- existsSync env outputPath ;;
  if negb present then ret "0"
  else
    n <- time ;;
    if env_fileSize env n outputPath =? 0 then ret "0"
    else
      spawn env "ffprobe"
        ["-v"; "error"; "-show_entries"; "format=duration"; "-of"; "json"; outputPath] ;;
      n <- time ;;
      ret (env_probeDuration env n outputPath).

(** [stopMixedRecording({ recording_id })] *)
Definition stopMixedRecording (recording_id : string) : M Registry StopResult :=
  active <- getState ;;
  match (active : Registry) !! recording_id with
  | None => ret NotFound
  | Some st =>
      emitIfSocket "recordingStateChanged" "stopping" ;;
      now <- dateNow env ;;
      let actualElapsed := now - actualStartTime st in
      (if actualElapsed <? minRunMs then sleep (minRunMs - actualElapsed) else ret tt) ;;
      exited <- waitForProcessClose env (st_ff st) 300 ;;
      exited <- (if negb exited then
                   try_ (writable <- stdinWritable env (st_ff st) ;;
                         if writable then
                           stdinWrite env (st_ff st) ("q" +:+ JS.nl) ;;
                           stdinEnd env (st_ff st)
                         else ret tt) ;;
                   waitForProcessClose env (st_ff st) 30000
                 else ret exited) ;;
      exited <- (if negb exited then
                   closeResources st ;;
                   waitForProcessClose env (st_ff st) 5000
                 else ret exited) ;;
      forEach (st_keyframeIntervals st) clearInterval ;;
      match st_monitorInterval st with
      | Some h => clearInterval h
      | None => ret tt
      end ;;
      closeResources st ;;
      registryDelete recording_id (fun active : Registry => delete recording_id active) ;;
      duration <- checkDuration (st_outputPath st) ;;
      removeDirLater (st_sdpDir st) 1500 ;;
      present <- existsSync env (st_outputPath st) ;;
      emitIfSocket "recordingStateChanged" "processing" ;;
      emitIfSocket "recordingStopped" "" ;;
      ret (Stopped (st_fileName st) (st_outputPath st) present duration actualElapsed)
  end.

End WithEnv.
End MixedRevised.

(** * Statements

    Definitions used to state the properties: projections of a run,
    predicates on call traces, the shape the specification gives to a media
    section, and the concrete rooms and environments of the examples. *)

Definition outcome {S A} (run : Outcome A * S * list Call) : Outcome A := fst (fst run).

Definition stateOf {S A} (run : Outcome A * S * list Call) : S := snd (fst run).

Definition calls {S A} (run : Outcome A * S * list Call) : list Call := snd run.

(** The media section as the specification words it (section 4.3), with or
    without the [a=rtcp] line. *)
Definition specMediaSection (withRtcp : bool) (kind : Kind) (port pt : Z)
    (name : option string) (clockrate : Z) (channels : option Z) (fmtp : string) : list string :=
  ["m=" +:+ kindName kind +:+ " " +:+ JS.showZ port +:+ " RTP/AVP " +:+ JS.showZ pt;
   match kind with
   | video =>
       "a=rtpmap:" +:+ JS.showZ pt +:+ " " +:+ JS.showOptStr name +:+ "/" +:+ JS.showZ clockrate
   | audio =>
       "a=rtpmap:" +:+ JS.showZ pt +:+ " " +:+ JS.showOptStr name +:+ "/" +:+ JS.showZ clockrate
         +:+ "/" +:+ JS.showZ (JS.numOr channels 2)
   end]
  ++ (if withRtcp then ["a=rtcp:" +:+ JS.showZ (port + 1) +:+ " IN IP4 127.0.0.1"] else [])
  ++ ["a=recvonly"]
  ++ (if String.eqb fmtp "" then [] else ["a=fmtp:" +:+ JS.showZ pt +:+ " " +:+ fmtp]).

(** The top-left corner the specification gives to input [i] of a grid with
    [l]'s columns and cell size: column [i mod cols], row [i div cols]. *)
Definition specCorner (l : Mixed.Layout) (i : nat) : string :=
  JS.showZ (Z.of_nat (i mod Mixed.cols l) * Mixed.cellW l) +:+ "_"
  +:+ JS.showZ (Z.of_nat (i / Mixed.cols l) * Mixed.cellH l).

(** The label under which the grid stack reads video input [i]. *)
Definition stackLabel (i : nat) : string := "[v" +:+ JS.showNat i +:+ "]".

(** The chain that normalizes video input [i] to a cell of the grid [l] and
    gives it the label of input [i] of the stack. *)
Definition normalizedInput (l : Mixed.Layout) (i : nat) : string :=
  "[" +:+ JS.showNat i +:+ ":v]"
  +:+ "scale=" +:+ JS.showZ (Mixed.cellW l) +:+ ":" +:+ JS.showZ (Mixed.cellH l)
  +:+ ":force_original_aspect_ratio=decrease:eval=frame,"
  +:+ "pad=" +:+ JS.showZ (Mixed.cellW l) +:+ ":" +:+ JS.showZ (Mixed.cellH l)
  +:+ ":(ow-iw)/2:(oh-ih)/2:color=black,"
  +:+ "fps=25,setsar=1,format=yuv420p" +:+ stackLabel i.

(** The grid stack of [V] inputs: input [i] is read under its label and
    placed at the corner the specification gives it; the cells without an
    input are filled with black. *)
Definition gridStack (l : Mixed.Layout) (V : nat) : string :=
  JS.join "" (map stackLabel (seq 0 V))
  +:+ "xstack=inputs=" +:+ JS.showNat V
  +:+ ":layout=" +:+ JS.join "|" (map (specCorner l) (seq 0 V))
  +:+ ":fill=black:shortest=0[vtmp]".

(** ** Rooms and environments of the examples *)

Definition opusCodec (pt : Z) : RtpCodec :=
  {| mimeType := "audio/opus"; payloadType := pt; clockRate := 48000; channels := Some 2;
     parameters := Some [("useinbandfec", PNum 1)] |}.

Definition vp8Codec (pt : Z) : RtpCodec :=
  {| mimeType := "video/VP8"; payloadType := pt; clockRate := 90000; channels := None;
     parameters := None |}.

Definition audioProducer (id : string) (pt : Z) : Producer :=
  {| prod_id := id; prod_kind := audio; prod_rtpParameters := Some {| codecs := Some [opusCodec pt] |} |}.

Definition videoProducer (id : string) (pt : Z) : Producer :=
  {| prod_id := id; prod_kind := video; prod_rtpParameters := Some {| codecs := Some [vp8Codec pt] |} |}.

Definition audioOnlyRoom : Room :=
  {| router := true;
     peers := [{| peer_id := "alice"; peer_producers := [audioProducer "a1" 111] |}] |}.

(** An environment in which no call throws, every port is free, every
    producer can be consumed, and the router gives the consumer of a video
    producer payload type 101 and that of an audio producer payload type 100,
    whatever the producer's own. *)
Definition calmEnv : Env :=
  {| env_throws := fun _ _ => None;
     env_canConsume := fun _ => true;
     env_consumerRtp :=
       fun p =>
         match prod_kind p with
         | video => Some {| codecs := Some [vp8Codec 101] |}
         | audio => Some {| codecs := Some [opusCodec 100] |}
         end;
     env_random := fun _ => 0;
     env_portFree := fun _ _ => true;
     env_now := fun n => 1700000000000 + Z.of_nat n;
     env_exists := fun _ _ => true;
     env_exited := fun _ _ _ => false;
     env_stdinWritable := fun _ _ => true;
     env_probeDuration := fun _ _ => "0";
     env_localPort := fun _ => Some 40000;
     env_fileSize := fun _ _ => 1;
     env_recordDir := None |}.

(** The argument vector of the muxer in a run, when the run spawned one. *)
Definition spawnedArgs (cmd : string) (tr : list Call) : option (list string) :=
  match
    find (fun c => match c with Spawn cmd' _ => String.eqb cmd' cmd | _ => false end) tr
  with
  | Some (Spawn _ args) => Some args
  | _ => None
  end.

(** Two consecutive elements of an argument vector. *)
Fixpoint hasOption (flag value : string) (args : list string) : bool :=
  match args with
  | a :: (b :: _) as rest => (String.eqb a flag && String.eqb b value) || hasOption flag value rest
  | _ => false
  end.

(** ** Predicates on runs and call traces *)

(** Every call a computation makes satisfies [P], whatever the registry and
    the time it starts from. *)
Definition emits {S A} (P : Call -> Prop) (m : M S A) : Prop :=
  forall s n, Forall P (calls (m s n)).

(** Every value a computation returns satisfies [Q]. *)
Definition returns {S A} (Q : A -> Prop) (m : M S A) : Prop :=
  forall s n a, outcome (m s n) = Returned a -> Q a.

(** A computation that never throws. *)
Definition total {S A} (m : M S A) : Prop :=
  forall s n, exists a, outcome (m s n) = Returned a.

(** A computation that leaves the registry as it found it. *)
Definition readonly {S A} (m : M S A) : Prop :=
  forall s n, stateOf (m s n) = s.

(** In the trace [tr], every [guarded] call comes after some [gate] call. *)
Definition gatedBy (gate guarded : Call -> Prop) (tr : list Call) : Prop :=
  forall pre c post, tr = pre ++ c :: post -> guarded c -> exists g, In g pre /\ gate g.

Definition isResume (c : Call) : Prop :=
  match c with Resume _ => True | _ => False end.

Definition isMuxerSpawn (c : Call) : Prop :=
  match c with Spawn cmd _ => cmd = "ffmpeg" | _ => False end.

(** A consumer or an endpoint is closed. *)
Definition isClose (c : Call) : Prop :=
  match c with CloseConsumer _ | CloseTransport _ => True | _ => False end.

(** The muxer [p] is asked to terminate: [q] on its standard input, or a signal. *)
Definition isTerminationRequest (p : ProcId) (c : Call) : Prop :=
  match c with
  | StdinWrite p' text => p' = p /\ text = "q" +:+ JS.nl
  | Kill p' _ => p' = p
  | _ => False
  end.

Definition isSleep (c : Call) : Prop :=
  match c with Sleep _ => True | _ => False end.

(** The muxer [p] is asked to quit: [q] and a newline on its standard input. *)
Definition isQuitRequest (p : ProcId) (c : Call) : Prop :=
  c = StdinWrite p ("q" +:+ JS.nl).

(** A process is sent a signal. *)
Definition isKill (c : Call) : Prop :=
  match c with Kill _ _ => True | _ => False end.

(** The registry is changed: an entry is set or removed. *)
Definition isRegistryChange (c : Call) : Prop :=
  match c with RegistrySet _ | RegistryDelete _ => True | _ => False end.

(** A consumer is created paused. *)
Definition consumesPaused (c : Call) : Prop :=
  match c with Consume _ _ paused => paused = true | _ => True end.

(** The calls that close the consumers, then the transports, of a recording. *)
Definition closeCalls (consumers : list Consumer) (transports : list TransportId) : list Call :=
  map (fun c => CloseConsumer (cons_id c)) consumers ++ map CloseTransport transports.

(** The SDP file written is the one [_buildPerInputSdp] synthesizes from the
    codec that the code extracts from the rtpParameters the router assigned
    to the recording consumer of a producer of the room. *)
Definition writesConsumerSdp (env : Env) (producers : list Producer) (c : Call) : Prop :=
  match c with
  | WriteFile _ text =>
      exists producer ci port,
        In producer producers
        /\ Mixed._codecFromRtpParameters (prod_kind producer) (env_consumerRtp env producer) = Some ci
        /\ text
           = Mixed._buildPerInputSdp
               {| Mixed.si_kind := prod_kind producer;
                  Mixed.si_codecName := ci_codecName ci;
                  Mixed.si_clockRate := ci_clockRate ci;
                  Mixed.si_channels :=
                    match prod_kind producer with audio => ci_channels ci | video => None end;
                  Mixed.si_payloadType := ci_payloadType ci;
                  Mixed.si_port := port;
                  Mixed.si_fmtp := ci_fmtp ci |}
  | _ => True
  end.

(** The candidate port drawn at time [t]. *)
Definition candidate (env : Env) (base : Z) (t : nat) : Z := base + env_random env t.

(** The bind probes of the first [k] attempts of a search that starts at time [n]. *)
Definition probes (env : Env) (base : Z) (n k : nat) : list Call :=
  map (fun j => BindProbe (candidate env base (n + j))) (seq 0 k).

(** An environment in which one port is free and every other port, the next
    one among them, is taken. *)
Definition crowdedEnv (freePort : Z) : Env :=
  {| env_throws := fun _ _ => None;
     env_canConsume := fun _ => true;
     env_consumerRtp := env_consumerRtp calmEnv;
     env_random := fun _ => 0;
     env_portFree := fun _ port => port =? freePort;
     env_now := env_now calmEnv;
     env_exists := fun _ _ => true;
     env_exited := fun _ _ _ => false;
     env_stdinWritable := fun _ _ => true;
     env_probeDuration := fun _ _ => "0";
     env_localPort := fun _ => Some 40000;
     env_fileSize := fun _ _ => 1;
     env_recordDir := None |}.

(** An environment like [calmEnv] whose router assigns to every recording
    consumer rtpParameters without any codec. *)
Definition codeclessEnv : Env :=
  {| env_throws := fun _ _ => None;
     env_canConsume := fun _ => true;
     env_consumerRtp := fun _ => Some {| codecs := Some [] |};
     env_random := fun _ => 0;
     env_portFree := fun _ _ => true;
     env_now := env_now calmEnv;
     env_exists := fun _ _ => true;
     env_exited := fun _ _ _ => false;
     env_stdinWritable := fun _ _ => true;
     env_probeDuration := fun _ _ => "0";
     env_localPort := fun _ => Some 40000;
     env_fileSize := fun _ _ => 1;
     env_recordDir := None |}.

(** A computation that always throws and leaves the registry as it found it. *)
Definition aborts {S A} (m : M S A) : Prop :=
  forall s n, (exists e, outcome (m s n) = Thrown e) /\ stateOf (m s n) = s.

(** The time a stop is held for: the sleeps at the head of its trace, before
    its first call on the muxer (lifecycle events do not count). *)
Fixpoint holdBefore (tr : list Call) : Z :=
  match tr with
  | Sleep ms :: rest => ms + holdBefore rest
  | Emit _ _ :: rest => holdBefore rest
  | _ => 0
  end.

(** A consumer of a video producer, as the router of [calmEnv] creates it. *)
Definition videoConsumer (id : ConsumerId) (producerId : string) : Consumer :=
  {| cons_id := id; cons_kind := video; cons_producerId := producerId;
     cons_rtpParameters := Some {| codecs := Some [vp8Codec 101] |} |}.

(** A mixed recording with one video input, started at [startedAt]. *)
Definition mixedState (startedAt : Z) : Mixed.State :=
  {| Mixed.st_recordingId := "rec-mix-1";
     Mixed.st_fileName := "mixed-rec-mix-1.mp4";
     Mixed.st_outputPath := "./files/mixed-rec-mix-1.mp4";
     Mixed.st_sdpDir := "./files/sdp/rec-mix-1";
     Mixed.st_transports := [1%nat];
     Mixed.st_consumers := [videoConsumer 2%nat "v1"];
     Mixed.st_ff := 6%nat;
     Mixed.st_keyframeIntervals := [9%nat];
     Mixed.st_startedAt := startedAt |}.

Definition mixedRegistry (startedAt : Z) : gmap string Mixed.State :=
  {[ "rec-mix-1" := mixedState startedAt ]}.

(** The same recording in the registry of the revised manager. *)
Definition revisedState (startedAt : Z) (ffmpegStartedAt : option Z) : MixedRevised.State :=
  {| MixedRevised.st_recordingId := "rec-mix-1";
     MixedRevised.st_fileName := "mixed-rec-mix-1.mp4";
     MixedRevised.st_outputPath := "./files/mixed-rec-mix-1.mp4";
     MixedRevised.st_sdpDir := "./files/sdp/rec-mix-1";
     MixedRevised.st_transports := [1%nat];
     MixedRevised.st_consumers := [videoConsumer 2%nat "v1"];
     MixedRevised.st_ff := 6%nat;
     MixedRevised.st_keyframeIntervals := [9%nat];
     MixedRevised.st_startedAt := startedAt;
     MixedRevised.st_ffmpegStartedAt := ffmpegStartedAt;
     MixedRevised.st_monitorInterval := Some 10%nat |}.

Definition revisedRegistry (startedAt : Z) (ffmpegStartedAt : option Z)
  : gmap string MixedRevised.State :=
  {[ "rec-mix-1" := revisedState startedAt ffmpegStartedAt ]}.

(** A per-participant recording of the video producers of two peers. *)
Definition perItem (peer producer : string) (transport consumer ff : nat) : PerParticipant.Item :=
  {| PerParticipant.it_peerId := peer;
     PerParticipant.it_producerId := producer;
     PerParticipant.it_kind := video;
     PerParticipant.it_transport := transport;
     PerParticipant.it_consumer := videoConsumer consumer producer;
     PerParticipant.it_sdpPath :=
       "./files/per/room/rec-per-1/video-" +:+ peer +:+ "-" +:+ producer +:+ ".sdp";
     PerParticipant.it_outFile :=
       "./files/per/room/rec-per-1/video-" +:+ peer +:+ "-" +:+ producer +:+ ".webm";
     PerParticipant.it_ff := ff |}.

Definition perState (startedAt : Z) : PerParticipant.State :=
  {| PerParticipant.st_id := "rec-per-1";
     PerParticipant.st_roomId := "room";
     PerParticipant.st_baseDir := "./files/per/room/rec-per-1";
     PerParticipant.st_startedAt := startedAt;
     PerParticipant.st_items :=
       [perItem "alice" "v1" 1%nat 2%nat 6%nat; perItem "bob" "v2" 9%nat 10%nat 14%nat] |}.

Definition perRegistry (startedAt : Z) : gmap string PerParticipant.State :=
  {[ "rec-per-1" := perState startedAt ]}.

(** The calls that stop one item of a per-participant recording. *)
Definition stopCalls (it : PerParticipant.Item) : list Call :=
  [Kill (PerParticipant.it_ff it) "SIGINT";
   CloseConsumer (cons_id (PerParticipant.it_consumer it));
   CloseTransport (PerParticipant.it_transport it)].

(** The last phase of the mixed stop, from the clearing of the keyframe
    timers on: it does not depend on whether the muxer has exited. *)
Definition mixedStopFinish (env : Env) (recording_id : string) (st : Mixed.State)
  : M (gmap string Mixed.State) Mixed.StopResult :=
  bind (forEach (Mixed.st_keyframeIntervals st) clearInterval) (fun _ =>
  bind (Mixed.closeResources env st) (fun _ =>
  bind (registryDelete recording_id (fun active : gmap string Mixed.State => delete recording_id active))
    (fun _ =>
  bind (Mixed.checkDuration env (Mixed.st_outputPath st)) (fun duration =>
  bind (removeDirLater (Mixed.st_sdpDir st) 1500) (fun _ =>
  bind (existsSync env (Mixed.st_outputPath st)) (fun present =>
  ret (Mixed.Stopped (Mixed.st_fileName st) (Mixed.st_outputPath st) present duration))))))).

(** An environment like [calmEnv] in which the muxer has already exited
    whenever it is waited for. *)
Definition exitedEnv : Env :=
  {| env_throws := fun _ _ => None;
     env_canConsume := fun _ => true;
     env_consumerRtp := env_consumerRtp calmEnv;
     env_random := fun _ => 0;
     env_portFree := fun _ _ => true;
     env_now := env_now calmEnv;
     env_exists := fun _ _ => true;
     env_exited := fun _ _ _ => true;
     env_stdinWritable := fun _ _ => true;
     env_probeDuration := fun _ _ => "0";
     env_localPort := fun _ => Some 40000;
     env_fileSize := fun _ _ => 1;
     env_recordDir := None |}.

(** The mixed stop after its first wait for the muxer, which told [exited]. *)
Definition mixedStopAfterWait (env : Env) (recording_id : string) (st : Mixed.State)
    (exited : bool) : M (gmap string Mixed.State) Mixed.StopResult :=
  bind (if negb exited then
          bind (try_ (bind (stdinWritable env (Mixed.st_ff st)) (fun writable =>
                        if writable then
                          bind (stdinWrite env (Mixed.st_ff st) ("q" +:+ JS.nl)) (fun _ =>
                          stdinEnd env (Mixed.st_ff st))
                        else ret tt)))
               (fun _ => waitForProcessClose env (Mixed.st_ff st) 30000)
        else ret exited) (fun exited =>
  bind (if negb exited then
          bind (Mixed.closeResources env st) (fun _ =>
          waitForProcessClose env (Mixed.st_ff st) 5000)
        else ret exited) (fun _ =>
  mixedStopFinish env recording_id st)).

(** A room whose only producer is one VP8 video producer that sends payload
    type 96; in [calmEnv] the router gives its recording consumer payload
    type 101. *)
Definition videoRoom : Room :=
  {| router := true;
     peers := [{| peer_id := "alice"; peer_producers := [videoProducer "v1" 96] |}] |}.

(** The SDP piped to the standard input of the muxer in a run. *)
Definition pipedSdp (tr : list Call) : option string :=
  match find (fun c => match c with StdinWrite _ _ => true | _ => false end) tr with
  | Some (StdinWrite _ text) => Some text
  | _ => None
  end.

(** The [consume] calls of a run. *)
Definition consumeCalls (tr : list Call) : list Call :=
  List.filter (fun c => match c with Consume _ _ _ => true | _ => false end) tr.

(** The payload types of the codecs of some rtpParameters. *)
Definition payloadTypes (rp : option RtpParameters) : list Z :=
  match rp with
  | Some {| codecs := Some cs |} => map payloadType cs
  | _ => []
  end.

(** The per-participant counterpart of [writesConsumerSdp]: the SDP file
    written is the one [_sdpFor] synthesizes from the codec of the consumer. *)
Definition writesConsumerSdpFor (env : Env) (producers : list Producer) (c : Call) : Prop :=
  match c with
  | WriteFile _ text =>
      exists producer ci port,
        In producer producers
        /\ PerParticipant._codecInfo (prod_kind producer) (env_consumerRtp env producer) = Some ci
        /\ text
           = PerParticipant._sdpFor (prod_kind producer) (ci_payloadType ci) (ci_codecName ci)
               (ci_clockRate ci) port (ci_channels ci) (ci_fmtp ci)
  | _ => True
  end.

(** ** Statements on the codec extraction and the SDP writers *)

(** [x.mimeType.toLowerCase().includes(kind)], the test of the codec search. *)
Definition matchesKind (kind : Kind) (c : RtpCodec) : bool :=
  JS.includes (JS.toLowerCase (mimeType c)) (kindName kind).

(** A string without the character [sep]. *)
Definition lacks (sep : ascii) (s : string) : Prop :=
  JS.includes s (String sep "") = false.

(** The number of media sections a codec argument of [createSdpText] gives
    rise to: one when it holds a non-empty codec array. *)
Definition sectionsOf (rp : option RtpParameters) : nat :=
  match Sdp.firstCodec rp with
  | Some _ => 1
  | None => 0
  end.

(** ** Statements on the allocator of the single-file recorder *)

(** The base port the attempt that starts at time [t] draws. *)
Definition baseCandidate (env : Env) (t : nat) : Z := 10000 + env_random env t.

(** The attempt that starts at time [t] finds its two ports free: the base
    port at time [t], the base port plus 2 at the next probe. *)
Definition pairFree (env : Env) (t : nat) : bool :=
  env_portFree env t (baseCandidate env t)
  && env_portFree env (Datatypes.S t) (baseCandidate env t + 2).

(** The bind probes of the first [k] attempts of a search that starts at
    time [n]: two per attempt. *)
Definition pairProbes (env : Env) (n k : nat) : list Call :=
  flat_map
    (fun a => [BindProbe (baseCandidate env (n + 2 * a));
               BindProbe (baseCandidate env (n + 2 * a) + 2)])
    (seq 0 k).

(** ** Statements on runs: weakest preconditions *)

(** [wp m s n Q]: the run of [m] from the registry [s] at time [n] ends with
    an outcome, a registry and calls that satisfy [Q]. *)
Definition wp {S A} (m : M S A) (s : S) (n : nat)
    (Q : Outcome A -> S -> list Call -> Prop) : Prop :=
  Q (outcome (m s n)) (stateOf (m s n)) (calls (m s n)).

(** ** Statements on one iteration of the mixed start *)

(** The SDP file path of a producer in the mixed recorder. *)
Definition mixedSdpPath (sdpDir : string) (kind : Kind) (producer : Producer) : string :=
  JS.pathJoin sdpDir
    ((match kind with video => "v-" | audio => "a-" end) +:+ prod_id producer +:+ ".sdp").

(** The SDP text the mixed recorder writes for a codec received on [port]. *)
Definition mixedSdpText (kind : Kind) (ci : CodecInfo) (port : Z) : string :=
  Mixed._buildPerInputSdp
    {| Mixed.si_kind := kind;
       Mixed.si_codecName := ci_codecName ci;
       Mixed.si_clockRate := ci_clockRate ci;
       Mixed.si_channels := match kind with audio => ci_channels ci | video => None end;
       Mixed.si_payloadType := ci_payloadType ci;
       Mixed.si_port := port;
       Mixed.si_fmtp := ci_fmtp ci |}.

(** The consumer the router creates, at time [t], for a producer. *)
Definition consumerAt (env : Env) (t : nat) (producer : Producer) : Consumer :=
  {| cons_id := t;
     cons_kind := prod_kind producer;
     cons_producerId := prod_id producer;
     cons_rtpParameters := env_consumerRtp env producer |}.

(** The arrays of a mixed start after one more producer has been bound, at
    time [n], to the transport [n] and the consumer [n + 1]. *)
Definition boundWith (env : Env) (kind : Kind) (sdpDir : string) (acc : Mixed.Bound)
    (producer : Producer) (n : nat) : Mixed.Bound :=
  {| Mixed.b_inputs :=
       Mixed.b_inputs acc
       ++ [{| Mixed.in_kind := kind; Mixed.in_sdpPath := mixedSdpPath sdpDir kind producer |}];
     Mixed.b_transports := Mixed.b_transports acc ++ [n];
     Mixed.b_consumers := Mixed.b_consumers acc ++ [consumerAt env (Datatypes.S n) producer] |}.

(** The calls of an iteration that binds a producer at time [n] after
    [k] probes, the last of which found [port] free. *)
Definition bindingCalls (env : Env) (kind : Kind) (sdpDir : string) (producer : Producer)
    (ci : CodecInfo) (n k : nat) (port : Z) : list Call :=
  [CreatePlainTransport; Consume n (prod_id producer) true]
  ++ probes env 15000 (Datatypes.S (Datatypes.S n)) k
  ++ [Connect n port (port + 1);
      WriteFile (mixedSdpPath sdpDir kind producer) (mixedSdpText kind ci port)].

(** The calls of an iteration that skips a producer whose consumer has no
    codec of the kind: the transport it created is closed. *)
Definition skippingCalls (producer : Producer) (n : nat) : list Call :=
  [CreatePlainTransport; Consume n (prod_id producer) true; CloseTransport n].

(** The calls an iteration makes before it binds: none of them spawns,
    resumes, closes a consumer, sets a timer or touches the registry. *)
Definition isBinding (c : Call) : Prop :=
  match c with
  | CreatePlainTransport | Consume _ _ true | BindProbe _ | Connect _ _ _ | WriteFile _ _ => True
  | _ => False
  end.

(** ** Statements on the resources of a run *)

(** The handles of the objects that the calls selected by [creates] create
    in a trace that starts at time [n]: a handle is the time of its call. *)
Fixpoint handlesOf (creates : Call -> bool) (n : nat) (tr : list Call) : list nat :=
  match tr with
  | [] => []
  | c :: rest =>
      (if creates c then [n] else []) ++ handlesOf creates (Datatypes.S n) rest
  end.

Definition isCreateTransport (c : Call) : bool :=
  match c with CreatePlainTransport => true | _ => false end.

Definition isSetInterval (c : Call) : bool :=
  match c with SetInterval _ _ => true | _ => false end.

Definition isSpawnOf (cmd : string) (c : Call) : bool :=
  match c with Spawn cmd' _ => String.eqb cmd' cmd | _ => false end.

(** The transports a trace closes. *)
Definition closedTransports (tr : list Call) : list nat :=
  flat_map (fun c => match c with CloseTransport t => [t] | _ => [] end) tr.

(** The transports that a trace starting at time [n] creates and does not
    close, in creation order. *)
Definition liveTransports (n : nat) (tr : list Call) : list nat :=
  List.filter (fun t => negb (existsb (Nat.eqb t) (closedTransports tr)))
    (handlesOf isCreateTransport n tr).

(** The consumers a trace resumes, in order. *)
Definition resumedConsumers (tr : list Call) : list nat :=
  flat_map (fun c => match c with Resume c => [c] | _ => [] end) tr.

(** The paths of the files a trace writes, in order. *)
Definition writtenPaths (tr : list Call) : list string :=
  flat_map (fun c => match c with WriteFile path _ => [path] | _ => [] end) tr.

(** The calls of the loops of the mixed start: those of an iteration that
    binds, and the close of an iteration that skips. *)
Definition isBindingOrSkip (c : Call) : Prop :=
  match c with
  | CloseTransport _ => True
  | _ => isBinding c
  end.

(** The calls of the resume loop: resumes and keyframe requests. *)
Definition isResumption (c : Call) : Prop :=
  match c with
  | Resume _ | RequestKeyFrame _ => True
  | _ => False
  end.

(** The calls that create the directories of a start. *)
Definition isMkdir (c : Call) : Prop :=
  match c with
  | Mkdir _ => True
  | _ => False
  end.

(** The calls of the keyframe pump of the given consumers, when none
    throws: one 2 s timer per video consumer. *)
Definition pumpCalls (consumers : list Consumer) : list Call :=
  flat_map
    (fun c =>
       match cons_kind c with
       | video => [SetInterval (cons_id c) 2000]
       | audio => []
       end)
    consumers.

(** A part of a trace that neither creates nor closes a transport. *)
Definition transportFree (tr : list Call) : Prop :=
  Forall (fun c => isCreateTransport c = false
                   /\ match c with CloseTransport _ => False | _ => True end) tr.

(** What a run of the mixed start from the registry [s] at time [n] ends
    with. A start that throws leaves the registry as it was. A start that
    returns has set one entry, under the id it returns, and made the set of
    the entry its last call; the entry holds the transports created and not
    closed, the consumers resumed, the muxer spawned and the timers set; the
    muxer was spawned with one input per SDP file written: at most four
    video inputs first, then the audio inputs. *)
Definition mixedStartPost (env : Env) (r : Room) (width height : Z)
    (s : gmap string Mixed.State) (n : nat)
    (o : Outcome Mixed.StartResult) (s1 : gmap string Mixed.State) (tr : list Call) : Prop :=
  match o with
  | Thrown _ => s1 = s
  | Returned res =>
      let id := "rec-mix-" +:+ JS.showZ (env_now env n) in
      let fileName := "mixed-" +:+ id +:+ ".mp4" in
      let outputPath := JS.pathJoin (recordDir env) fileName in
      res = {| Mixed.recording_id := id; Mixed.file_name := fileName;
               Mixed.file_path := outputPath |}
      /\ exists st vs as_ tr0,
           s1 = <[id := st]> s
           /\ tr = tr0 ++ [RegistrySet id]
           /\ Mixed.st_recordingId st = id
           /\ Mixed.st_fileName st = fileName
           /\ Mixed.st_outputPath st = outputPath
           /\ Mixed.st_sdpDir st = JS.pathJoin (JS.pathJoin (recordDir env) "sdp") id
           /\ Mixed.st_startedAt st = env_now env (n + length tr0)
           /\ Mixed.st_transports st = liveTransports n tr
           /\ map cons_id (Mixed.st_consumers st) = resumedConsumers tr
           /\ [Mixed.st_ff st] = handlesOf (isSpawnOf "ffmpeg") n tr
           /\ Mixed.st_keyframeIntervals st = handlesOf isSetInterval n tr
           /\ length (Mixed.st_consumers st) = length (Mixed.st_transports st)
           /\ spawnedArgs "ffmpeg" tr = Some (Mixed.ffArgs (vs ++ as_) width height outputPath)
           /\ Forall (fun i => Mixed.in_kind i = video) vs
           /\ Forall (fun i => Mixed.in_kind i = audio) as_
           /\ (length vs <= 4)%nat
           /\ (0 < length (vs ++ as_))%nat
           /\ length (vs ++ as_) = length (Mixed.st_consumers st)
           /\ map Mixed.in_sdpPath (vs ++ as_) = writtenPaths tr
  end.

(** An environment like [calmEnv] whose record directory is set, to an
    absolute path. *)
Definition mountedEnv : Env :=
  {| env_throws := fun _ _ => None;
     env_canConsume := fun _ => true;
     env_consumerRtp := env_consumerRtp calmEnv;
     env_random := fun _ => 0;
     env_portFree := fun _ _ => true;
     env_now := env_now calmEnv;
     env_exists := fun _ _ => true;
     env_exited := fun _ _ _ => false;
     env_stdinWritable := fun _ _ => true;
     env_probeDuration := fun _ _ => "0";
     env_localPort := fun _ => Some 40000;
     env_fileSize := fun _ _ => 1;
     env_recordDir := Some "/recordings" |}.

(** ** Statements on the per-participant start *)

(** The stem of the file names of a producer: kind, peer and producer. *)
Definition perStem (entry : Peer * Producer) : string :=
  kindName (prod_kind (snd entry)) +:+ "-" +:+ peer_id (fst entry) +:+ "-"
  +:+ prod_id (snd entry).

Definition perSdpPath (baseDir : string) (entry : Peer * Producer) : string :=
  JS.pathJoin baseDir (perStem entry +:+ ".sdp").

Definition perOutFile (baseDir : string) (entry : Peer * Producer) : string :=
  JS.pathJoin baseDir (perStem entry +:+ ".webm").

(** The item pushed for a producer bound at time [n] whose muxer was
    spawned at time [ff]. *)
Definition itemAt (env : Env) (baseDir : string) (entry : Peer * Producer) (n ff : nat)
  : PerParticipant.Item :=
  {| PerParticipant.it_peerId := peer_id (fst entry);
     PerParticipant.it_producerId := prod_id (snd entry);
     PerParticipant.it_kind := prod_kind (snd entry);
     PerParticipant.it_transport := n;
     PerParticipant.it_consumer := consumerAt env (Datatypes.S n) (snd entry);
     PerParticipant.it_sdpPath := perSdpPath baseDir entry;
     PerParticipant.it_outFile := perOutFile baseDir entry;
     PerParticipant.it_ff := ff |}.

(** The calls of an iteration of the per-participant start that records a
    producer, bound at time [n] after [k] probes of which the last found
    [port] free; the keyframe is requested for a video producer only. *)
Definition recordingCalls (env : Env) (baseDir : string) (entry : Peer * Producer)
    (ci : CodecInfo) (n k : nat) (port : Z) : list Call :=
  [CreatePlainTransport; Consume n (prod_id (snd entry)) true]
  ++ probes env 20000 (Datatypes.S (Datatypes.S n)) k
  ++ [Connect n port (port + 1);
      WriteFile (perSdpPath baseDir entry)
        (PerParticipant._sdpFor (prod_kind (snd entry)) (ci_payloadType ci) (ci_codecName ci)
           (ci_clockRate ci) port (ci_channels ci) (ci_fmtp ci));
      Spawn "ffmpeg"
        (PerParticipant.ffArgs (prod_kind (snd entry)) (perSdpPath baseDir entry)
           (perOutFile baseDir entry));
      Resume (Datatypes.S n)]
  ++ match prod_kind (snd entry) with
     | video => [RequestKeyFrame (Datatypes.S n)]
     | audio => []
     end.

(** The calls of the per-participant start: none of them kills a process
    or closes a consumer or a transport. *)
Definition isRecordingCall (c : Call) : Prop :=
  match c with
  | CreatePlainTransport | Consume _ _ true | BindProbe _ | Connect _ _ _ | WriteFile _ _
  | Spawn _ _ | Resume _ | RequestKeyFrame _ | Mkdir _ | RegistrySet _ => True
  | _ => False
  end.

(** The output files of the muxers a trace spawns: the last argument of
    each. *)
Definition spawnOutputs (tr : list Call) : list string :=
  flat_map
    (fun c =>
       match c with
       | Spawn cmd args => if String.eqb cmd "ffmpeg" then [List.last args ""] else []
       | _ => []
       end)
    tr.

(** What a run of the per-participant start from the registry [s] at time
    [n] ends with. *)
Definition perStartPost (env : Env) (roomId : string) (s : gmap string PerParticipant.State)
    (n : nat) (o : Outcome string) (s1 : gmap string PerParticipant.State) (tr : list Call)
  : Prop :=
  Forall isRecordingCall tr
  /\ match o with
     | Thrown _ => s1 = s
     | Returned id =>
         id = "rec-per-" +:+ JS.showZ (env_now env n)
         /\ exists st tr0,
              s1 = <[id := st]> s
              /\ tr = tr0 ++ [RegistrySet id]
              /\ PerParticipant.st_id st = id
              /\ PerParticipant.st_roomId st = roomId
              /\ PerParticipant.st_baseDir st
                 = JS.pathJoin (JS.pathJoin (JS.pathJoin (recordDir env) "per") roomId) id
              /\ PerParticipant.st_startedAt st = env_now env (n + length tr0)
              /\ map PerParticipant.it_transport (PerParticipant.st_items st)
                 = handlesOf isCreateTransport n tr
              /\ map (fun it => cons_id (PerParticipant.it_consumer it))
                   (PerParticipant.st_items st)
                 = resumedConsumers tr
              /\ map PerParticipant.it_ff (PerParticipant.st_items st)
                 = handlesOf (isSpawnOf "ffmpeg") n tr
              /\ map PerParticipant.it_sdpPath (PerParticipant.st_items st) = writtenPaths tr
              /\ map PerParticipant.it_outFile (PerParticipant.st_items st) = spawnOutputs tr
     end.

(** The calls that release a resource: the kill of a process and the close
    of a consumer or of a transport. *)
Definition releases (c : Call) : bool :=
  match c with
  | Kill _ _ | CloseConsumer _ | CloseTransport _ => true
  | _ => false
  end.

(** ** Statements on the single-file recorders *)

(** [error.message || fallback] *)
Definition messageOr (fallback e : string) : string :=
  if String.eqb e "" then fallback else e.

(** What the stop of a single-file recording returns when its last close
    is made before time [t]: the file is looked up at [t], the entry removed
    and the clock read after that. *)
Definition stoppedAt (env : Env) (fileName filePath : string) (startTime : Z) (t : nat)
  : RecordingManager.StopResult :=
  {| RecordingManager.stop_file_name := fileName;
     RecordingManager.stop_file_path := filePath;
     RecordingManager.stop_file_exists := env_exists env t filePath;
     RecordingManager.stop_duration := env_now env (Datatypes.S t) - startTime |}.

(** The run of the stop of a single-file recording with the consumers
    [consumers], the muxer [ff], if the entry has one, and the transports
    [transports], from the registry [s] at time [n]. *)
Definition singleFileStop {R} (env : Env) (id : string) (s : gmap string R) (n : nat)
    (consumers : list Consumer) (ff : option ProcId) (transports : list TransportId)
    (fileName filePath : string) (startTime : Z)
  : Outcome RecordingManager.StopResult * gmap string R * list Call :=
  let closes := map (fun c => CloseConsumer (cons_id c)) consumers in
  let kill := map (fun p => Kill p "SIGKILL") (option_list ff) in
  match
    match ff with
    | Some p => env_throws env (n + length closes) (Kill p "SIGKILL")
    | None => None
    end
  with
  | Some e => (Thrown (messageOr "Failed to stop recording" e), s, closes ++ kill)
  | None =>
      (Returned
         (stoppedAt env fileName filePath startTime
            (n + length closes + length kill + length transports)),
       delete id s,
       closes ++ kill ++ map CloseTransport transports ++ [RegistryDelete id])
  end.

(** ** Statements on the recorder that creates its consumers first *)

Definition isConsume (c : Call) : bool :=
  match c with Consume _ _ _ => true | _ => false end.

(** The consumers that a trace starting at time [n] creates: the times of
    the [consume] calls that did not throw. *)
Fixpoint consumedAt (env : Env) (n : nat) (tr : list Call) : list nat :=
  match tr with
  | [] => []
  | c :: rest =>
      (if isConsume c
       then match env_throws env n c with None => [n] | Some _ => [] end
       else [])
      ++ consumedAt env (Datatypes.S n) rest
  end.

(** The rtpParameters of the last consumer of a kind, if any. *)
Definition collectedRtp (k : Kind) (consumers : list Consumer) : option RtpParameters :=
  fold_left
    (fun acc c => if Kind_eqb (cons_kind c) k then cons_rtpParameters c else acc)
    consumers None.

(** The entry of a recording after the consumers [cs] have been pushed. *)
Definition withConsumers (cs : list Consumer) (rec : RecordingManagerCollect.Recording)
  : RecordingManagerCollect.Recording :=
  fold_left (fun rec c => RecordingManagerCollect.pushConsumer c rec) cs rec.

(** The entry that a start sets before it creates its consumers. *)
Definition registeredRecording (videoTransport audioTransport : option TransportId)
    (recordingId room_id user_name : string) (startTime : Z)
  : RecordingManagerCollect.Recording :=
  {| RecordingManagerCollect.rec_ffmpeg := None;
     RecordingManagerCollect.rec_videoTransport := videoTransport;
     RecordingManagerCollect.rec_audioTransport := audioTransport;
     RecordingManagerCollect.rec_fileName := "recording-" +:+ recordingId +:+ ".webm";
     RecordingManagerCollect.rec_filePath :=
       JS.pathJoin "files" ("recording-" +:+ recordingId +:+ ".webm");
     RecordingManagerCollect.rec_startTime := startTime;
     RecordingManagerCollect.rec_room_id := room_id;
     RecordingManagerCollect.rec_user_name := user_name;
     RecordingManagerCollect.rec_producers := [];
     RecordingManagerCollect.rec_videoRtpParameters := None;
     RecordingManagerCollect.rec_audioRtpParameters := None |}.

(** A consumer that the router created for a producer of the list. *)
Definition consumerOf (env : Env) (producers : list Producer) (c : Consumer) : Prop :=
  exists p, In p producers /\ c = consumerAt env (cons_id c) p.

(** The calls of a start before its muxer: directories, probes,
    transports, the registration and paused consumers. *)
Definition isSetup (c : Call) : Prop :=
  match c with
  | Mkdir _ | BindProbe _ | CreatePlainTransport | Connect _ _ _ | RegistrySet _
  | Consume _ _ true => True
  | _ => False
  end.

(** The calls that create the muxer. *)
Definition isMuxerCall (c : Call) : Prop :=
  match c with
  | Spawn _ _ | StdinWrite _ _ | StdinEnd _ => True
  | _ => False
  end.

(** The parameters from which the muxer of the consumers [cs] gets its SDP,
    for the base port [port]. *)
Definition collectedParameters (cs : list Consumer) (port : Z) : Sdp.FfmpegRtpParameters :=
  {| Sdp.videoCodec := collectedRtp video cs;
     Sdp.audioCodec := collectedRtp audio cs;
     Sdp.remoteRtpPort := port;
     Sdp.remoteAudioRtpPort :=
       match collectedRtp audio cs with
       | Some _ => Some (port + 2)
       | None => None
       end |}.

(** The entry of a start that returned. *)
Definition startedRecording (ff : ProcId) (cs : list Consumer)
    (rec : RecordingManagerCollect.Recording) : RecordingManagerCollect.Recording :=
  RecordingManagerCollect.setFfmpeg ff
    (RecordingManagerCollect.setRtpParameters (collectedRtp video cs) (collectedRtp audio cs)
       (withConsumers cs rec)).

(** What a run of the start from the registry [s] at time [n] ends with. *)
Definition collectStartPost (env : Env) (r : Room) (room_id user_name : string)
    (s : gmap string RecordingManagerCollect.Recording) (n : nat)
    (o : Outcome RecordingManager.StartResult)
    (s1 : gmap string RecordingManagerCollect.Recording) (tr : list Call) : Prop :=
  let id := "rec-" +:+ JS.showZ (env_now env n) in
  match o with
  | Returned res =>
      res = {| RecordingManager.recording_id := id;
               RecordingManager.file_name := "recording-" +:+ id +:+ ".webm" |}
      /\ exists vt at_ startTime cs port sdp args pre resumption,
           let ff := (n + length pre)%nat in
           s1 = <[id := startedRecording ff cs
                          (registeredRecording vt at_ id room_id user_name startTime)]> s
           /\ tr = pre ++ Spawn "ffmpeg" args :: StdinWrite ff sdp :: StdinEnd ff :: resumption
           /\ Forall isSetup pre
           /\ Forall isResumption resumption
           /\ In (RegistrySet id) pre
           /\ option_list vt ++ option_list at_ = handlesOf isCreateTransport n pre
           /\ map cons_id cs = consumedAt env n pre
           /\ Forall (consumerOf env (map snd (roomProducers r))) cs
           /\ resumedConsumers resumption = map cons_id cs
           /\ Sdp.createSdpText (collectedParameters cs port) = Returned sdp
           /\ (forall t, vt = Some t -> In (Connect t port (port + 1)) pre)
           /\ (forall t, at_ = Some t -> In (Connect t (port + 2) (port + 2 + 1)) pre)
           /\ List.last args EmptyString
              = recordDir env +:+ "/" +:+ "recording-" +:+ JS.showZ (env_now env ff)
                +:+ ".mp4"
  | Thrown e =>
      (s1 = s /\ Forall isSetup tr /\ ~ In (RegistrySet id) tr)
      \/ exists vt at_ startTime cs pre muxer,
           s1 = <[id := RecordingManagerCollect.setRtpParameters
                          (collectedRtp video cs) (collectedRtp audio cs)
                          (withConsumers cs
                             (registeredRecording vt at_ id room_id user_name startTime))]> s
           /\ tr = pre ++ muxer
           /\ Forall isSetup pre
           /\ Forall isMuxerCall muxer
           /\ In (RegistrySet id) pre
           /\ option_list vt ++ option_list at_ = handlesOf isCreateTransport n pre
           /\ map cons_id cs = consumedAt env n pre
  end.

(** An environment like [calmEnv] in which no process can be spawned. *)
Definition noMuxerEnv : Env :=
  {| env_throws :=
       fun _ c => match c with Spawn _ _ => Some "spawn ffmpeg ENOENT" | _ => None end;
     env_canConsume := fun _ => true;
     env_consumerRtp := env_consumerRtp calmEnv;
     env_random := fun _ => 0;
     env_portFree := fun _ _ => true;
     env_now := env_now calmEnv;
     env_exists := fun _ _ => true;
     env_exited := fun _ _ _ => false;
     env_stdinWritable := fun _ _ => true;
     env_probeDuration := fun _ _ => "0";
     env_localPort := fun _ => Some 40000;
     env_fileSize := fun _ _ => 1;
     env_recordDir := None |}.

(** ** Statements on the start of the single-file recorder *)

Definition isResumeCall (c : Call) : bool :=
  match c with Resume _ => true | _ => false end.

(** The consumers whose resume, in a trace starting at time [n], did not
    throw. *)
Fixpoint resumedOk (env : Env) (n : nat) (tr : list Call) : list nat :=
  match tr with
  | [] => []
  | c :: rest =>
      match c with
      | Resume x => match env_throws env n c with None => [x] | Some _ => [] end
      | _ => []
      end
      ++ resumedOk env (Datatypes.S n) rest
  end.

(** The calls of the single-file start after its muxer: transports, the
    registration, and consumers that are created paused and resumed. *)
Definition isAttach (c : Call) : Prop :=
  match c with
  | CreatePlainTransport | Connect _ _ _ | RegistrySet _ | Consume _ _ true | Resume _ => True
  | _ => False
  end.

(** The calls of the single-file start before its muxer: the directory
    and the bind probes. *)
Definition isProbing (c : Call) : Prop :=
  match c with
  | Mkdir _ | BindProbe _ => True
  | _ => False
  end.

(** The entry of a single-file recording with the consumers [cs]. *)
Definition singleFileEntry (ff : ProcId) (vt at_ : option TransportId)
    (recordingId room_id user_name : string) (startTime : Z) (cs : list Consumer)
  : RecordingManager.Recording :=
  {| RecordingManager.rec_ffmpeg := ff;
     RecordingManager.rec_videoTransport := vt;
     RecordingManager.rec_audioTransport := at_;
     RecordingManager.rec_fileName := "recording-" +:+ recordingId +:+ ".webm";
     RecordingManager.rec_filePath :=
       JS.pathJoin "files" ("recording-" +:+ recordingId +:+ ".webm");
     RecordingManager.rec_startTime := startTime;
     RecordingManager.rec_room_id := room_id;
     RecordingManager.rec_user_name := user_name;
     RecordingManager.rec_producers := cs |}.

(** The parameters from which the muxer of the single-file recorder gets
    its SDP: the rtpParameters of the first producer of each kind. *)
Definition producerParameters (r : Room) (port : Z) : Sdp.FfmpegRtpParameters :=
  {| Sdp.videoCodec := RecordingManager.firstRtpParameters video r;
     Sdp.audioCodec := RecordingManager.firstRtpParameters audio r;
     Sdp.remoteRtpPort := port;
     Sdp.remoteAudioRtpPort :=
       if RecordingManager.isSome (RecordingManager.firstRtpParameters audio r)
       then Some (port + 2) else None |}.

(** What a run of the start from the registry [s] at time [n] ends with. *)
Definition singleStartPost (env : Env) (r : Room) (room_id user_name : string)
    (s : gmap string RecordingManager.Recording) (n : nat)
    (o : Outcome RecordingManager.StartResult)
    (s1 : gmap string RecordingManager.Recording) (tr : list Call) : Prop :=
  let id := "rec-" +:+ JS.showZ (env_now env n) in
  Forall (fun c => releases c = false) tr
  /\ match o with
     | Returned res =>
         res = {| RecordingManager.recording_id := id;
                  RecordingManager.file_name := "recording-" +:+ id +:+ ".webm" |}
         /\ exists vt at_ startTime cs port sdp args pre post,
              let ff := (n + length pre)%nat in
              s1 = <[id := singleFileEntry ff vt at_ id room_id user_name startTime cs]> s
              /\ tr = pre ++ Spawn "ffmpeg" args :: StdinWrite ff sdp :: StdinEnd ff :: post
              /\ Forall isProbing pre
              /\ Forall isAttach post
              /\ option_list vt ++ option_list at_
                 = handlesOf isCreateTransport (Datatypes.S (Datatypes.S (Datatypes.S ff))) post
              /\ map cons_id cs
                 = resumedOk env (Datatypes.S (Datatypes.S (Datatypes.S ff))) post
              /\ Forall (consumerOf env (map snd (roomProducers r))) cs
              /\ Sdp.createSdpText (producerParameters r port) = Returned sdp
              /\ (forall t, vt = Some t -> In (Connect t port (port + 1)) post)
              /\ (forall t, at_ = Some t -> In (Connect t (port + 2) (port + 2 + 1)) post)
              /\ List.last args EmptyString
                 = recordDir env +:+ "/" +:+ "recording-" +:+ JS.showZ (env_now env ff)
                   +:+ ".mp4"
     | Thrown e =>
         s1 = s
         /\ Forall (fun c => isConsume c = false /\ isResumeCall c = false) tr
     end.

(** The calls of the single-file start before its registration. *)
Definition isUnregistered (c : Call) : Prop :=
  match c with
  | Mkdir _ | BindProbe _ | Spawn _ _ | StdinWrite _ _ | StdinEnd _ | CreatePlainTransport
  | Connect _ _ _ => True
  | _ => False
  end.


(** * Properties *)

(** ** The grid layout *)

(** C4: for V = 1, 2, 3, 4 video inputs and every target frame size W x H the
    computed layout is 1 x 1 with cell W x H, 1 x 2 with cell (W/2) x H,
    2 x 2 with cell (W/2) x (H/2), and again 2 x 2 with cell (W/2) x (H/2). *)
Theorem computeLayout_table (W H : Z) :
  Mixed._computeLayout 1 W H
    = {| Mixed.rows := 1; Mixed.cols := 1; Mixed.cellW := W; Mixed.cellH := H |}
  /\ Mixed._computeLayout 2 W H
    = {| Mixed.rows := 1; Mixed.cols := 2; Mixed.cellW := W / 2; Mixed.cellH := H |}
  /\ Mixed._computeLayout 3 W H
    = {| Mixed.rows := 2; Mixed.cols := 2; Mixed.cellW := W / 2; Mixed.cellH := H / 2 |}
  /\ Mixed._computeLayout 4 W H
    = {| Mixed.rows := 2; Mixed.cols := 2; Mixed.cellW := W / 2; Mixed.cellH := H / 2 |}.
Proof. repeat split. Qed.

(** The division of the table is the floor of the halved size, also for an
    odd size. *)
Lemma computeLayout_floor (W H : Z) :
  2 * Mixed.cellW (Mixed._computeLayout 4 W H) <= W < 2 * Mixed.cellW (Mixed._computeLayout 4 W H) + 2.
Proof.
  cbn [Mixed._computeLayout Mixed.cellW Nat.leb Nat.eqb].
  pose proof (Z.div_mod W 2 ltac:(lia)) as Hd.
  pose proof (Z.mod_pos_bound W 2 ltac:(lia)) as Hm.
  lia.
Qed.

(** The layout loop visits the cells row by row and keeps the first
    [videoCount] of them. *)
Lemma layoutParts_cases (V : nat) (W H : Z) :
  (1 <= V <= 4)%nat ->
  Mixed.layoutParts (Mixed._computeLayout V W H) V
  = map (specCorner (Mixed._computeLayout V W H)) (seq 0 V).
Proof.
  intros [Hlo Hhi].
  destruct V as [|[|[|[|[|V]]]]]; try lia; reflexivity.
Qed.

Lemma append_assoc (a b c : string) : (a +:+ b) +:+ c = a +:+ (b +:+ c).
Proof.
  induction a as [|x a IH]; [reflexivity|].
  change (String x ((a +:+ b) +:+ c) = String x (a +:+ (b +:+ c))). rewrite IH. reflexivity.
Qed.

(** The parts of the filter graph in front of the audio parts: one
    normalizing chain per video input, the grid stack and the chain that
    resets the timestamps of the stacked video. *)
Lemma filterParts_video (V A : nat) (W H : Z) :
  (1 <= V <= 4)%nat ->
  Mixed.filterParts V A W H
  = map (normalizedInput (Mixed._computeLayout V W H)) (seq 0 V)
    ++ [gridStack (Mixed._computeLayout V W H) V; "[vtmp]setpts=PTS-STARTPTS[vout]"]
    ++ Mixed.audioParts V A.
Proof.
  intros HV. unfold Mixed.filterParts. cbv zeta. unfold Mixed.xstack, gridStack.
  rewrite (layoutParts_cases V W H HV). reflexivity.
Qed.

(** C5: for V in 1..4 and any number of audio inputs, the filter graph that
    [_buildFilterComplex] returns is, joined by semicolons: for each video
    input i the chain that reads [i:v], normalizes it to a cell and labels
    it [vi]; then the grid stack, which reads the labels [v0]..[vV-1] in
    this order and whose layout string gives input i the corner
    (c * Wc, r * Hc) with r = i div cols and c = i mod cols, in row-major
    order, and fills the rest with black; then the timestamp chain and the
    audio parts. The corner of every input lies inside the grid. For V = 3
    the stack places its three inputs at (0,0), (Wc,0) and (0,Hc) of the
    2 x 2 grid, whose fourth cell gets no input. *)
Theorem xstack_layout_row_major (V A : nat) (W H : Z) :
  (1 <= V <= 4)%nat ->
  let l := Mixed._computeLayout V W H in
  Mixed._buildFilterComplex V A W H
  = JS.join ";"
      (map (normalizedInput l) (seq 0 V)
       ++ [gridStack l V; "[vtmp]setpts=PTS-STARTPTS[vout]"]
       ++ Mixed.audioParts V A)
  /\ Mixed.layoutParts l V = map (specCorner l) (seq 0 V)
  /\ (forall i, (i < V)%nat ->
      nth_error (Mixed.filterParts V A W H) i = Some (normalizedInput l i)
      /\ nth_error (Mixed.layoutParts l V) i = Some (specCorner l i)
      /\ (i / Mixed.cols l < Mixed.rows l)%nat
      /\ (i mod Mixed.cols l < Mixed.cols l)%nat)
  /\ nth_error (Mixed.filterParts V A W H) V = Some (gridStack l V)
  /\ (V = 3%nat ->
      (Mixed.rows l * Mixed.cols l)%nat = 4%nat
      /\ Mixed.layoutParts l V
         = [Mixed.cellCorner l 0 0; Mixed.cellCorner l 0 1; Mixed.cellCorner l 1 0]
      /\ nth_error (Mixed.filterParts V A W H) V
         = Some ("[v0][v1][v2]xstack=inputs=3:layout=0_0|" +:+ JS.showZ (W / 2) +:+ "_0|0_"
                 +:+ JS.showZ (H / 2) +:+ ":fill=black:shortest=0[vtmp]")).
Proof.
  intros HV l. subst l.
  pose proof (filterParts_video V A W H HV) as Hparts.
  split; [unfold Mixed._buildFilterComplex; rewrite Hparts; reflexivity|].
  split; [apply layoutParts_cases; exact HV|].
  split; [|split].
  - intros i Hi. rewrite Hparts, (layoutParts_cases V W H HV).
    destruct V as [|[|[|[|[|V]]]]]; try lia;
      destruct i as [|[|[|[|i]]]]; try lia;
      (split; [reflexivity|]); (split; [reflexivity|]); cbn; lia.
  - rewrite Hparts.
    destruct V as [|[|[|[|[|V]]]]]; try lia; reflexivity.
  - intros ->. split; [reflexivity|]. split; [reflexivity|].
    rewrite Hparts. cbn [seq map app nth_error]. f_equal.
    unfold gridStack, specCorner.
    cbn [Mixed._computeLayout Nat.leb Nat.eqb Mixed.cols Mixed.cellW Mixed.cellH seq map JS.join
         Nat.modulo Nat.div Nat.divmod Nat.sub fst snd].
    change (Z.of_nat 0) with 0. change (Z.of_nat 1) with 1.
    rewrite !Z.mul_0_l, !Z.mul_1_l.
    generalize (JS.showZ (W / 2)) as w, (JS.showZ (H / 2)) as h. intros w h.
    rewrite !append_assoc. reflexivity.
Qed.

(** The three-input grid of a 1280 x 720 frame with one audio input: the
    fourth part of the graph is the stack. *)
Lemma xstack_layout_row_major_witness :
  (1 <= 3 <= 4)%nat
  /\ Mixed.layoutParts (Mixed._computeLayout 3 1280 720) 3 = ["0_0"; "640_0"; "0_360"]
  /\ nth_error (Mixed.filterParts 3 1 1280 720) 3
     = Some "[v0][v1][v2]xstack=inputs=3:layout=0_0|640_0|0_360:fill=black:shortest=0[vtmp]".
Proof.
  split; [lia|].
  destruct (xstack_layout_row_major 3 1 1280 720 ltac:(lia)) as (_ & Hlayout & _ & Hstack & _).
  split; [rewrite Hlayout; reflexivity|rewrite Hstack; reflexivity].
Defined.

(** ** The synthesized SDP *)

(** The per-participant recorder writes no [a=rtcp] line: its video section
    for payload type 96 on port 5004 has three lines, and the [a=rtcp] line
    the specification words is not one of them. *)
Lemma sdpFor_has_no_rtcp_line :
  PerParticipant.sdpLines video 96 (Some "VP8") 90000 5004 None ""
  = sdpPreamble "FFmpegInput" ++ ["m=video 5004 RTP/AVP 96"; "a=rtpmap:96 VP8/90000"; "a=recvonly"]
  /\ ~ In "a=rtcp:5005 IN IP4 127.0.0.1"
         (PerParticipant.sdpLines video 96 (Some "VP8") 90000 5004 None "")
  /\ PerParticipant.sdpLines video 96 (Some "VP8") 90000 5004 None ""
     <> sdpPreamble "FFmpegInput" ++ specMediaSection true video 5004 96 (Some "VP8") 90000 None "".
Proof.
  split; [reflexivity|]. split.
  - cbn. intros H. repeat (destruct H as [H|H]; [discriminate H|]). exact H.
  - cbn. intros H. discriminate H.
Qed.

(** C6, as amended: the SDP of the mixed recorder ([_buildPerInputSdp]) is the
    fixed preamble followed by exactly one media section with the lines
    m=, a=rtpmap, a=rtcp:<port+1>, a=recvonly and, exactly when the format
    parameters are not empty, a=fmtp; the SDP of the per-participant recorder
    ([_sdpFor]) has the same shape without the a=rtcp line. An audio rtpmap
    ends in the channel count, 2 when it is unspecified. *)
Theorem sdp_media_section_shape (i : Mixed.SdpInput)
    (kind : Kind) (pt : Z) (name : option string) (clockrate port : Z)
    (channels : option Z) (fmtp : string) :
  Mixed.sdpLines i
    = sdpPreamble "FFmpegInput"
      ++ specMediaSection true (Mixed.si_kind i) (Mixed.si_port i) (Mixed.si_payloadType i)
           (Mixed.si_codecName i) (Mixed.si_clockRate i) (Mixed.si_channels i) (Mixed.si_fmtp i)
  /\ mediaSections (Mixed.sdpLines i) = 1%nat
  /\ Mixed._buildPerInputSdp i = JS.join JS.nl (Mixed.sdpLines i) +:+ JS.nl
  /\ PerParticipant.sdpLines kind pt name clockrate port channels fmtp
     = sdpPreamble "FFmpegInput" ++ specMediaSection false kind port pt name clockrate channels fmtp
  /\ mediaSections (PerParticipant.sdpLines kind pt name clockrate port channels fmtp) = 1%nat
  /\ PerParticipant._sdpFor kind pt name clockrate port channels fmtp
     = JS.join JS.nl (PerParticipant.sdpLines kind pt name clockrate port channels fmtp) +:+ JS.nl
  /\ JS.numOr None 2 = 2.
Proof.
  repeat split.
  - unfold Mixed.sdpLines, specMediaSection, fmtpLine.
    destruct (Mixed.si_kind i); reflexivity.
  - unfold Mixed.sdpLines, mediaSections, fmtpLine.
    destruct (Mixed.si_kind i); destruct (String.eqb (Mixed.si_fmtp i) ""); reflexivity.
  - unfold PerParticipant.sdpLines, specMediaSection, fmtpLine.
    destruct kind; reflexivity.
  - unfold PerParticipant.sdpLines, mediaSections, fmtpLine.
    destruct kind; destruct (String.eqb fmtp ""); reflexivity.
Qed.

(** ** Audio-only mixing *)

(** C9, evaluated on the code: with no video input the filter graph still
    opens with a zero-input grid stack that produces [vout], and the argument
    vector still maps [vout] before [aout]. A mixed start in a room with one
    audio producer succeeds and spawns the muxer with that graph and with
    both maps. *)
Theorem audio_only_still_maps_video (A : nat) (W H : Z) :
  Mixed.filterParts 0 A W H
    = ["xstack=inputs=0:layout=:fill=black:shortest=0[vtmp]"; "[vtmp]setpts=PTS-STARTPTS[vout]"]
      ++ Mixed.audioParts 0 A
  /\ Mixed.mapArgs (S A) = ["-map"; "[vout]"; "-map"; "[aout]"]
  /\ Mixed._buildFilterComplex 0 1 1280 720
     = "xstack=inputs=0:layout=:fill=black:shortest=0[vtmp];[vtmp]setpts=PTS-STARTPTS[vout];"
       +:+ "[0:a]aresample=async=1:min_hard_comp=0.100:first_pts=0[a0];[a0]asetpts=PTS-STARTPTS[aout]"
  /\ (let run := Mixed.startMixedRecording calmEnv (Some audioOnlyRoom) None None ∅ 0%nat in
      outcome run
        = Returned {| Mixed.recording_id := "rec-mix-1700000000000";
                      Mixed.file_name := "mixed-rec-mix-1700000000000.mp4";
                      Mixed.file_path := "./files/mixed-rec-mix-1700000000000.mp4" |}
      /\ option_map (hasOption "-map" "[vout]") (spawnedArgs "ffmpeg" (calls run)) = Some true
      /\ option_map (hasOption "-map" "[aout]") (spawnedArgs "ffmpeg" (calls run)) = Some true
      /\ option_map (hasOption "-filter_complex" (Mixed._buildFilterComplex 0 1 1280 720))
           (spawnedArgs "ffmpeg" (calls run)) = Some true).
Proof.
  split; [reflexivity|]. split; [reflexivity|]. split; [reflexivity|].
  vm_compute. repeat split.
Qed.

(** ** Runs of the monad *)

Section Runs.
Context {S : Type}.

Lemma run_eta {A} (r : Outcome A * S * list Call) : r = (outcome r, stateOf r, calls r).
Proof. destruct r as [[o s] tr]. reflexivity. Qed.

Lemma run_bind {A B} (m : M S A) (k : A -> M S B) (s : S) (n : nat) :
  bind m k s n =
  match outcome (m s n) with
  | Returned a =>
      let r := k a (stateOf (m s n)) (n + length (calls (m s n)))%nat in
      (outcome r, stateOf r, calls (m s n) ++ calls r)
  | Thrown e => (Thrown e, stateOf (m s n), calls (m s n))
  end.
Proof.
  unfold bind, outcome, stateOf, calls.
  destruct (m s n) as [[[a|e] s1] tr1]; cbn; [|reflexivity].
  destruct (k a s1 (n + length tr1)%nat) as [[r s2] tr2]. reflexivity.
Qed.

(** A step that makes no call and returns [a]. *)
Lemma bind_silent {A B} (m : M S A) (k : A -> M S B) (s : S) (n : nat) (a : A) :
  m s n = (Returned a, s, []) -> bind m k s n = k a s n.
Proof.
  intros Hm. rewrite run_bind, Hm. cbn.
  rewrite Nat.add_0_r. symmetry. apply run_eta.
Qed.

(** A step that makes one call and returns [a]. *)
Lemma bind_step {A B} (m : M S A) (k : A -> M S B) (s : S) (n : nat) (a : A) (c : Call) :
  m s n = (Returned a, s, [c]) ->
  bind m k s n = (outcome (k a s (Datatypes.S n)), stateOf (k a s (Datatypes.S n)), c :: calls (k a s (Datatypes.S n))).
Proof.
  intros Hm. rewrite run_bind, Hm. cbn. rewrite Nat.add_1_r. reflexivity.
Qed.

(** A step that returns [a] after the calls [tr]. *)
Lemma bind_returned {A B} (m : M S A) (k : A -> M S B) (s s1 : S) (n : nat) (a : A)
    (tr : list Call) :
  m s n = (Returned a, s1, tr) ->
  bind m k s n
  = (outcome (k a s1 (n + length tr)%nat), stateOf (k a s1 (n + length tr)%nat),
     tr ++ calls (k a s1 (n + length tr)%nat)).
Proof. intros Hm. rewrite run_bind, Hm. reflexivity. Qed.

Lemma bind_thrown {A B} (m : M S A) (k : A -> M S B) (s s1 : S) (n : nat) (e : string)
    (tr : list Call) :
  m s n = (Thrown e, s1, tr) -> bind m k s n = (Thrown e, s1, tr).
Proof. intros Hm. rewrite run_bind, Hm. reflexivity. Qed.

Lemma calls_bind {A B} (m : M S A) (k : A -> M S B) (s : S) (n : nat) :
  calls (bind m k s n)
  = calls (m s n)
    ++ match outcome (m s n) with
       | Returned a => calls (k a (stateOf (m s n)) (n + length (calls (m s n)))%nat)
       | Thrown _ => []
       end.
Proof.
  rewrite run_bind. destruct (outcome (m s n)); cbn; [reflexivity|].
  rewrite app_nil_r. reflexivity.
Qed.

Lemma outcome_bind_thrown {A B} (m : M S A) (k : A -> M S B) (s : S) (n : nat) (e : string) :
  outcome (m s n) = Thrown e -> outcome (bind m k s n) = Thrown e.
Proof. intros Hm. rewrite run_bind, Hm. reflexivity. Qed.

Lemma outcome_bind_returned {A B} (m : M S A) (k : A -> M S B) (s : S) (n : nat) (a : A) :
  outcome (m s n) = Returned a ->
  outcome (bind m k s n) = outcome (k a (stateOf (m s n)) (n + length (calls (m s n)))%nat).
Proof. intros Hm. rewrite run_bind, Hm. reflexivity. Qed.

Lemma calls_try {m : M S unit} (s : S) (n : nat) : calls (try_ m s n) = calls (m s n).
Proof. unfold try_, calls. destruct (m s n) as [[[a|e] s1] tr]; reflexivity. Qed.

Lemma outcome_try {m : M S unit} (s : S) (n : nat) : outcome (try_ m s n) = Returned tt.
Proof. unfold try_, outcome. destruct (m s n) as [[[a|e] s1] tr]; reflexivity. Qed.

Lemma stateOf_try {m : M S unit} (s : S) (n : nat) : stateOf (try_ m s n) = stateOf (m s n).
Proof. unfold try_, stateOf. destruct (m s n) as [[[a|e] s1] tr]; reflexivity. Qed.

Lemma calls_rethrow {A} (fallback : string) (m : M S A) (s : S) (n : nat) :
  calls (rethrow fallback m s n) = calls (m s n).
Proof. unfold rethrow, calls. destruct (m s n) as [[[a|e] s1] tr]; reflexivity. Qed.

(** *** Calls that all satisfy a predicate *)

Lemma emits_ret {A} (P : Call -> Prop) (a : A) : emits P (ret a : M S A).
Proof. intros s n. constructor. Qed.

Lemma emits_throw {A} (P : Call -> Prop) (e : string) : emits P (throw e : M S A).
Proof. intros s n. constructor. Qed.

Lemma emits_bind {A B} (P : Call -> Prop) (m : M S A) (k : A -> M S B) :
  emits P m -> (forall a, emits P (k a)) -> emits P (bind m k).
Proof.
  intros Hm Hk s n. rewrite calls_bind. apply Forall_app. split; [apply Hm|].
  destruct (outcome (m s n)); [apply Hk|constructor].
Qed.

(** The continuation may rely on what the first step returns. *)
Lemma emits_bind_returns {A B} (P : Call -> Prop) (Q : A -> Prop) (m : M S A) (k : A -> M S B) :
  emits P m -> returns Q m -> (forall a, Q a -> emits P (k a)) -> emits P (bind m k).
Proof.
  intros Hm HQ Hk s n. rewrite calls_bind. apply Forall_app. split; [apply Hm|].
  destruct (outcome (m s n)) as [a|e] eqn:E; [|constructor].
  apply Hk. exact (HQ s n a E).
Qed.

Lemma emits_try (P : Call -> Prop) (m : M S unit) : emits P m -> emits P (try_ m).
Proof. intros Hm s n. rewrite calls_try. apply Hm. Qed.

Lemma emits_rethrow {A} (P : Call -> Prop) (fallback : string) (m : M S A) :
  emits P m -> emits P (rethrow fallback m).
Proof. intros Hm s n. rewrite calls_rethrow. apply Hm. Qed.

Lemma emits_perform {A} (env : Env) (P : Call -> Prop) (c : Call) (answer : nat -> A) :
  P c -> emits P (perform env c answer : M S A).
Proof.
  intros Hc s n. unfold perform, calls.
  destruct (env_throws env n c); cbn; repeat constructor; exact Hc.
Qed.

Lemma emits_quiet {A} (P : Call -> Prop) (c : Call) (answer : nat -> A) :
  P c -> emits P (quiet c answer : M S A).
Proof. intros Hc s n. repeat constructor. exact Hc. Qed.

Lemma emits_forEach {X} (P : Call -> Prop) (l : list X) (body : X -> M S unit) :
  (forall x, In x l -> emits P (body x)) -> emits P (forEach l body).
Proof.
  induction l as [|x l IH]; intros Hb; cbn [forEach].
  - apply emits_ret.
  - apply emits_bind; [apply Hb; left; reflexivity|].
    intros _. apply IH. intros y Hy. apply Hb. right. exact Hy.
Qed.

Lemma emits_forOf {X Acc} (P : Call -> Prop) (l : list X) (body : Acc -> X -> M S Acc)
    (acc : Acc) :
  (forall acc x, In x l -> emits P (body acc x)) -> emits P (forOf l body acc).
Proof.
  revert acc. induction l as [|x l IH]; intros acc Hb; cbn [forOf].
  - apply emits_ret.
  - apply emits_bind; [apply Hb; left; reflexivity|].
    intros acc'. apply IH. intros acc'' y Hy. apply Hb. right. exact Hy.
Qed.

(** The port search only probes ports. *)
Lemma emits_freePortLoop (env : Env) (P : Call -> Prop) (base : Z) (tries : nat) :
  (forall port, P (BindProbe port)) -> emits P (freePortLoop env base tries : M S Z).
Proof.
  intros HP. induction tries as [|tries IH]; cbn [freePortLoop].
  - apply emits_throw.
  - apply emits_bind; [intros s n; constructor|]. intros r.
    apply emits_bind; [apply emits_quiet, HP|]. intros free.
    destruct free; [apply emits_ret|apply IH].
Qed.

(** *** Ordering of calls *)

Lemma gatedBy_free (gate guarded : Call -> Prop) (tr : list Call) :
  Forall (fun c => ~ guarded c) tr -> gatedBy gate guarded tr.
Proof.
  intros Hfree pre c post -> Hc.
  apply Forall_app in Hfree as [_ Hfree]. inversion Hfree; subst. contradiction.
Qed.

Lemma gatedBy_app_free (gate guarded : Call -> Prop) (pre tr : list Call) :
  Forall (fun c => ~ guarded c) pre -> gatedBy gate guarded tr -> gatedBy gate guarded (pre ++ tr).
Proof.
  induction pre as [|x pre IH]; intros Hfree Htr; [exact Htr|].
  inversion Hfree as [|? ? Hx Hpre]; subst.
  intros p c post Heq Hc.
  destruct p as [|y p]; cbn in Heq.
  - injection Heq as -> _. contradiction.
  - injection Heq as -> Heq.
    destruct (IH Hpre Htr p c post Heq Hc) as (g & Hin & Hg).
    exists g. split; [right; exact Hin|exact Hg].
Qed.

Lemma gatedBy_cons_gate (gate guarded : Call -> Prop) (g : Call) (tr : list Call) :
  gate g -> ~ guarded g -> gatedBy gate guarded (g :: tr).
Proof.
  intros Hg Hng pre c post Heq Hc.
  destruct pre as [|y pre]; cbn in Heq.
  - injection Heq as -> _. contradiction.
  - injection Heq as -> _. exists y. split; [left; reflexivity|exact Hg].
Qed.

Lemma gatedBy_bind_free {A B} (gate guarded : Call -> Prop) (m : M S A) (k : A -> M S B) :
  emits (fun c => ~ guarded c) m ->
  (forall a s n, gatedBy gate guarded (calls (k a s n))) ->
  forall s n, gatedBy gate guarded (calls (bind m k s n)).
Proof.
  intros Hm Hk s n. rewrite calls_bind. apply gatedBy_app_free; [apply Hm|].
  destruct (outcome (m s n)); [apply Hk|].
  apply gatedBy_free. constructor.
Qed.

Lemma gatedBy_bind_gate {A B} (env : Env) (gate guarded : Call -> Prop) (g : Call)
    (answer : nat -> A) (k : A -> M S B) :
  gate g -> ~ guarded g ->
  forall s n, gatedBy gate guarded (calls (bind (perform env g answer) k s n)).
Proof.
  intros Hg Hng s n. rewrite calls_bind.
  assert (calls (perform env g answer s n) = [g]) as ->.
  { unfold perform, calls. destruct (env_throws env n g); reflexivity. }
  apply gatedBy_cons_gate; assumption.
Qed.

End Runs.

(** ** The start of the mixed recorder *)

Ltac unfold_calls :=
  unfold createPlainTransport, consume, connect, resume, requestKeyFrame, closeConsumer,
    closeTransport, mkdirSync, writeFileSync, spawn, stdinWrite, stdinEnd, processKill,
    setInterval, clearInterval, sleep, removeDirLater, isPortFree, waitForProcessClose, emit.

(** One step of a proof that a computation only makes calls that satisfy a
    predicate: by the shape of the computation. *)
Ltac emits_step :=
  lazymatch goal with
  | |- emits _ (ret _) => apply emits_ret
  | |- emits _ (throw _) => apply emits_throw
  | |- emits _ (bind _ _) => apply emits_bind; [|intros ?]
  | |- emits _ (try_ _) => apply emits_try
  | |- emits _ (rethrow _ _) => apply emits_rethrow
  | |- emits _ (perform _ _ _) => apply emits_perform; cbn; auto
  | |- emits _ (quiet _ _) => apply emits_quiet; cbn; auto
  | |- emits _ (forEach _ _) => apply emits_forEach; intros ? ?
  | |- emits _ (forOf _ _ _) => apply emits_forOf; intros ? ? ?
  | |- emits _ (freePortLoop _ _ _) => apply emits_freePortLoop; intros ?; cbn; auto
  | |- emits _ (if ?b then _ else _) => destruct b
  | |- emits _ (match ?x with _ => _ end) => destruct x
  | |- emits _ _ => first [ progress unfold_calls | intros ? ?; cbn; repeat constructor; cbn; auto ]
  end.

Ltac emits_auto := repeat emits_step.

Section MixedStart.
Variable env : Env.
Variable room : option Room.
Variables width height : option Z.

(** Every consumer of a mixed recording is created paused. *)
Lemma mixed_start_consumes_paused :
  emits consumesPaused (Mixed.startMixedRecording env room width height).
Proof.
  unfold Mixed.startMixedRecording, Mixed.bindProducer, Mixed._getFreePort,
    Mixed.resumeConsumer, Mixed.startKeyframePump.
  emits_auto.
Qed.

(** Binding the producers resumes no consumer. *)
Lemma bindProducer_resumes_nothing (kind : Kind) (sdpDir : string) (acc : Mixed.Bound)
    (producer : Producer) :
  emits (fun c => ~ isResume c) (Mixed.bindProducer env kind sdpDir acc producer).
Proof.
  unfold Mixed.bindProducer, Mixed._getFreePort. emits_auto.
Qed.

(** A consumer of a mixed recording is resumed only after the muxer has been
    spawned with its argument vector. *)
Lemma mixed_start_resumes_after_spawn (s : gmap string Mixed.State) (n : nat) :
  gatedBy isMuxerSpawn isResume (calls (Mixed.startMixedRecording env room width height s n)).
Proof.
  unfold Mixed.startMixedRecording.
  destruct room as [r|]; [|apply gatedBy_free; constructor].
  destruct (negb (router r)); [apply gatedBy_free; constructor|].
  destruct (_ && _); [apply gatedBy_free; constructor|].
  revert s n.
  apply gatedBy_bind_free; [emits_auto|]. intros now.
  apply gatedBy_bind_free; [emits_auto|]. intros present.
  apply gatedBy_bind_free; [emits_auto|]. intros _.
  apply gatedBy_bind_free; [emits_auto|]. intros _.
  apply gatedBy_bind_free; [apply emits_forOf; intros; apply bindProducer_resumes_nothing|].
  intros b.
  apply gatedBy_bind_free; [apply emits_forOf; intros; apply bindProducer_resumes_nothing|].
  intros b'.
  destruct (length (Mixed.b_inputs b') =? 0)%nat; [intros; apply gatedBy_free; constructor|].
  unfold spawn. apply gatedBy_bind_gate; cbn; auto.
Qed.

End MixedStart.

(** ** The port allocator *)

Section PortSearch.
Context {S : Type}.
Variable env : Env.
Variable base : Z.

Lemma probes_S (n k : nat) :
  probes env base n (Datatypes.S k)
  = BindProbe (candidate env base n) :: probes env base (Datatypes.S n) k.
Proof.
  unfold probes. cbn [seq map]. rewrite Nat.add_0_r. f_equal.
  rewrite <- seq_shift, map_map. apply map_ext. intros j.
  replace (n + Datatypes.S j)%nat with (Datatypes.S n + j)%nat by lia. reflexivity.
Qed.

(** The search either stops at the first attempt [i] whose candidate is free
    when probed, or exhausts its attempts because no candidate was. *)
Lemma freePortLoop_run (tries : nat) (s : S) (n : nat) :
  (exists i, (i < tries)%nat
     /\ env_portFree env (n + i) (candidate env base (n + i)) = true
     /\ (forall j, (j < i)%nat -> env_portFree env (n + j) (candidate env base (n + j)) = false)
     /\ freePortLoop env base tries s n
        = (Returned (candidate env base (n + i)), s, probes env base n (Datatypes.S i)))
  \/ ((forall j, (j < tries)%nat -> env_portFree env (n + j) (candidate env base (n + j)) = false)
      /\ freePortLoop env base tries s n
         = (Thrown "No free UDP port available", s, probes env base n tries)).
Proof.
  revert n. induction tries as [|tries IH]; intros n.
  - right. split; [intros j Hj; lia|reflexivity].
  - cbn [freePortLoop].
    rewrite (bind_silent _ _ s n (env_random env n)) by reflexivity.
    rewrite (bind_step _ _ s n (env_portFree env n (base + env_random env n))
               (BindProbe (base + env_random env n))) by reflexivity.
    destruct (env_portFree env n (base + env_random env n)) eqn:Hfree.
    + left. exists 0%nat. rewrite Nat.add_0_r, (probes_S n).
      split; [lia|]. split; [exact Hfree|]. split; [intros j Hj; lia|reflexivity].
    + destruct (IH (Datatypes.S n)) as [(i & Hi & Hfi & Hbusy & Hrun)|(Hbusy & Hrun)].
      * left. exists (Datatypes.S i).
        replace (n + Datatypes.S i)%nat with (Datatypes.S n + i)%nat by lia.
        split; [lia|]. split; [exact Hfi|]. split.
        -- intros j Hj. destruct j as [|j].
           ++ rewrite Nat.add_0_r. exact Hfree.
           ++ replace (n + Datatypes.S j)%nat with (Datatypes.S n + j)%nat by lia.
              apply Hbusy. lia.
        -- rewrite Hrun, (probes_S n). reflexivity.
      * right. split.
        -- intros j Hj. destruct j as [|j].
           ++ rewrite Nat.add_0_r. exact Hfree.
           ++ replace (n + Datatypes.S j)%nat with (Datatypes.S n + j)%nat by lia.
              apply Hbusy. lia.
        -- rewrite Hrun, (probes_S n). reflexivity.
Qed.

(** What a caller of the search learns from its outcome. *)
Lemma freePortLoop_contract (tries : nat) (s : S) (n : nat) :
  let run := freePortLoop env base tries s n in
  (forall P, outcome run = Returned P ->
     exists i, (i < tries)%nat
       /\ P = candidate env base (n + i)
       /\ env_portFree env (n + i) P = true
       /\ calls run = probes env base n (Datatypes.S i))
  /\ (outcome run = Thrown "No free UDP port available"
      <-> forall j, (j < tries)%nat -> env_portFree env (n + j) (candidate env base (n + j)) = false)
  /\ (length (calls run) <= tries)%nat
  /\ stateOf run = s.
Proof.
  cbn zeta.
  destruct (freePortLoop_run tries s n) as [(i & Hi & Hfi & Hbusy & Hrun)|(Hbusy & Hrun)];
    rewrite Hrun; unfold outcome, stateOf, calls; cbn [fst snd].
  - split; [|split; [|split]].
    + intros P [= <-]. exists i. auto.
    + split; [discriminate|]. intros Hall. rewrite (Hall i Hi) in Hfi. discriminate.
    + unfold probes. rewrite length_map, length_seq. lia.
    + reflexivity.
  - split; [|split; [|split]].
    + discriminate.
    + split; [intros _; exact Hbusy|reflexivity].
    + unfold probes. rewrite length_map, length_seq. lia.
    + reflexivity.
Qed.

End PortSearch.

(** The allocator does not look at P+1: with port 15000 free and port 15001
    taken it probes 15000 only and returns it. *)
Lemma getFreePort_ignores_rtcp_port :
  Mixed._getFreePort (crowdedEnv 15000) ∅ 0%nat = (Returned 15000, ∅, [BindProbe 15000])
  /\ env_portFree (crowdedEnv 15000) 0 (15000 + 1) = false
  /\ PerParticipant._getFreePort (crowdedEnv 20000) ∅ 0%nat = (Returned 20000, ∅, [BindProbe 20000])
  /\ env_portFree (crowdedEnv 20000) 0 (20000 + 1) = false.
Proof. repeat split. Qed.

(** C7, as amended: the allocators of the mixed and of the per-participant
    recorder return a port P that was free when it was probed (P+1 is not
    probed), after at most 200 candidates drawn from [base, base + 40000)
    with base 15000 and 20000; they fail with 'No free UDP port available'
    if and only if none of the 200 candidates was free when probed. The
    registry is left as it was. *)
Theorem getFreePort_contract (env : Env)
    (s : gmap string Mixed.State) (sP : gmap string PerParticipant.State) (n : nat) :
  let run := Mixed._getFreePort env s n in
  let runP := PerParticipant._getFreePort env sP n in
  (forall P, outcome run = Returned P ->
     exists i, (i < 200)%nat
       /\ P = 15000 + env_random env (n + i)
       /\ env_portFree env (n + i) P = true
       /\ calls run = probes env 15000 n (S i)
       /\ (0 <= env_random env (n + i) < 40000 -> 15000 <= P < 55000))
  /\ (outcome run = Thrown "No free UDP port available"
      <-> forall j, (j < 200)%nat -> env_portFree env (n + j) (15000 + env_random env (n + j)) = false)
  /\ (length (calls run) <= 200)%nat
  /\ stateOf run = s
  /\ (forall P, outcome runP = Returned P ->
     exists i, (i < 200)%nat
       /\ P = 20000 + env_random env (n + i)
       /\ env_portFree env (n + i) P = true
       /\ calls runP = probes env 20000 n (S i)
       /\ (0 <= env_random env (n + i) < 40000 -> 20000 <= P < 60000))
  /\ (outcome runP = Thrown "No free UDP port available"
      <-> forall j, (j < 200)%nat -> env_portFree env (n + j) (20000 + env_random env (n + j)) = false)
  /\ (length (calls runP) <= 200)%nat
  /\ stateOf runP = sP.
Proof.
  cbn zeta. unfold Mixed._getFreePort, PerParticipant._getFreePort.
  destruct (freePortLoop_contract env 15000 200 s n) as (Hret & Hthrow & Hlen & Hst).
  destruct (freePortLoop_contract env 20000 200 sP n) as (HretP & HthrowP & HlenP & HstP).
  repeat split; try assumption; try apply Hthrow; try apply HthrowP.
  - intros P HP. destruct (Hret P HP) as (i & Hi & -> & Hfree & Hcalls).
    exists i. unfold candidate in *. repeat split; auto; lia.
  - intros P HP. destruct (HretP P HP) as (i & Hi & -> & Hfree & Hcalls).
    exists i. unfold candidate in *. repeat split; auto; lia.
Qed.

(** ** A consumer without a codec of the producer's kind *)

Section Registry.
Context {S : Type}.

Lemma stateOf_bind_thrown {A B} (m : M S A) (k : A -> M S B) (s : S) (n : nat) (e : string) :
  outcome (m s n) = Thrown e -> stateOf (bind m k s n) = stateOf (m s n).
Proof. intros Hm. rewrite run_bind, Hm. reflexivity. Qed.

Lemma stateOf_bind_returned {A B} (m : M S A) (k : A -> M S B) (s : S) (n : nat) (a : A) :
  outcome (m s n) = Returned a ->
  stateOf (bind m k s n) = stateOf (k a (stateOf (m s n)) (n + length (calls (m s n)))%nat).
Proof. intros Hm. rewrite run_bind, Hm. reflexivity. Qed.

Lemma readonly_ret {A} (a : A) : readonly (ret a : M S A).
Proof. intros s n. reflexivity. Qed.

Lemma readonly_throw {A} (e : string) : readonly (throw e : M S A).
Proof. intros s n. reflexivity. Qed.

Lemma readonly_bind {A B} (m : M S A) (k : A -> M S B) :
  readonly m -> (forall a, readonly (k a)) -> readonly (bind m k).
Proof.
  intros Hm Hk s n. destruct (outcome (m s n)) as [a|e] eqn:E.
  - rewrite (stateOf_bind_returned _ _ _ _ _ E), Hk. apply Hm.
  - rewrite (stateOf_bind_thrown _ _ _ _ _ E). apply Hm.
Qed.

Lemma readonly_try (m : M S unit) : readonly m -> readonly (try_ m).
Proof. intros Hm s n. rewrite stateOf_try. apply Hm. Qed.

Lemma readonly_perform {A} (env : Env) (c : Call) (answer : nat -> A) :
  readonly (perform env c answer : M S A).
Proof. intros s n. unfold perform, stateOf. destruct (env_throws env n c); reflexivity. Qed.

Lemma readonly_quiet {A} (c : Call) (answer : nat -> A) : readonly (quiet c answer : M S A).
Proof. intros s n. reflexivity. Qed.

Lemma readonly_forOf {X Acc} (l : list X) (body : Acc -> X -> M S Acc) (acc : Acc) :
  (forall acc x, readonly (body acc x)) -> readonly (forOf l body acc).
Proof.
  intros Hb. revert acc. induction l as [|x l IH]; intros acc; cbn [forOf].
  - apply readonly_ret.
  - apply readonly_bind; [apply Hb|]. intros acc'. apply IH.
Qed.

Lemma readonly_forEach {X} (l : list X) (body : X -> M S unit) :
  (forall x, readonly (body x)) -> readonly (forEach l body).
Proof.
  intros Hb. induction l as [|x l IH]; cbn [forEach].
  - apply readonly_ret.
  - apply readonly_bind; [apply Hb|]. intros _. exact IH.
Qed.

Lemma readonly_freePortLoop (env : Env) (base : Z) (tries : nat) :
  readonly (freePortLoop env base tries : M S Z).
Proof.
  intros s n. apply (freePortLoop_contract env base tries s n).
Qed.

(** What [consume] returns carries the rtpParameters the router assigned. *)
Lemma returns_consume (env : Env) (t : TransportId) (producer : Producer) (paused : bool) :
  returns
    (fun c => cons_rtpParameters c = env_consumerRtp env producer
              /\ cons_kind c = prod_kind producer
              /\ cons_producerId c = prod_id producer)
    (consume env t producer paused : M S Consumer).
Proof.
  intros s n c. unfold consume, perform, outcome.
  destruct (env_throws env n _); cbn; [discriminate|].
  intros [= <-]. auto.
Qed.

(** *** Computations that abort *)

Lemma aborts_throw {A} (e : string) : aborts (throw e : M S A).
Proof. intros s n. split; [exists e|]; reflexivity. Qed.

Lemma aborts_bind_l {A B} (m : M S A) (k : A -> M S B) : aborts m -> aborts (bind m k).
Proof.
  intros Hm s n. destruct (Hm s n) as ((e & He) & Hs). split.
  - exists e. apply outcome_bind_thrown. exact He.
  - rewrite (stateOf_bind_thrown _ _ _ _ _ He). exact Hs.
Qed.

Lemma aborts_bind_returns {A B} (Q : A -> Prop) (m : M S A) (k : A -> M S B) :
  readonly m -> returns Q m -> (forall a, Q a -> aborts (k a)) -> aborts (bind m k).
Proof.
  intros Hm HQ Hk s n. destruct (outcome (m s n)) as [a|e] eqn:E.
  - rewrite (outcome_bind_returned _ _ _ _ _ E), (stateOf_bind_returned _ _ _ _ _ E).
    specialize (Hk a (HQ s n a E) (stateOf (m s n)) (n + length (calls (m s n)))%nat).
    rewrite Hm in Hk. rewrite Hm. exact Hk.
  - split; [exists e; apply outcome_bind_thrown; exact E|].
    rewrite (stateOf_bind_thrown _ _ _ _ _ E). apply Hm.
Qed.

Lemma aborts_bind_r {A B} (m : M S A) (k : A -> M S B) :
  readonly m -> (forall a, aborts (k a)) -> aborts (bind m k).
Proof.
  intros Hm Hk. apply (aborts_bind_returns (fun _ => True)); auto.
  intros s n a _. exact I.
Qed.

(** A loop aborts as soon as one of its elements makes the body abort. *)
Lemma aborts_forOf {X Acc} (l : list X) (body : Acc -> X -> M S Acc) (bad : X) :
  In bad l ->
  (forall acc x, readonly (body acc x)) ->
  (forall acc, aborts (body acc bad)) ->
  forall acc, aborts (forOf l body acc).
Proof.
  intros Hin Hro Hbad. induction l as [|x l IH]; [destruct Hin|].
  intros acc. cbn [forOf].
  destruct Hin as [->|Hin].
  - apply aborts_bind_l, Hbad.
  - apply aborts_bind_r; [apply Hro|]. intros acc'. apply IH. exact Hin.
Qed.

End Registry.

Ltac readonly_step :=
  lazymatch goal with
  | |- readonly (ret _) => apply readonly_ret
  | |- readonly (throw _) => apply readonly_throw
  | |- readonly (bind _ _) => apply readonly_bind; [|intros ?]
  | |- readonly (try_ _) => apply readonly_try
  | |- readonly (perform _ _ _) => apply readonly_perform
  | |- readonly (quiet _ _) => apply readonly_quiet
  | |- readonly (forEach _ _) => apply readonly_forEach; intros ?
  | |- readonly (forOf _ _ _) => apply readonly_forOf; intros ? ?
  | |- readonly (freePortLoop _ _ _) => apply readonly_freePortLoop
  | |- readonly (if ?b then _ else _) => destruct b
  | |- readonly (match ?x with _ => _ end) => destruct x
  | |- readonly _ => first [ progress unfold_calls | intros ? ?; reflexivity ]
  end.

Section MissingCodec.
Variable env : Env.

Lemma recordProducer_readonly (baseDir : string) (items : list PerParticipant.Item)
    (entry : Peer * Producer) :
  readonly (PerParticipant.recordProducer env baseDir items entry).
Proof.
  unfold PerParticipant.recordProducer, PerParticipant._getFreePort.
  repeat readonly_step.
Qed.

(** The body of the per-participant loop aborts on a producer that can be
    consumed and whose consumer has no codec of the producer's kind. *)
Lemma recordProducer_aborts (baseDir : string) (items : list PerParticipant.Item)
    (entry : Peer * Producer) :
  env_canConsume env (prod_id (snd entry)) = true ->
  PerParticipant._codecInfo (prod_kind (snd entry)) (env_consumerRtp env (snd entry)) = None ->
  aborts (PerParticipant.recordProducer env baseDir items entry).
Proof.
  intros Hcan Hnone. unfold PerParticipant.recordProducer. rewrite Hcan. cbn [negb].
  apply aborts_bind_r; [repeat readonly_step|]. intros transport.
  eapply aborts_bind_returns; [repeat readonly_step|apply returns_consume|].
  intros consumer (Hrtp & _). rewrite Hrtp, Hnone.
  apply aborts_bind_r; [unfold PerParticipant._getFreePort; repeat readonly_step|]. intros port.
  apply aborts_bind_r; [repeat readonly_step|]. intros _.
  apply aborts_throw.
Qed.

(** C10: in the per-participant recorder, a producer that the router can
    consume and whose consumer's RTP parameters hold no codec whose MIME
    type contains the producer's kind makes [start] throw, whatever the
    other producers are, and no recording is registered; in the mixed
    recorder the loop body skips such a producer: it closes the transport it
    created and leaves the inputs, transports and consumers as they were. *)
Theorem missing_codec_aborts_per_participant_start
    (r : Room) (roomId : string) (entry : Peer * Producer)
    (s : gmap string PerParticipant.State) (n : nat)
    (sdpDir : string) (acc : Mixed.Bound) (sM : gmap string Mixed.State) (nM : nat) :
  In entry (roomProducers r) ->
  env_canConsume env (prod_id (snd entry)) = true ->
  codecOfRtpParameters (prod_kind (snd entry)) (env_consumerRtp env (snd entry)) = None ->
  (exists e, outcome (PerParticipant.start env (Some r) roomId s n) = Thrown e)
  /\ stateOf (PerParticipant.start env (Some r) roomId s n) = s
  /\ (env_throws env nM CreatePlainTransport = None ->
      env_throws env (S nM) (Consume nM (prod_id (snd entry)) true) = None ->
      Mixed.bindProducer env (prod_kind (snd entry)) sdpDir acc (snd entry) sM nM
      = (Returned acc, sM,
         [CreatePlainTransport; Consume nM (prod_id (snd entry)) true; CloseTransport nM])).
Proof.
  intros Hin Hcan Hnone.
  assert (aborts (PerParticipant.start env (Some r) roomId)) as Habort.
  { unfold PerParticipant.start.
    destruct (negb (router r)); [apply aborts_throw|].
    destruct (length (roomProducers r) =? 0)%nat; [apply aborts_throw|].
    apply aborts_bind_r; [repeat readonly_step|]. intros now.
    apply aborts_bind_r; [repeat readonly_step|]. intros _.
    apply aborts_bind_l.
    apply (aborts_forOf _ _ entry Hin).
    - intros items x. apply recordProducer_readonly.
    - intros items. apply recordProducer_aborts; assumption. }
  split; [apply Habort|]. split; [apply Habort|].
  - intros Ht Hc. unfold Mixed.bindProducer. rewrite Hcan. cbn [negb].
    rewrite (bind_step _ _ sM nM nM CreatePlainTransport)
      by (unfold createPlainTransport, perform; rewrite Ht; reflexivity).
    rewrite (bind_step _ _ sM (S nM)
               {| cons_id := S nM; cons_kind := prod_kind (snd entry);
                  cons_producerId := prod_id (snd entry);
                  cons_rtpParameters := env_consumerRtp env (snd entry) |}
               (Consume nM (prod_id (snd entry)) true))
      by (unfold consume, perform; rewrite Hc; reflexivity).
    cbn [cons_rtpParameters]. unfold Mixed._codecFromRtpParameters. rewrite Hnone.
    unfold closeTransport, perform, try_, bind, ret, outcome, stateOf, calls.
    destruct (env_throws env (S (S nM)) (CloseTransport nM)); reflexivity.
Qed.

End MissingCodec.

(** A room with one audio producer, in an environment whose router assigns
    no codec to the consumer: the start throws the null dereference. *)
Lemma missing_codec_aborts_per_participant_start_witness :
  outcome (PerParticipant.start codeclessEnv (Some audioOnlyRoom) "room" ∅ 0%nat)
    = Thrown PerParticipant.nullDereference
  /\ (exists e, outcome (PerParticipant.start codeclessEnv (Some audioOnlyRoom) "room" ∅ 0%nat)
                = Thrown e)
  /\ calls (Mixed.bindProducer codeclessEnv audio "sdp"
              {| Mixed.b_inputs := []; Mixed.b_transports := []; Mixed.b_consumers := [] |}
              (audioProducer "a1" 111) ∅ 0%nat)
     = [CreatePlainTransport; Consume 0%nat "a1" true; CloseTransport 0%nat].
Proof.
  pose proof (missing_codec_aborts_per_participant_start codeclessEnv audioOnlyRoom "room"
                ({| peer_id := "alice"; peer_producers := [audioProducer "a1" 111] |},
                 audioProducer "a1" 111)
                ∅ 0%nat "sdp"
                {| Mixed.b_inputs := []; Mixed.b_transports := []; Mixed.b_consumers := [] |}
                ∅ 0%nat
                (or_introl eq_refl) eq_refl eq_refl) as (Hthrows & _ & Hskip).
  split; [reflexivity|]. split; [exact Hthrows|].
  exact (f_equal calls (Hskip eq_refl eq_refl)).
Defined.


(** ** Stopping a recording *)

Section StopRuns.
Context {S : Type}.
Variable env : Env.

(** A loop of calls, each in its own [try {} catch {}], makes every call and
    returns. *)
Lemma run_forEach_try {X} (f : X -> Call) (l : list X) (s : S) (n : nat) :
  forEach l (fun x => try_ (perform env (f x) (fun _ => tt))) s n = (Returned tt, s, map f l).
Proof.
  revert n. induction l as [|x l IH]; intros n; [reflexivity|].
  cbn [forEach map].
  rewrite (bind_step _ _ s n tt (f x)).
  - rewrite IH. reflexivity.
  - unfold try_, perform. destruct (env_throws env n (f x)); reflexivity.
Qed.

Lemma run_forEach_quiet {X} (f : X -> Call) (l : list X) (s : S) (n : nat) :
  forEach l (fun x => quiet (f x) (fun _ => tt)) s n = (Returned tt, s, map f l).
Proof.
  revert n. induction l as [|x l IH]; intros n; [reflexivity|].
  cbn [forEach map].
  rewrite (bind_step _ _ s n tt (f x)) by reflexivity.
  rewrite IH. reflexivity.
Qed.

End StopRuns.

(** *** The minimum runtime floor *)

(** A mixed stop issued 500 ms after the start is held for 19.5 s, until
    20 s after the start: the floor of mixed-recording-manager.js is 20 s. *)
Lemma mixed_stop_held_for_twenty_seconds :
  env_now calmEnv 0 - Mixed.st_startedAt (mixedState 1699999999500) = 500
  /\ nth_error (calls (Mixed.stopMixedRecording calmEnv "rec-mix-1"
                         (mixedRegistry 1699999999500) 0%nat)) 0
     = Some (Sleep 19500)
  /\ holdBefore (calls (Mixed.stopMixedRecording calmEnv "rec-mix-1"
                          (mixedRegistry 1699999999500) 0%nat))
     = 20000 - 500.
Proof. vm_compute. repeat split. Qed.

Section Hold.
Variable env : Env.

Lemma mixed_stop_hold (active : gmap string Mixed.State) (id : string) (st : Mixed.State)
    (n : nat) :
  active !! id = Some st ->
  let now := env_now env n in
  let elapsed := now - (if Mixed.st_startedAt st =? 0 then now else Mixed.st_startedAt st) in
  exists rest,
    calls (Mixed.stopMixedRecording env id active n)
    = (if elapsed <? 20000 then [Sleep (20000 - elapsed)] else [])
      ++ WaitClose (Mixed.st_ff st) 300 :: rest.
Proof.
  intros Hst now elapsed. unfold Mixed.stopMixedRecording.
  rewrite (bind_silent _ _ active n active) by reflexivity.
  rewrite Hst.
  rewrite (bind_silent _ _ active n (env_now env n)) by reflexivity.
  fold now. cbn zeta. fold elapsed. unfold Mixed.minRunMs.
  destruct (elapsed <? 20000).
  - rewrite (bind_step _ _ active n tt (Sleep (20000 - elapsed))) by reflexivity.
    rewrite (bind_step _ _ active (S n) (env_exited env (S n) (Mixed.st_ff st) 300)
               (WaitClose (Mixed.st_ff st) 300)) by reflexivity.
    eexists. reflexivity.
  - rewrite (bind_silent _ _ active n tt) by reflexivity.
    rewrite (bind_step _ _ active n (env_exited env n (Mixed.st_ff st) 300)
               (WaitClose (Mixed.st_ff st) 300)) by reflexivity.
    eexists. reflexivity.
Qed.

Lemma revised_stop_hold (socket : bool) (active : gmap string MixedRevised.State) (id : string)
    (st : MixedRevised.State) (n : nat) :
  active !! id = Some st ->
  let now := env_now env (n + if socket then 1 else 0) in
  let elapsed := now - MixedRevised.actualStartTime st in
  exists rest,
    calls (MixedRevised.stopMixedRecording env socket id active n)
    = (if socket then [Emit "recordingStateChanged" "stopping"] else [])
      ++ (if elapsed <? 5000 then [Sleep (5000 - elapsed)] else [])
      ++ WaitClose (MixedRevised.st_ff st) 300 :: rest.
Proof.
  intros Hst now elapsed. unfold MixedRevised.stopMixedRecording.
  rewrite (bind_silent _ _ active n active) by reflexivity.
  rewrite Hst. unfold MixedRevised.emitIfSocket at 1. subst elapsed now.
  destruct socket.
  - rewrite (bind_step _ _ active n tt (Emit "recordingStateChanged" "stopping")) by reflexivity.
    rewrite Nat.add_1_r.
    rewrite (bind_silent _ _ active (S n) (env_now env (S n))) by reflexivity.
    cbn zeta. unfold MixedRevised.minRunMs.
    destruct (env_now env (S n) - MixedRevised.actualStartTime st <? 5000).
    + rewrite (bind_step _ _ active (S n) tt (Sleep _)) by reflexivity.
      rewrite (bind_step _ _ active (S (S n)) _ (WaitClose (MixedRevised.st_ff st) 300))
        by reflexivity.
      eexists. reflexivity.
    + rewrite (bind_silent _ _ active (S n) tt) by reflexivity.
      rewrite (bind_step _ _ active (S n) _ (WaitClose (MixedRevised.st_ff st) 300))
        by reflexivity.
      eexists. reflexivity.
  - rewrite (bind_silent _ _ active n tt) by reflexivity.
    rewrite Nat.add_0_r.
    rewrite (bind_silent _ _ active n (env_now env n)) by reflexivity.
    cbn zeta. unfold MixedRevised.minRunMs.
    destruct (env_now env n - MixedRevised.actualStartTime st <? 5000).
    + rewrite (bind_step _ _ active n tt (Sleep _)) by reflexivity.
      rewrite (bind_step _ _ active (S n) _ (WaitClose (MixedRevised.st_ff st) 300))
        by reflexivity.
      eexists. reflexivity.
    + rewrite (bind_silent _ _ active n tt) by reflexivity.
      rewrite (bind_step _ _ active n _ (WaitClose (MixedRevised.st_ff st) 300))
        by reflexivity.
      eexists. reflexivity.
Qed.

(** The per-participant stop never waits. *)
Lemma per_participant_stop_never_sleeps (id : string) :
  emits (fun c => ~ isSleep c) (PerParticipant.stop env id).
Proof.
  unfold PerParticipant.stop, PerParticipant.stopItem. emits_auto.
Qed.

(** C8, as amended: a mixed stop is held for max(0, floor - elapsed) before
    it first looks at the muxer. In mixed-recording-manager.js the floor is
    20 s and the elapsed time is counted from the start; in the revised copy
    the floor is 5 s and the elapsed time is counted from the instant the
    muxer was seen to process frames when that was recorded, from the start
    otherwise. The per-participant stop is never held. In both mixed
    managers a stop issued before the floor is not acted upon before 5 s
    have passed since the start. *)
Theorem stop_minimum_runtime_floor (socket : bool)
    (active : gmap string Mixed.State) (id : string) (st : Mixed.State)
    (activeR : gmap string MixedRevised.State) (idR : string) (stR : MixedRevised.State)
    (idP : string) (activeP : gmap string PerParticipant.State) (n : nat) :
  active !! id = Some st ->
  activeR !! idR = Some stR ->
  let now := env_now env n in
  let start := if Mixed.st_startedAt st =? 0 then now else Mixed.st_startedAt st in
  let held := holdBefore (calls (Mixed.stopMixedRecording env id active n)) in
  let nowR := env_now env (n + if socket then 1 else 0) in
  let heldR := holdBefore (calls (MixedRevised.stopMixedRecording env socket idR activeR n)) in
  held = Z.max 0 (20000 - (now - start))
  /\ heldR = Z.max 0 (5000 - (nowR - MixedRevised.actualStartTime stR))
  /\ Forall (fun c => ~ isSleep c) (calls (PerParticipant.stop env idP activeP n))
  /\ now + held >= start + 20000
  /\ (MixedRevised.st_startedAt stR <= MixedRevised.actualStartTime stR ->
      nowR + heldR >= MixedRevised.st_startedAt stR + 5000).
Proof.
  intros Hst HstR now start held nowR heldR.
  assert (held = Z.max 0 (20000 - (now - start))) as Hheld.
  { subst held. destruct (mixed_stop_hold active id st n Hst) as (rest & ->).
    fold now. fold start.
    destruct (now - start <? 20000) eqn:E; cbn [app holdBefore]; lia. }
  assert (heldR = Z.max 0 (5000 - (nowR - MixedRevised.actualStartTime stR))) as HheldR.
  { subst heldR. destruct (revised_stop_hold socket activeR idR stR n HstR) as (rest & ->).
    fold nowR.
    destruct socket;
      destruct (nowR - MixedRevised.actualStartTime stR <? 5000) eqn:E;
      cbn [app holdBefore]; lia. }
  split; [exact Hheld|]. split; [exact HheldR|].
  split; [apply per_participant_stop_never_sleeps|].
  split; [lia|]. intros Hstart. lia.
Qed.

End Hold.

(** A stop 500 ms after the start: held 19.5 s by the manager of
    mixed-recording-manager.js and 4.5 s by the revised one. *)
Lemma stop_minimum_runtime_floor_witness :
  holdBefore (calls (Mixed.stopMixedRecording calmEnv "rec-mix-1"
                       (mixedRegistry 1699999999500) 0%nat)) = 19500
  /\ holdBefore (calls (MixedRevised.stopMixedRecording calmEnv false "rec-mix-1"
                          (revisedRegistry 1699999999500 None) 0%nat)) = 4500.
Proof.
  destruct (stop_minimum_runtime_floor calmEnv false
              (mixedRegistry 1699999999500) "rec-mix-1" (mixedState 1699999999500)
              (revisedRegistry 1699999999500 None) "rec-mix-1" (revisedState 1699999999500 None)
              "rec-per-1" (perRegistry 1699999999500) 0%nat eq_refl eq_refl)
    as (H & HR & _).
  split; [rewrite H|rewrite HR]; reflexivity.
Defined.

(** *** The order of a stop *)

Section StopOrder.
Variable env : Env.

Lemma run_closeResources (st : Mixed.State) (s : gmap string Mixed.State) (n : nat) :
  Mixed.closeResources env st s n
  = (Returned tt, s, closeCalls (Mixed.st_consumers st) (Mixed.st_transports st)).
Proof.
  unfold Mixed.closeResources, closeConsumer, closeTransport.
  rewrite (bind_returned _ _ s s n tt
             (map (fun c => CloseConsumer (cons_id c)) (Mixed.st_consumers st)))
    by apply (run_forEach_try env (fun c => CloseConsumer (cons_id c))).
  rewrite (run_forEach_try env CloseTransport). reflexivity.
Qed.

(** The last phase clears the timers, closes every consumer and transport,
    and only then removes the registry entry; what follows closes nothing
    and signals nothing. *)
Lemma run_mixedStopFinish (id : string) (st : Mixed.State) (s : gmap string Mixed.State)
    (n : nat) :
  exists tail,
    calls (mixedStopFinish env id st s n)
    = map ClearInterval (Mixed.st_keyframeIntervals st)
      ++ closeCalls (Mixed.st_consumers st) (Mixed.st_transports st)
      ++ RegistryDelete id :: tail
    /\ Forall (fun c => ~ isClose c /\ ~ isTerminationRequest (Mixed.st_ff st) c
                       /\ ~ isKill c /\ ~ isRegistryChange c) tail.
Proof.
  unfold mixedStopFinish.
  rewrite (bind_returned _ _ s s n tt (map ClearInterval (Mixed.st_keyframeIntervals st)))
    by apply (run_forEach_quiet ClearInterval).
  cbn [calls snd].
  rewrite (bind_returned _ _ s s _ tt _ (run_closeResources st s _)).
  cbn [calls snd].
  rewrite (bind_returned _ _ s (delete id s) _ tt [RegistryDelete id] eq_refl).
  cbn [calls snd app].
  eexists. split; [reflexivity|].
  cut (emits (fun c => ~ isClose c /\ ~ isTerminationRequest (Mixed.st_ff st) c
                      /\ ~ isKill c /\ ~ isRegistryChange c)
         (bind (Mixed.checkDuration env (Mixed.st_outputPath st)) (fun duration =>
          bind (removeDirLater (Mixed.st_sdpDir st) 1500) (fun _ =>
          bind (existsSync env (Mixed.st_outputPath st)) (fun present =>
          ret (Mixed.Stopped (Mixed.st_fileName st) (Mixed.st_outputPath st) present duration))))
          : M (gmap string Mixed.State) Mixed.StopResult)).
  { intros H. apply H. }
  unfold Mixed.checkDuration.
  emits_auto; cbn; repeat split; intros H; try destruct H; try discriminate; auto.
Qed.

(** The quit phase of the mixed stop: [q] is written to the standard input
    of the muxer when it is writable, and the muxer is given 30 s. *)
Lemma run_quit_phase (ff : ProcId) (s : gmap string Mixed.State) (n : nat) :
  exists w,
    bind (try_ (bind (stdinWritable env ff) (fun writable =>
                  if writable then bind (stdinWrite env ff ("q" +:+ JS.nl)) (fun _ => stdinEnd env ff)
                  else ret tt)))
         (fun _ => waitForProcessClose env ff 30000) s n
    = (Returned (env_exited env (n + length w) ff 30000), s, w ++ [WaitClose ff 30000])
    /\ Forall (fun c => ~ isClose c /\ ~ isKill c /\ ~ isRegistryChange c) w
    /\ (env_stdinWritable env n ff = true -> exists w', w = StdinWrite ff ("q" +:+ JS.nl) :: w')
    /\ (env_stdinWritable env n ff = false -> w = []).
Proof.
  unfold bind at 1. unfold try_.
  rewrite (bind_silent _ _ s n (env_stdinWritable env n ff)) by reflexivity.
  destruct (env_stdinWritable env n ff).
  - unfold stdinWrite, stdinEnd, perform, bind, waitForProcessClose, quiet.
    destruct (env_throws env n (StdinWrite ff ("q" +:+ JS.nl))).
    + exists [StdinWrite ff ("q" +:+ JS.nl)]. cbn.
      split; [reflexivity|]. split; [repeat constructor; auto|].
      split; [eauto|discriminate].
    + cbn. destruct (env_throws env (n + 1) (StdinEnd ff)).
      * exists [StdinWrite ff ("q" +:+ JS.nl); StdinEnd ff]. cbn.
        split; [reflexivity|]. split; [repeat constructor; auto|].
        split; [eauto|discriminate].
      * exists [StdinWrite ff ("q" +:+ JS.nl); StdinEnd ff]. cbn.
        split; [reflexivity|]. split; [repeat constructor; auto|].
        split; [eauto|discriminate].
  - exists []. cbn. rewrite Nat.add_0_r.
    split; [reflexivity|]. split; [constructor|]. split; [discriminate|reflexivity].
Qed.

(** The starving phase: the consumers and the transports are closed and the
    muxer is given 5 s more. *)
Lemma run_starve_phase (st : Mixed.State) (s : gmap string Mixed.State) (n : nat) :
  bind (Mixed.closeResources env st) (fun _ => waitForProcessClose env (Mixed.st_ff st) 5000) s n
  = (Returned (env_exited env
                 (n + length (closeCalls (Mixed.st_consumers st) (Mixed.st_transports st)))
                 (Mixed.st_ff st) 5000),
     s,
     closeCalls (Mixed.st_consumers st) (Mixed.st_transports st)
     ++ [WaitClose (Mixed.st_ff st) 5000]).
Proof.
  rewrite (bind_returned _ _ s s n tt _ (run_closeResources st s n)). reflexivity.
Qed.

Lemma run_mixedStopAfterWait (id : string) (st : Mixed.State) (exited : bool)
    (s : gmap string Mixed.State) (n : nat) :
  exists quit early tail,
    calls (mixedStopAfterWait env id st exited s n)
    = quit ++ early
      ++ map ClearInterval (Mixed.st_keyframeIntervals st)
      ++ closeCalls (Mixed.st_consumers st) (Mixed.st_transports st)
      ++ RegistryDelete id :: tail
    /\ Forall (fun c => ~ isClose c /\ ~ isKill c /\ ~ isRegistryChange c) quit
    /\ (early = []
        \/ early = closeCalls (Mixed.st_consumers st) (Mixed.st_transports st)
                   ++ [WaitClose (Mixed.st_ff st) 5000])
    /\ Forall (fun c => ~ isClose c /\ ~ isTerminationRequest (Mixed.st_ff st) c
                       /\ ~ isKill c /\ ~ isRegistryChange c) tail
    /\ (exited = false ->
        (forall t, env_stdinWritable env t (Mixed.st_ff st) = true) ->
        exists q', quit = StdinWrite (Mixed.st_ff st) ("q" +:+ JS.nl) :: q')
    /\ (exited = true -> quit = [] /\ early = [])
    /\ ((forall t, env_exited env t (Mixed.st_ff st) 30000 = true) -> early = []).
Proof.
  unfold mixedStopAfterWait. destruct exited; cbn [negb].
  - rewrite (bind_silent _ _ s n true) by reflexivity. cbn [negb].
    rewrite (bind_silent _ _ s n true) by reflexivity.
    destruct (run_mixedStopFinish id st s n) as (tail & -> & Htail).
    exists [], [], tail. cbn [app]. repeat split; auto; discriminate.
  - destruct (run_quit_phase (Mixed.st_ff st) s n) as (w & Hrun & Hw & Hq & _).
    rewrite (bind_returned _ _ s s n _ _ Hrun). cbn [calls snd].
    destruct (env_exited env (n + length w) (Mixed.st_ff st) 30000) eqn:E2; cbn [negb].
    + rewrite (bind_silent _ _ s _ true) by reflexivity.
      destruct (run_mixedStopFinish id st s (n + length (w ++ [WaitClose (Mixed.st_ff st) 30000])))
        as (tail & -> & Htail).
      exists (w ++ [WaitClose (Mixed.st_ff st) 30000]), [], tail. cbn [app].
      split; [reflexivity|].
      split; [apply Forall_app; split; [exact Hw|repeat constructor; auto]|].
      split; [left; reflexivity|]. split; [exact Htail|].
      split; [|split; [discriminate|reflexivity]].
      intros _ Hwr. destruct (Hq (Hwr n)) as (w' & ->). eexists. reflexivity.
    + rewrite (bind_returned _ _ s s _ _ _ (run_starve_phase st s _)). cbn [calls snd].
      match goal with
      | |- context [calls (mixedStopFinish env id st s ?m)] =>
          destruct (run_mixedStopFinish id st s m) as (tail & -> & Htail)
      end.
      exists (w ++ [WaitClose (Mixed.st_ff st) 30000]),
        (closeCalls (Mixed.st_consumers st) (Mixed.st_transports st)
         ++ [WaitClose (Mixed.st_ff st) 5000]), tail.
      split; [reflexivity|].
      split; [apply Forall_app; split; [exact Hw|repeat constructor; auto]|].
      split; [right; reflexivity|]. split; [exact Htail|].
      split; [|split; [discriminate|]].
      * intros _ Hwr. destruct (Hq (Hwr n)) as (w' & ->). eexists. reflexivity.
      * intros H30. rewrite H30 in E2. discriminate.
Qed.

Lemma mixed_stop_trace (active : gmap string Mixed.State) (id : string) (st : Mixed.State)
    (n : nat) :
  active !! id = Some st ->
  exists hold quit early tail,
    calls (Mixed.stopMixedRecording env id active n)
    = hold ++ WaitClose (Mixed.st_ff st) 300 :: quit ++ early
      ++ map ClearInterval (Mixed.st_keyframeIntervals st)
      ++ closeCalls (Mixed.st_consumers st) (Mixed.st_transports st)
      ++ RegistryDelete id :: tail
    /\ Forall isSleep hold
    /\ Forall (fun c => ~ isClose c /\ ~ isKill c /\ ~ isRegistryChange c) quit
    /\ (early = []
        \/ early = closeCalls (Mixed.st_consumers st) (Mixed.st_transports st)
                   ++ [WaitClose (Mixed.st_ff st) 5000])
    /\ Forall (fun c => ~ isClose c /\ ~ isTerminationRequest (Mixed.st_ff st) c
                       /\ ~ isKill c /\ ~ isRegistryChange c) tail
    /\ ((forall t, env_exited env t (Mixed.st_ff st) 300 = false) ->
        (forall t, env_stdinWritable env t (Mixed.st_ff st) = true) ->
        exists q', quit = StdinWrite (Mixed.st_ff st) ("q" +:+ JS.nl) :: q')
    /\ ((forall t, env_exited env t (Mixed.st_ff st) 300 = true) -> quit = [] /\ early = [])
    /\ ((forall t, env_exited env t (Mixed.st_ff st) 30000 = true) -> early = []).
Proof.
  intros Hst. unfold Mixed.stopMixedRecording.
  rewrite (bind_silent _ _ active n active) by reflexivity.
  rewrite Hst.
  rewrite (bind_silent _ _ active n (env_now env n)) by reflexivity.
  cbn zeta.
  match goal with
  | |- context [if ?b then sleep ?d else ret tt] =>
      exists (if b then [Sleep d] else []);
      assert (Forall isSleep (if b then [Sleep d] else [])) as Hhold
        by (destruct b; repeat constructor);
      destruct b;
      [ rewrite (bind_step _ _ active _ tt (Sleep d)) by reflexivity
      | rewrite (bind_silent _ _ active _ tt) by reflexivity ]
  end.
  all: rewrite (bind_step _ _ active _ _ (WaitClose (Mixed.st_ff st) 300)) by reflexivity.
  all: cbn [calls snd app].
  all: match goal with
       | |- context [calls (bind (if negb ?e then _ else _) _ ?s ?m)] =>
           destruct (run_mixedStopAfterWait id st e s m)
             as (quit & early & tail & Hrun & Hquit & Hearly & Htail & Hq & He & H30)
       end.
  all: unfold mixedStopAfterWait, mixedStopFinish in Hrun; rewrite Hrun.
  all: exists quit, early, tail.
  all: split; [reflexivity|].
  all: split; [exact Hhold|]. all: split; [exact Hquit|]. all: split; [exact Hearly|].
  all: split; [exact Htail|].
  all: split; [intros H300 Hwr; apply Hq; [apply H300|exact Hwr]|].
  all: split; [intros H300; apply He; apply H300|exact H30].
Qed.

Lemma run_try_perform {S} (c : Call) (s : S) (n : nat) :
  try_ (perform env c (fun _ => tt)) s n = (Returned tt, s, [c]).
Proof. unfold try_, perform. destruct (env_throws env n c); reflexivity. Qed.

Lemma run_stopItems (items : list PerParticipant.Item) (s : gmap string PerParticipant.State)
    (n : nat) :
  forEach items (PerParticipant.stopItem env) s n = (Returned tt, s, flat_map stopCalls items).
Proof.
  revert n. induction items as [|it items IH]; intros n; [reflexivity|].
  cbn [forEach flat_map]. unfold PerParticipant.stopItem at 1.
  unfold processKill, closeConsumer, closeTransport.
  rewrite (bind_returned _ _ s s n tt (stopCalls it)).
  - rewrite IH. reflexivity.
  - rewrite (bind_step _ _ s n tt _ (run_try_perform _ s n)).
    rewrite (bind_step _ _ s (S n) tt _ (run_try_perform _ s (S n))).
    rewrite run_try_perform. reflexivity.
Qed.

(** The per-participant stop signals the muxer of each item, closes its
    consumer and its transport, item after item, then writes the metadata
    and removes the registry entry. *)
Lemma per_participant_stop_run (active : gmap string PerParticipant.State) (id : string)
    (st : PerParticipant.State) (n : nat) :
  active !! id = Some st ->
  exists metadata json,
    PerParticipant.stop env id active n
    = (Returned metadata, delete id active,
       flat_map stopCalls (PerParticipant.st_items st)
       ++ [WriteFile (JS.pathJoin (PerParticipant.st_baseDir st) "metadata.json") json;
           RegistryDelete id]).
Proof.
  intros Hst. unfold PerParticipant.stop.
  rewrite (bind_silent _ _ active n active) by reflexivity.
  rewrite Hst.
  rewrite (bind_returned _ _ active active n tt _ (run_stopItems _ active n)).
  match goal with
  | |- context [bind (dateNow env) ?k ?s ?m] =>
      rewrite (bind_silent (dateNow env) k s m (env_now env m) eq_refl)
  end.
  cbn zeta. unfold writeFileSync.
  match goal with
  | |- context [bind (try_ (perform env ?c ?f)) ?k ?s ?m] =>
      rewrite (bind_step (try_ (perform env c f)) k s m tt c (run_try_perform c s m))
  end.
  match goal with
  | |- context [bind (registryDelete ?i ?f) ?k ?s ?m] =>
      rewrite (bind_returned (registryDelete i f) k s (f s) m tt [RegistryDelete i] eq_refl)
  end.
  cbn [outcome stateOf calls fst snd ret].
  eexists. eexists. reflexivity.
Qed.

Lemma sleeps_neither_close_nor_signal (p : ProcId) (hold : list Call) :
  Forall isSleep hold -> Forall (fun c => ~ isClose c /\ ~ isTerminationRequest p c) hold.
Proof.
  intros H. induction H as [|c hold Hc _ IH]; constructor; [|exact IH].
  destruct c; cbn in *; tauto.
Qed.

Lemma clears_neither_close_nor_signal (p : ProcId) (hs : list TimerId) :
  Forall (fun c => ~ isClose c /\ ~ isTerminationRequest p c) (map ClearInterval hs).
Proof. apply Forall_map, Forall_forall. intros h _. cbn. tauto. Qed.

Lemma closes_signal_nothing (p : ProcId) (cs : list Consumer) (ts : list TransportId) :
  Forall (fun c => ~ isTerminationRequest p c) (closeCalls cs ts).
Proof.
  unfold closeCalls. apply Forall_app. split; apply Forall_map, Forall_forall; intros x _; cbn; tauto.
Qed.

Lemma closes_change_nothing (cs : list Consumer) (ts : list TransportId) :
  Forall (fun c => ~ isKill c /\ ~ isRegistryChange c) (closeCalls cs ts).
Proof.
  unfold closeCalls. apply Forall_app. split; apply Forall_map, Forall_forall; intros x _; cbn; tauto.
Qed.

(** C2, as amended. Mixed stop: the registry is changed exactly once, by
    the removal of the entry, which comes right after the closes of every
    consumer and transport of the recording; nothing is closed or signalled
    after the removal, and no process is ever sent a signal. When the muxer
    is still running after the first 300 ms wait and its standard input is
    writable, [q] is written to that input before any consumer or transport
    is closed; when the muxer has already exited no termination request is
    made at all; no consumer or transport is closed ahead of the final
    closes when the muxer exits within the first wait or within the 30 s
    grace window. Per-participant stop: item after item, the muxer of the
    item is sent SIGINT, then the consumer and the transport of the item are
    closed; the metadata is written and the registry entry removed after the
    last item. *)
Theorem stop_ordering
    (active : gmap string Mixed.State) (id : string) (st : Mixed.State) (n : nat)
    (activeP : gmap string PerParticipant.State) (idP : string) (stP : PerParticipant.State)
    (nP : nat) :
  active !! id = Some st ->
  activeP !! idP = Some stP ->
  let tr := calls (Mixed.stopMixedRecording env id active n) in
  let ff := Mixed.st_ff st in
  let closes := closeCalls (Mixed.st_consumers st) (Mixed.st_transports st) in
  (exists pre post,
     tr = pre ++ closes ++ RegistryDelete id :: post
     /\ Forall (fun c => ~ isRegistryChange c) pre
     /\ Forall (fun c => ~ isClose c /\ ~ isTerminationRequest ff c /\ ~ isRegistryChange c) post
     /\ ((forall t, env_exited env t ff 300 = true) \/ (forall t, env_exited env t ff 30000 = true) ->
         Forall (fun c => ~ isClose c) pre))
  /\ Forall (fun c => ~ isKill c) tr
  /\ ((forall t, env_exited env t ff 300 = false) ->
      (forall t, env_stdinWritable env t ff = true) ->
      gatedBy (isQuitRequest ff) isClose tr)
  /\ ((forall t, env_exited env t ff 300 = true) ->
      Forall (fun c => ~ isTerminationRequest ff c) tr)
  /\ (exists metadata json,
       PerParticipant.stop env idP activeP nP
       = (Returned metadata, delete idP activeP,
          flat_map stopCalls (PerParticipant.st_items stP)
          ++ [WriteFile (JS.pathJoin (PerParticipant.st_baseDir stP) "metadata.json") json;
              RegistryDelete idP])).
Proof.
  intros Hst HstP tr ff closes.
  destruct (mixed_stop_trace active id st n Hst)
    as (hold & quit & early & tail & Htr & Hhold & Hquit & Hearly & Htail & Hq & He & H30).
  fold ff in Htr, Hq, He, H30, Htail, Hearly. fold closes in Htr, Hearly. fold tr in Htr.
  pose proof (sleeps_neither_close_nor_signal ff hold Hhold) as Hhold'.
  pose proof (clears_neither_close_nor_signal ff (Mixed.st_keyframeIntervals st)) as Hclears.
  pose proof (closes_change_nothing (Mixed.st_consumers st) (Mixed.st_transports st)) as Hcl.
  fold closes in Hcl.
  assert (Forall (fun c => ~ isKill c /\ ~ isRegistryChange c) hold) as Hhold2.
  { eapply Forall_impl; [exact Hhold|]. intros [] Hc; try destruct Hc; cbn; tauto. }
  assert (Forall (fun c => ~ isKill c /\ ~ isRegistryChange c)
            (map ClearInterval (Mixed.st_keyframeIntervals st))) as Hclears2.
  { apply Forall_map, Forall_forall. intros h _. cbn. tauto. }
  assert (Forall (fun c => ~ isKill c /\ ~ isRegistryChange c) quit) as Hquit2.
  { eapply Forall_impl; [exact Hquit|]. cbn. tauto. }
  assert (Forall (fun c => ~ isKill c /\ ~ isRegistryChange c) early) as Hearly2.
  { destruct Hearly as [->| ->]; [constructor|].
    apply Forall_app. split; [exact Hcl|]. repeat constructor; cbn; tauto. }
  assert (Forall (fun c => ~ isKill c /\ ~ isRegistryChange c)
            (hold ++ WaitClose ff 300 :: quit ++ early
             ++ map ClearInterval (Mixed.st_keyframeIntervals st))) as Hpre.
  { apply Forall_app. split; [exact Hhold2|]. constructor; [cbn; tauto|].
    apply Forall_app. split; [exact Hquit2|]. apply Forall_app. split; assumption. }
  split; [|split; [|split; [|split]]].
  - exists (hold ++ WaitClose ff 300 :: quit ++ early
            ++ map ClearInterval (Mixed.st_keyframeIntervals st)), tail.
    split; [|split; [|split]].
    + rewrite Htr. rewrite <- ?app_assoc. cbn [app]. rewrite <- ?app_assoc. reflexivity.
    + eapply Forall_impl; [exact Hpre|]. cbn. tauto.
    + eapply Forall_impl; [exact Htail|]. cbn. tauto.
    + intros Hexit.
      assert (early = []) as ->.
      { destruct Hexit as [H300|H3]; [apply (He H300)|apply (H30 H3)]. }
      cbn [app]. apply Forall_app. split.
      * eapply Forall_impl; [exact Hhold'|]. cbn. tauto.
      * constructor; [cbn; auto|]. apply Forall_app. split.
        -- eapply Forall_impl; [exact Hquit|]. cbn. tauto.
        -- eapply Forall_impl; [exact Hclears|]. cbn. tauto.
  - rewrite Htr.
    replace (hold ++ WaitClose ff 300 :: quit ++ early
             ++ map ClearInterval (Mixed.st_keyframeIntervals st)
             ++ closes ++ RegistryDelete id :: tail)
      with ((hold ++ WaitClose ff 300 :: quit ++ early
             ++ map ClearInterval (Mixed.st_keyframeIntervals st))
            ++ closes ++ RegistryDelete id :: tail)
      by (rewrite <- ?app_assoc; cbn [app]; rewrite <- ?app_assoc; reflexivity).
    apply Forall_app. split; [eapply Forall_impl; [exact Hpre|]; cbn; tauto|].
    apply Forall_app. split; [eapply Forall_impl; [exact Hcl|]; cbn; tauto|].
    constructor; [cbn; tauto|]. eapply Forall_impl; [exact Htail|]. cbn. tauto.
  - intros H300 Hwr. destruct (Hq H300 Hwr) as (q' & ->). rewrite Htr.
    apply gatedBy_app_free.
    + eapply Forall_impl; [exact Hhold'|]. cbn. tauto.
    + apply (gatedBy_app_free _ _ [WaitClose ff 300]); [repeat constructor; cbn; auto|].
      apply gatedBy_cons_gate; [reflexivity|cbn; auto].
  - intros H300. destruct (He H300) as (-> & ->). rewrite Htr. cbn [app].
    apply Forall_app. split.
    + eapply Forall_impl; [exact Hhold'|]. cbn. tauto.
    + constructor; [cbn; auto|]. apply Forall_app. split.
      * eapply Forall_impl; [exact Hclears|]. cbn. tauto.
      * apply Forall_app. split; [apply closes_signal_nothing|].
        constructor; [cbn; auto|].
        eapply Forall_impl; [exact Htail|]. cbn. tauto.
  - apply per_participant_stop_run. exact HstP.
Qed.

End StopOrder.

(** A mixed recording whose muxer has already exited is stopped without any
    termination request: one wait, then the timers are cleared, the consumer
    and the transport closed and the registry entry removed. *)
Lemma mixed_stop_of_exited_muxer_requests_nothing :
  calls (Mixed.stopMixedRecording exitedEnv "rec-mix-1" (mixedRegistry 1699999000000) 0%nat)
  = [WaitClose 6%nat 300; ClearInterval 9%nat; CloseConsumer 2%nat; CloseTransport 1%nat;
     RegistryDelete "rec-mix-1";
     Spawn "ffprobe"
       ["-v"; "error"; "-show_entries"; "format=duration"; "-of"; "json";
        "./files/mixed-rec-mix-1.mp4"];
     RemoveDirLater "./files/sdp/rec-mix-1" 1500]
  /\ stateOf (Mixed.stopMixedRecording exitedEnv "rec-mix-1" (mixedRegistry 1699999000000) 0%nat)
       !! "rec-mix-1" = None.
Proof. vm_compute. split; reflexivity. Qed.

(** The stop of a running mixed recording and of a per-participant
    recording of two producers. *)
Lemma stop_ordering_witness :
  (exists pre post,
     calls (Mixed.stopMixedRecording calmEnv "rec-mix-1" (mixedRegistry 1699999000000) 0%nat)
     = pre ++ [CloseConsumer 2%nat; CloseTransport 1%nat] ++ RegistryDelete "rec-mix-1" :: post)
  /\ calls (PerParticipant.stop calmEnv "rec-per-1" (perRegistry 1699999000000) 0%nat)
     = [Kill 6%nat "SIGINT"; CloseConsumer 2%nat; CloseTransport 1%nat;
        Kill 14%nat "SIGINT"; CloseConsumer 10%nat; CloseTransport 9%nat;
        WriteFile "./files/per/room/rec-per-1/metadata.json"
          (PerParticipant.jsonOfMetadata
             {| PerParticipant.md_id := "rec-per-1";
                PerParticipant.md_roomId := "room";
                PerParticipant.md_startedAt := 1699999000000;
                PerParticipant.md_endedAt := 1700000000006;
                PerParticipant.md_durationMs := 1000006;
                PerParticipant.md_files :=
                  ["./files/per/room/rec-per-1/video-alice-v1.webm";
                   "./files/per/room/rec-per-1/video-bob-v2.webm"] |});
        RegistryDelete "rec-per-1"].
Proof.
  destruct (stop_ordering calmEnv
              (mixedRegistry 1699999000000) "rec-mix-1" (mixedState 1699999000000) 0%nat
              (perRegistry 1699999000000) "rec-per-1" (perState 1699999000000) 0%nat
              eq_refl eq_refl)
    as ((pre & post & Htr & _) & _ & _ & _).
  split; [exists pre, post; exact Htr|].
  vm_compute. reflexivity.
Defined.

(** ** Where the SDP takes its codec from *)

(** C1, evaluated on the code: the single-file recorder of
    recording-manager.js synthesizes its SDP from the rtpParameters of the
    producer. In a room whose video producer sends payload type 96 while the
    router gives the recording consumer payload type 101, the start
    succeeds, the consumer is created, and the SDP piped to the muxer
    declares payload type 96. *)
Theorem single_file_sdp_uses_producer_payload_type :
  let run := RecordingManager.startRecording calmEnv (Some videoRoom) "room" "alice" ∅ 0%nat in
  outcome run
    = Returned {| RecordingManager.recording_id := "rec-1700000000000";
                  RecordingManager.file_name := "recording-rec-1700000000000.webm" |}
  /\ pipedSdp (calls run)
     = Some (sdpText (sdpPreamble "FFmpeg"
                      ++ ["m=video 10000 RTP/AVP 96"; "a=rtpmap:96 VP8/90000"; "a=recvonly"]))
  /\ consumeCalls (calls run) = [Consume 5%nat "v1" true]
  /\ payloadTypes (env_consumerRtp calmEnv (videoProducer "v1" 96)) = [101]
  /\ payloadTypes (prod_rtpParameters (videoProducer "v1" 96)) = [96].
Proof. vm_compute. repeat split. Qed.

(** The codec the recorders extract is a codec of the rtpParameters they are
    given: the first one whose MIME type contains the kind. *)
Lemma codecOfRtpParameters_sound (kind : Kind) (rp : option RtpParameters) (ci : CodecInfo) :
  codecOfRtpParameters kind rp = Some ci ->
  exists cs c,
    rp = Some {| codecs := Some cs |}
    /\ In c cs
    /\ JS.includes (JS.toLowerCase (mimeType c)) (kindName kind) = true
    /\ ci_payloadType ci = payloadType c
    /\ ci_clockRate ci = clockRate c
    /\ ci_codecName ci = nth_error (JS.split "/" (mimeType c)) 1.
Proof.
  unfold codecOfRtpParameters. destruct rp as [[[cs|]]|]; cbn [codecs]; try discriminate.
  match goal with
  | |- context [find ?f cs] => destruct (find f cs) as [c|] eqn:Hfind; [|discriminate]
  end.
  intros [= <-]. exists cs, c.
  apply find_some in Hfind as (Hin & Hkind). cbn. repeat split; assumption.
Qed.

Lemma in_firstn {A} (n : nat) (l : list A) (x : A) : In x (firstn n l) -> In x l.
Proof.
  intros H. rewrite <- (firstn_skipn n l). apply in_or_app. left. exact H.
Qed.

Section SdpSource.
Variable env : Env.

Lemma in_producersOfKind (k : Kind) (r : Room) (p : Producer) :
  In p (Mixed.producersOfKind k r) -> In p (map snd (roomProducers r)) /\ prod_kind p = k.
Proof.
  unfold Mixed.producersOfKind. intros H. apply filter_In in H as (Hin & Hk).
  split; [exact Hin|]. destruct (prod_kind p), k; cbn in Hk; congruence.
Qed.

Lemma bindProducer_writes_consumer_sdp (producers : list Producer) (kind : Kind)
    (sdpDir : string) (acc : Mixed.Bound) (producer : Producer) :
  In producer producers ->
  prod_kind producer = kind ->
  emits (writesConsumerSdp env producers) (Mixed.bindProducer env kind sdpDir acc producer).
Proof.
  intros Hin Hkind. unfold Mixed.bindProducer.
  destruct (negb (env_canConsume env (prod_id producer))); [apply emits_ret|].
  apply emits_bind; [emits_auto|]. intros transport.
  eapply emits_bind_returns; [emits_auto|apply returns_consume|].
  intros consumer (Hrtp & _). rewrite Hrtp.
  destruct (Mixed._codecFromRtpParameters kind (env_consumerRtp env producer)) as [ci|] eqn:Hci;
    [|emits_auto].
  apply emits_bind; [unfold Mixed._getFreePort; emits_auto|]. intros port.
  apply emits_bind; [emits_auto|]. intros _.
  apply emits_bind; [|intros _; apply emits_ret].
  unfold writeFileSync. apply emits_perform. cbn.
  exists producer, ci, port. rewrite Hkind. auto.
Qed.

(** Every SDP file a mixed start writes is synthesized from the codec of the
    recording consumer, not from the producer's. *)
Lemma mixed_start_writes_consumer_sdp (r : Room) (width height : option Z) :
  emits (writesConsumerSdp env (map snd (roomProducers r)))
    (Mixed.startMixedRecording env (Some r) width height).
Proof.
  unfold Mixed.startMixedRecording.
  destruct (negb (router r)); [apply emits_throw|].
  destruct (_ && _); [apply emits_throw|].
  apply emits_bind; [emits_auto|]. intros now.
  apply emits_bind; [emits_auto|]. intros present.
  apply emits_bind; [emits_auto|]. intros _.
  apply emits_bind; [emits_auto|]. intros _.
  apply emits_bind.
  { apply emits_forOf. intros acc p Hp.
    apply in_firstn, in_producersOfKind in Hp as (Hin & Hk).
    apply bindProducer_writes_consumer_sdp; assumption. }
  intros b. apply emits_bind.
  { apply emits_forOf. intros acc p Hp.
    apply in_producersOfKind in Hp as (Hin & Hk).
    apply bindProducer_writes_consumer_sdp; assumption. }
  intros b'. unfold Mixed.resumeConsumer, Mixed.startKeyframePump. emits_auto.
Qed.

Lemma recordProducer_writes_consumer_sdp (producers : list Producer) (baseDir : string)
    (items : list PerParticipant.Item) (entry : Peer * Producer) :
  In (snd entry) producers ->
  emits (writesConsumerSdpFor env producers)
    (PerParticipant.recordProducer env baseDir items entry).
Proof.
  intros Hin. unfold PerParticipant.recordProducer.
  destruct (negb (env_canConsume env (prod_id (snd entry)))); [apply emits_ret|].
  apply emits_bind; [emits_auto|]. intros transport.
  eapply emits_bind_returns; [emits_auto|apply returns_consume|].
  intros consumer (Hrtp & _). rewrite Hrtp.
  apply emits_bind; [unfold PerParticipant._getFreePort; emits_auto|]. intros port.
  apply emits_bind; [emits_auto|]. intros _.
  destruct (PerParticipant._codecInfo (prod_kind (snd entry)) (env_consumerRtp env (snd entry)))
    as [ci|] eqn:Hci; [|apply emits_throw].
  apply emits_bind; [|intros _; emits_auto].
  unfold writeFileSync. apply emits_perform. cbn.
  exists (snd entry), ci, port. auto.
Qed.

(** The same for the per-participant start. *)
Lemma per_participant_start_writes_consumer_sdp (r : Room) (roomId : string) :
  emits (writesConsumerSdpFor env (map snd (roomProducers r)))
    (PerParticipant.start env (Some r) roomId).
Proof.
  unfold PerParticipant.start.
  destruct (negb (router r)); [apply emits_throw|].
  destruct (_ =? _)%nat; [apply emits_throw|].
  apply emits_bind; [emits_auto|]. intros now.
  apply emits_bind; [emits_auto|]. intros _.
  apply emits_bind; [|intros items; emits_auto].
  apply emits_forOf. intros acc entry Hentry.
  apply recordProducer_writes_consumer_sdp. apply in_map. exact Hentry.
Qed.

End SdpSource.

(** In the mixed and in the per-participant recorder the SDP files are
    synthesized from the codec of the recording consumer: its payload type,
    codec name, clock rate, channel count and format parameters. *)
Theorem recorders_synthesize_sdp_from_consumer (env : Env) (r : Room)
    (width height : option Z) (roomId : string) :
  emits (writesConsumerSdp env (map snd (roomProducers r)))
    (Mixed.startMixedRecording env (Some r) width height)
  /\ emits (writesConsumerSdpFor env (map snd (roomProducers r)))
       (PerParticipant.start env (Some r) roomId).
Proof.
  split.
  - apply mixed_start_writes_consumer_sdp.
  - apply per_participant_start_writes_consumer_sdp.
Qed.

(** ** Paused consumers *)

(** C3, evaluated on the code: the recorder with one transport (the second
    class of recording-manager.js) creates its consumers with paused: false.
    In a room with one video producer its start succeeds and the only
    consume call carries paused = false, where the first class of the file
    passes paused = true. *)
Theorem single_transport_recorder_consumes_unpaused :
  let run :=
    RecordingManagerSingleTransport.startRecording calmEnv (Some videoRoom) "room" "alice"
      ∅ 0%nat in
  outcome run
    = Returned {| RecordingManager.recording_id := "rec-1700000000001";
                  RecordingManager.file_name := "recording-rec-1700000000001.mp4" |}
  /\ consumeCalls (calls run) = [Consume 0%nat "v1" false]
  /\ consumeCalls
       (calls (RecordingManager.startRecording calmEnv (Some videoRoom) "room" "alice" ∅ 0%nat))
     = [Consume 5%nat "v1" true].
Proof. vm_compute. repeat split. Qed.

Section Gates.
Context {S : Type}.
Variables gate guarded : Call -> Prop.

Lemma gatedBy_app (tr1 tr2 : list Call) :
  gatedBy gate guarded tr1 -> gatedBy gate guarded tr2 -> gatedBy gate guarded (tr1 ++ tr2).
Proof.
  intros H1 H2 pre c post Heq Hc.
  apply app_eq_app in Heq as (l & [[Htr1 Hrest]|[Hpre Htr2]]).
  - destruct l as [|c' l]; cbn in Hrest.
    + rewrite app_nil_r in Htr1. subst tr1.
      destruct (H2 [] c post (eq_sym Hrest) Hc) as (g & [] & _).
    + injection Hrest as <- ->. exact (H1 pre c l Htr1 Hc).
  - destruct (H2 l c post Htr2 Hc) as (g & Hin & Hg).
    exists g. split; [|exact Hg]. rewrite Hpre. apply in_or_app. right. exact Hin.
Qed.

Lemma gatedBy_bind {A B} (m : M S A) (k : A -> M S B) :
  (forall s n, gatedBy gate guarded (calls (m s n))) ->
  (forall a s n, gatedBy gate guarded (calls (k a s n))) ->
  forall s n, gatedBy gate guarded (calls (bind m k s n)).
Proof.
  intros Hm Hk s n. rewrite calls_bind. apply gatedBy_app; [apply Hm|].
  destruct (outcome (m s n)); [apply Hk|apply gatedBy_free; constructor].
Qed.

Lemma gatedBy_forOf {X Acc} (l : list X) (body : Acc -> X -> M S Acc) :
  (forall acc x s n, gatedBy gate guarded (calls (body acc x s n))) ->
  forall acc s n, gatedBy gate guarded (calls (forOf l body acc s n)).
Proof.
  intros Hb. induction l as [|x l IH]; intros acc; cbn [forOf].
  - intros s n. apply gatedBy_free. constructor.
  - apply gatedBy_bind; [apply Hb|]. intros acc'. apply IH.
Qed.

Lemma gatedBy_emits {A} (m : M S A) :
  emits (fun c => ~ guarded c) m -> forall s n, gatedBy gate guarded (calls (m s n)).
Proof. intros Hm s n. apply gatedBy_free. apply Hm. Qed.

End Gates.

Section PausedConsumers.
Variable env : Env.

Lemma recordProducer_resumes_after_spawn (baseDir : string) (items : list PerParticipant.Item)
    (entry : Peer * Producer) (s : gmap string PerParticipant.State) (n : nat) :
  gatedBy isMuxerSpawn isResume (calls (PerParticipant.recordProducer env baseDir items entry s n)).
Proof.
  unfold PerParticipant.recordProducer. cbn zeta.
  destruct (negb (env_canConsume env (prod_id (snd entry))));
    [apply gatedBy_free; constructor|].
  revert s n.
  apply gatedBy_bind_free; [emits_auto|]. intros transport.
  apply gatedBy_bind_free; [emits_auto|]. intros consumer.
  apply gatedBy_bind_free; [unfold PerParticipant._getFreePort; emits_auto|]. intros port.
  apply gatedBy_bind_free; [emits_auto|]. intros _.
  destruct (PerParticipant._codecInfo _ _); [|intros; apply gatedBy_free; constructor].
  apply gatedBy_bind_free; [emits_auto|]. intros _.
  unfold spawn. apply gatedBy_bind_gate; cbn; auto.
Qed.

Lemma per_participant_start_resumes_after_spawn (room : option Room) (roomId : string)
    (s : gmap string PerParticipant.State) (n : nat) :
  gatedBy isMuxerSpawn isResume (calls (PerParticipant.start env room roomId s n)).
Proof.
  unfold PerParticipant.start.
  destruct room as [r|]; [|apply gatedBy_free; constructor].
  destruct (negb (router r)); [apply gatedBy_free; constructor|].
  destruct (_ =? _)%nat; [apply gatedBy_free; constructor|].
  revert s n.
  apply gatedBy_bind_free; [emits_auto|]. intros now.
  apply gatedBy_bind_free; [emits_auto|]. intros _.
  apply gatedBy_bind.
  - apply gatedBy_forOf. intros. apply recordProducer_resumes_after_spawn.
  - intros items. apply gatedBy_emits. emits_auto.
Qed.

Lemma per_participant_start_consumes_paused (room : option Room) (roomId : string) :
  emits consumesPaused (PerParticipant.start env room roomId).
Proof.
  unfold PerParticipant.start, PerParticipant.recordProducer, PerParticipant._getFreePort.
  emits_auto.
Qed.

(** In the mixed and in the per-participant recorder every recording
    consumer is created paused, and a consumer is resumed only after a muxer
    has been spawned with its argument vector. *)
Theorem recorders_consume_paused_and_resume_after_spawn (room : option Room)
    (width height : option Z) (roomId : string)
    (s : gmap string Mixed.State) (sP : gmap string PerParticipant.State) (n : nat) :
  emits consumesPaused (Mixed.startMixedRecording env room width height)
  /\ gatedBy isMuxerSpawn isResume (calls (Mixed.startMixedRecording env room width height s n))
  /\ emits consumesPaused (PerParticipant.start env room roomId)
  /\ gatedBy isMuxerSpawn isResume (calls (PerParticipant.start env room roomId sP n)).
Proof.
  split; [apply mixed_start_consumes_paused|].
  split; [apply mixed_start_resumes_after_spawn|].
  split; [apply per_participant_start_consumes_paused|].
  apply per_participant_start_resumes_after_spawn.
Qed.

End PausedConsumers.

(** * Further properties of the code *)

(** ** Strings *)

Lemma append_eq_empty (a b : string) : a +:+ b = "" -> a = "" /\ b = "".
Proof. destruct a; cbn; [auto|discriminate]. Qed.

Lemma join_eq_empty (sep : string) (l : list string) :
  Forall (fun x => x <> "") l -> JS.join sep l = "" -> l = [].
Proof.
  destruct l as [|x [|y rest]]; cbn; intros H Hj; [reflexivity| |].
  - inversion H; subst; contradiction.
  - inversion H; subst. apply append_eq_empty in Hj as [-> _]. contradiction.
Qed.

Lemma fmtpOfEntries_empty (p : list (string * ParamValue)) : fmtpOfEntries p = "" -> p = [].
Proof.
  unfold fmtpOfEntries. intros H. apply join_eq_empty in H.
  - destruct p; [reflexivity|discriminate].
  - apply Forall_map, Forall_forall. intros [k v] _ Hkv. cbn in Hkv.
    apply append_eq_empty in Hkv as [_ Hkv]. discriminate.
Qed.

Lemma prefix_sep (sep c : ascii) (rest : string) :
  String.prefix (String sep "") (String c rest) = Ascii.eqb c sep.
Proof.
  cbn [String.prefix]. destruct (Ascii.ascii_dec sep c) as [->|Hne].
  - rewrite Ascii.eqb_refl. destruct rest; reflexivity.
  - symmetry. apply Ascii.eqb_neq. congruence.
Qed.

Lemma lacks_cons (sep c : ascii) (rest : string) :
  lacks sep (String c rest) <-> Ascii.eqb c sep = false /\ lacks sep rest.
Proof.
  unfold lacks. cbn [JS.includes]. rewrite prefix_sep. apply orb_false_iff.
Qed.

(** [s.split(sep)] of a string without [sep] is the string alone. *)
Lemma split_lacks (sep : ascii) (s : string) : lacks sep s -> JS.split sep s = [s].
Proof.
  induction s as [|c rest IH]; [reflexivity|].
  intros H. apply lacks_cons in H as [Hc Hrest]. cbn [JS.split].
  rewrite Hc, (IH Hrest). reflexivity.
Qed.

(** [(t + sep + rest).split(sep)], for [t] without [sep]. *)
Lemma split_app (sep : ascii) (t rest : string) :
  lacks sep t -> JS.split sep (t +:+ String sep rest) = t :: JS.split sep rest.
Proof.
  induction t as [|c t IH]; intros H.
  - change (JS.split sep ("" +:+ String sep rest))
      with (if Ascii.eqb sep sep then "" :: JS.split sep rest
            else match JS.split sep rest with
                 | [] => [String sep ""]
                 | w :: ws => String sep w :: ws
                 end).
    rewrite Ascii.eqb_refl. reflexivity.
  - apply lacks_cons in H as [Hc Ht].
    change (JS.split sep (String c t +:+ String sep rest))
      with (if Ascii.eqb c sep then "" :: JS.split sep (t +:+ String sep rest)
            else match JS.split sep (t +:+ String sep rest) with
                 | [] => [String c ""]
                 | w :: ws => String c w :: ws
                 end).
    rewrite Hc, (IH Ht). reflexivity.
Qed.

Lemma prefix_app (pat s : string) : String.prefix pat (pat +:+ s) = true.
Proof.
  induction pat as [|c pat IH]; [destruct s; reflexivity|].
  change (String.prefix (String c pat) (String c pat +:+ s))
    with (if Ascii.ascii_dec c c then String.prefix pat (pat +:+ s) else false).
  destruct (Ascii.ascii_dec c c); [exact IH|contradiction].
Qed.

Lemma dropN_app (pat s : string) : JS.dropN (String.length pat) (pat +:+ s) = s.
Proof. induction pat as [|c pat IH]; [destruct s; reflexivity|exact IH]. Qed.

(** [(pat + s).replace(pat, '')] is [s]. *)
Lemma removeFirst_app (pat s : string) : JS.removeFirst pat (pat +:+ s) = s.
Proof.
  destruct pat as [|c pat]; [destruct s; reflexivity|].
  change (JS.removeFirst (String c pat) (String c pat +:+ s))
    with (if String.prefix (String c pat) (String c pat +:+ s)
          then JS.dropN (String.length (String c pat)) (String c pat +:+ s)
          else String c (JS.removeFirst (String c pat) (pat +:+ s))).
  rewrite prefix_app. apply dropN_app.
Qed.

(** [s.replace(pat, '')] is [s] when [pat] does not occur in [s]. *)
Lemma removeFirst_absent (pat s : string) :
  JS.includes s pat = false -> JS.removeFirst pat s = s.
Proof.
  induction s as [|c s IH]; cbn [JS.includes JS.removeFirst]; intros H;
    apply orb_false_iff in H as [Hp Hs]; rewrite Hp; [reflexivity|].
  rewrite (IH Hs). reflexivity.
Qed.

Lemma find_first {A} (f : A -> bool) (l : list A) (x : A) :
  find f l = Some x ->
  exists pre post, l = pre ++ x :: post /\ Forall (fun y => f y = false) pre /\ f x = true.
Proof.
  induction l as [|y l IH]; [discriminate|]. cbn [find].
  destruct (f y) eqn:Hy.
  - intros [= ->]. exists [], l. repeat split; [constructor|exact Hy].
  - intros H. destruct (IH H) as (pre & post & -> & Hpre & Hx).
    exists (y :: pre), post. repeat split; [constructor; assumption|exact Hx].
Qed.

Lemma find_none_all {A} (f : A -> bool) (l : list A) :
  find f l = None -> Forall (fun y => f y = false) l.
Proof.
  induction l as [|y l IH]; cbn [find]; [constructor|].
  destruct (f y) eqn:Hy; [discriminate|]. intros H. constructor; auto.
Qed.

(** ** The codec extraction *)

(** X3: the codec extraction of the mixed and of the per-participant
    recorder yields the fields of the first codec whose lower-cased MIME
    type contains the kind, and nothing when there is none. The channel
    count is set for audio only and is never 0; the format parameters are
    the empty string exactly when the codec has no parameter. *)
Theorem codec_extraction_takes_first_match (kind : Kind) (rp : option RtpParameters) :
  PerParticipant._codecInfo kind rp = Mixed._codecFromRtpParameters kind rp
  /\ match Mixed._codecFromRtpParameters kind rp with
     | Some ci =>
         exists pre c post,
           rp = Some {| codecs := Some (pre ++ c :: post) |}
           /\ Forall (fun x => matchesKind kind x = false) pre
           /\ matchesKind kind c = true
           /\ ci_payloadType ci = payloadType c
           /\ ci_clockRate ci = clockRate c
           /\ ci_codecName ci = nth_error (JS.split "/" (mimeType c)) 1
           /\ ci_channels ci
              = match kind with
                | video => None
                | audio => Some (JS.numOr (channels c) 2)
                end
           /\ (forall ch, ci_channels ci = Some ch -> ch <> 0)
           /\ (ci_fmtp ci = "" <-> parameters c = None \/ parameters c = Some [])
     | None =>
         forall cs, rp = Some {| codecs := Some cs |} ->
                    Forall (fun x => matchesKind kind x = false) cs
     end.
Proof.
  split; [reflexivity|].
  unfold Mixed._codecFromRtpParameters, codecOfRtpParameters.
  destruct rp as [[[cs|]]|]; cbn [codecs]; try (intros cs' [=]).
  fold (matchesKind kind).
  destruct (find (matchesKind kind) cs) as [c|] eqn:Hfind.
  - destruct (find_first _ _ _ Hfind) as (pre & post & -> & Hpre & Hc).
    exists pre, c, post. cbn [ci_payloadType ci_clockRate ci_codecName ci_channels ci_fmtp].
    split; [reflexivity|]. split; [exact Hpre|]. split; [exact Hc|].
    split; [reflexivity|]. split; [reflexivity|]. split; [reflexivity|].
    split; [destruct kind; reflexivity|]. split.
    + destruct kind; [discriminate|]. intros ch [= <-].
      unfold JS.numOr. destruct (channels c) as [v|]; [|discriminate].
      destruct (v =? 0) eqn:E; [discriminate|]. apply Z.eqb_neq. exact E.
    + destruct (parameters c) as [[|kv p]|]; cbn [length Nat.eqb]; split; auto.
      * intros H. apply fmtpOfEntries_empty in H. discriminate.
      * intros [H|H]; discriminate.
  - intros cs' [= <-]. apply find_none_all. exact Hfind.
Qed.

(** X4: the codec name is the part of the MIME type between its first and
    its second slash: [type/name] yields [name], and a MIME type without a
    slash yields no name at all, which the SDP writers print as the word
    undefined in the rtpmap line. *)
Theorem codec_name_is_second_segment (kind : Kind) (c : RtpCodec) (rest : list RtpCodec)
    (type name : string) (port : Z) :
  matchesKind kind c = true ->
  lacks "/" type ->
  lacks "/" name ->
  (mimeType c = type +:+ "/" +:+ name ->
   exists ci, Mixed._codecFromRtpParameters kind (Some {| codecs := Some (c :: rest) |}) = Some ci
              /\ ci_codecName ci = Some name)
  /\ (mimeType c = type ->
      exists ci, Mixed._codecFromRtpParameters kind (Some {| codecs := Some (c :: rest) |}) = Some ci
                 /\ ci_codecName ci = None
                 /\ exists tail,
                      In ("a=rtpmap:" +:+ JS.showZ (payloadType c) +:+ " undefined/" +:+ tail)
                        (PerParticipant.sdpLines kind (ci_payloadType ci) (ci_codecName ci)
                           (ci_clockRate ci) port (ci_channels ci) (ci_fmtp ci))
                      /\ In ("a=rtpmap:" +:+ JS.showZ (payloadType c) +:+ " undefined/" +:+ tail)
                           (Mixed.sdpLines
                              {| Mixed.si_kind := kind;
                                 Mixed.si_codecName := ci_codecName ci;
                                 Mixed.si_clockRate := ci_clockRate ci;
                                 Mixed.si_channels := ci_channels ci;
                                 Mixed.si_payloadType := ci_payloadType ci;
                                 Mixed.si_port := port;
                                 Mixed.si_fmtp := ci_fmtp ci |})).
Proof.
  intros Hkind Htype Hname.
  unfold Mixed._codecFromRtpParameters, codecOfRtpParameters. cbn [codecs find].
  fold (matchesKind kind c). rewrite Hkind. split; intros Hmime.
  - eexists. split; [reflexivity|]. cbn [ci_codecName].
    change (type +:+ "/" +:+ name) with (type +:+ String "/" name) in Hmime.
    rewrite Hmime, (split_app "/" type name Htype), (split_lacks "/" name Hname). reflexivity.
  - eexists. split; [reflexivity|]. cbn [ci_codecName ci_payloadType ci_clockRate ci_channels].
    rewrite Hmime, (split_lacks "/" type Htype). split; [reflexivity|].
    unfold PerParticipant.sdpLines, Mixed.sdpLines.
    cbn [Mixed.si_kind Mixed.si_codecName Mixed.si_clockRate Mixed.si_channels
         Mixed.si_payloadType Mixed.si_port Mixed.si_fmtp nth_error JS.showOptStr].
    destruct kind; eexists; split; apply in_or_app; right; right; left; reflexivity.
Qed.

(** A VP8 codec: the name is read from [video/VP8]. *)
Lemma codec_name_is_second_segment_witness :
  exists ci,
    Mixed._codecFromRtpParameters video (Some {| codecs := Some [vp8Codec 96] |}) = Some ci
    /\ ci_codecName ci = Some "VP8".
Proof.
  exact (proj1 (codec_name_is_second_segment video (vp8Codec 96) [] "video" "VP8" 5004
                  eq_refl eq_refl eq_refl) eq_refl).
Defined.

(** ** utils.js and sdp.js *)

(** X5: [getCodecInfoFromRtpParameters] reads the first codec of the array,
    whatever its kind, and throws exactly when there is no first codec. The
    codec name is the MIME type without its first occurrence of [kind/]: the
    rest of [kind/name], and the whole MIME type when [kind/] does not occur
    in it (the search is case sensitive). No default is applied to the
    channel count. *)
Theorem getCodecInfo_reads_first_codec (kind : Kind) (rp : option RtpParameters) :
  match Utils.getCodecInfoFromRtpParameters kind rp with
  | Returned ci =>
      exists c rest,
        rp = Some {| codecs := Some (c :: rest) |}
        /\ ci_payloadType ci = payloadType c
        /\ ci_clockRate ci = clockRate c
        /\ ci_channels ci = match kind with audio => channels c | video => None end
        /\ (forall name, mimeType c = (kindName kind +:+ "/") +:+ name -> ci_codecName ci = Some name)
        /\ (JS.includes (mimeType c) (kindName kind +:+ "/") = false ->
            ci_codecName ci = Some (mimeType c))
  | Thrown e =>
      e = "No codecs found for " +:+ kindName kind +:+ " in rtpParameters"
      /\ Sdp.firstCodec rp = None
  end.
Proof.
  unfold Utils.getCodecInfoFromRtpParameters, Sdp.firstCodec.
  destruct rp as [[[[|c rest]|]]|]; try (split; reflexivity).
  exists c, rest. cbn [ci_payloadType ci_clockRate ci_channels ci_codecName].
  repeat split.
  - intros name Hm. rewrite Hm, removeFirst_app. reflexivity.
  - intros Habs. rewrite (removeFirst_absent _ _ Habs). reflexivity.
Qed.

(** Membership in a list written with [::] and [++]. *)
Ltac find_in :=
  cbv beta iota;
  lazymatch goal with
  | |- In _ (_ :: _) => first [left; reflexivity | right; find_in]
  | |- In _ (_ ++ _) => apply in_or_app; first [left; find_in | right; find_in]
  | |- In _ (sdpPreamble _) => unfold sdpPreamble; find_in
  end.

Lemma mediaSections_app (l1 l2 : list string) :
  mediaSections (l1 ++ l2) = (mediaSections l1 + mediaSections l2)%nat.
Proof. unfold mediaSections. rewrite List.filter_app, length_app. reflexivity. Qed.

Lemma fmtpOfCodec_no_section (pt : Z) (c : RtpCodec) : mediaSections (Sdp.fmtpOfCodec pt c) = 0%nat.
Proof. unfold Sdp.fmtpOfCodec. destruct (parameters c); reflexivity. Qed.

(** X6: [createSdpText] never throws: its guards make the throw of
    [getCodecInfoFromRtpParameters] unreachable. The text starts with the
    five session lines and holds one media section for each of [videoCodec]
    and [audioCodec] that has a non-empty codec array, the video one first,
    so none at all when neither has. The audio port is
    [remoteAudioRtpPort], or [remoteRtpPort + 2] when that is unset or 0. A
    codec whose [parameters] is an empty object gets an [a=fmtp] line with
    nothing after the payload type. *)
Theorem createSdpText_never_throws (rtp : Sdp.FfmpegRtpParameters) :
  exists lines,
    Sdp.createSdpText rtp = Returned (sdpText lines)
    /\ firstn 5 lines = sdpPreamble "FFmpeg"
    /\ mediaSections lines
       = (sectionsOf (Sdp.videoCodec rtp) + sectionsOf (Sdp.audioCodec rtp))%nat
    /\ (forall c, Sdp.firstCodec (Sdp.videoCodec rtp) = Some c ->
        nth_error lines 5
        = Some ("m=video " +:+ JS.showZ (Sdp.remoteRtpPort rtp) +:+ " RTP/AVP "
                  +:+ JS.showZ (payloadType c))
        /\ (parameters c = Some [] -> In ("a=fmtp:" +:+ JS.showZ (payloadType c) +:+ " ") lines))
    /\ (forall c, Sdp.firstCodec (Sdp.audioCodec rtp) = Some c ->
        In ("m=audio "
              +:+ JS.showZ (JS.numOr (Sdp.remoteAudioRtpPort rtp) (Sdp.remoteRtpPort rtp + 2))
              +:+ " RTP/AVP " +:+ JS.showZ (payloadType c)) lines
        /\ (parameters c = Some [] -> In ("a=fmtp:" +:+ JS.showZ (payloadType c) +:+ " ") lines)).
Proof.
  unfold Sdp.createSdpText, Sdp.sdpLines, Sdp.videoSection, Sdp.audioSection, sectionsOf.
  destruct rtp as [v a port aport]. cbn [Sdp.videoCodec Sdp.audioCodec Sdp.remoteRtpPort
                                          Sdp.remoteAudioRtpPort].
  destruct v as [[[[|vc vrest]|]]|], a as [[[[|ac arest]|]]|];
    cbn [Sdp.firstCodec Utils.getCodecInfoFromRtpParameters ci_payloadType ci_codecName
         ci_clockRate ci_channels];
    eexists; (split; [reflexivity|]); (split; [reflexivity|]);
    (split; [rewrite ?mediaSections_app, ?fmtpOfCodec_no_section; reflexivity|]);
    (split; intros c Hc; [|]); try discriminate Hc; injection Hc as <-.
  all: split; [|intros Hp; unfold Sdp.fmtpOfCodec; rewrite Hp]; try reflexivity; find_in.
Qed.

(** ** The grid, for any number of inputs *)

(** X7: whatever the number of video inputs and the target frame, the grid
    of [_computeLayout] never exceeds the frame and misses at most one pixel
    of it in each direction (none when the sizes are even); it has at most
    four cells, and the layout string of [_buildFilterComplex] lists
    min(V, 4) corners: one per input up to four inputs, and four corners
    only beyond. *)
Theorem grid_fits_frame_and_has_four_cells (V : nat) (W H : Z) :
  let l := Mixed._computeLayout V W H in
  0 <= W - Z.of_nat (Mixed.cols l) * Mixed.cellW l <= 1
  /\ 0 <= H - Z.of_nat (Mixed.rows l) * Mixed.cellH l <= 1
  /\ (W mod 2 = 0 -> Z.of_nat (Mixed.cols l) * Mixed.cellW l = W)
  /\ (H mod 2 = 0 -> Z.of_nat (Mixed.rows l) * Mixed.cellH l = H)
  /\ (Mixed.rows l * Mixed.cols l <= 4)%nat
  /\ length (Mixed.layoutParts l V) = Nat.min V 4.
Proof.
  pose proof (Z.div_mod W 2 ltac:(lia)) as HW.
  pose proof (Z.mod_pos_bound W 2 ltac:(lia)) as HW'.
  pose proof (Z.div_mod H 2 ltac:(lia)) as HH.
  pose proof (Z.mod_pos_bound H 2 ltac:(lia)) as HH'.
  destruct V as [|[|[|[|V]]]];
    cbn [Mixed._computeLayout Nat.leb Nat.eqb Mixed.rows Mixed.cols Mixed.cellW Mixed.cellH];
    (repeat split; try lia); try reflexivity.
  rewrite Nat.min_r by lia. reflexivity.
Qed.


(** ** The allocator of the single-file recorder *)

Section BasePortSearch.
Variable env : Env.

Lemma pairProbes_S (n k : nat) :
  pairProbes env n (Datatypes.S k)
  = BindProbe (baseCandidate env n) :: BindProbe (baseCandidate env n + 2)
      :: pairProbes env (Datatypes.S (Datatypes.S n)) k.
Proof.
  unfold pairProbes. cbn [seq flat_map app]. rewrite Nat.add_0_r. do 2 f_equal.
  rewrite <- seq_shift, flat_map_concat_map, map_map, <- flat_map_concat_map.
  apply flat_map_ext. intros a.
  replace (n + 2 * Datatypes.S a)%nat with (Datatypes.S (Datatypes.S n) + 2 * a)%nat by lia.
  reflexivity.
Qed.

Lemma length_pairProbes (n k : nat) : length (pairProbes env n k) = (2 * k)%nat.
Proof.
  revert n. induction k as [|k IH]; intros n; [reflexivity|].
  rewrite pairProbes_S. cbn [length]. rewrite IH. lia.
Qed.

(** The search stops at the first attempt that finds both of its ports
    free, or exhausts its attempts because none did. Both ports are probed
    in every attempt, the second one also when the first is taken. *)
Lemma freeBasePortLoop_run (attempts : nat) (s : RecordingManager.Registry) (n : nat) :
  (exists a, (a < attempts)%nat
     /\ pairFree env (n + 2 * a) = true
     /\ (forall b, (b < a)%nat -> pairFree env (n + 2 * b) = false)
     /\ RecordingManager.freeBasePortLoop env attempts s n
        = (Returned (baseCandidate env (n + 2 * a)), s, pairProbes env n (Datatypes.S a)))
  \/ ((forall b, (b < attempts)%nat -> pairFree env (n + 2 * b) = false)
      /\ RecordingManager.freeBasePortLoop env attempts s n
         = (Thrown "Unable to allocate free UDP ports for recording", s,
            pairProbes env n attempts)).
Proof.
  revert n. induction attempts as [|attempts IH]; intros n.
  - right. split; [intros b Hb; lia|reflexivity].
  - cbn [RecordingManager.freeBasePortLoop].
    rewrite (bind_silent _ _ s n (env_random env n)) by reflexivity.
    rewrite (bind_step _ _ s n (env_portFree env n (10000 + env_random env n))
               (BindProbe (10000 + env_random env n))) by reflexivity.
    rewrite (bind_step _ _ s (Datatypes.S n)
               (env_portFree env (Datatypes.S n) (10000 + env_random env n + 2))
               (BindProbe (10000 + env_random env n + 2))) by reflexivity.
    cbn [outcome stateOf calls fst snd].
    fold (baseCandidate env n).
    assert (pairFree env n
            = env_portFree env n (baseCandidate env n)
              && env_portFree env (Datatypes.S n) (baseCandidate env n + 2)) as Hpair
      by reflexivity.
    rewrite <- Hpair.
    destruct (pairFree env n) eqn:Hfree.
    + left. exists 0%nat. rewrite Nat.mul_0_r, Nat.add_0_r, (pairProbes_S n).
      split; [lia|]. split; [exact Hfree|]. split; [intros b Hb; lia|reflexivity].
    + destruct (IH (Datatypes.S (Datatypes.S n)))
        as [(a & Ha & Hfa & Hbusy & Hrun)|(Hbusy & Hrun)].
      * left. exists (Datatypes.S a).
        replace (n + 2 * Datatypes.S a)%nat with (Datatypes.S (Datatypes.S n) + 2 * a)%nat by lia.
        split; [lia|]. split; [exact Hfa|]. split.
        -- intros b Hb. destruct b as [|b].
           ++ rewrite Nat.mul_0_r, Nat.add_0_r. exact Hfree.
           ++ replace (n + 2 * Datatypes.S b)%nat
                with (Datatypes.S (Datatypes.S n) + 2 * b)%nat by lia.
              apply Hbusy. lia.
        -- rewrite Hrun, (pairProbes_S n). reflexivity.
      * right. split.
        -- intros b Hb. destruct b as [|b].
           ++ rewrite Nat.mul_0_r, Nat.add_0_r. exact Hfree.
           ++ replace (n + 2 * Datatypes.S b)%nat
                with (Datatypes.S (Datatypes.S n) + 2 * b)%nat by lia.
              apply Hbusy. lia.
        -- rewrite Hrun, (pairProbes_S n). reflexivity.
Qed.

(** X8: [_getFreeBasePort] of the single-file recorder returns a base port P
    drawn from [10000, 50000) such that P and P + 2 were both free when they
    were probed, one after the other; it makes at most 50 attempts of two
    probes each, and throws 'Unable to allocate free UDP ports for
    recording' if and only if no attempt found both ports free. The RTCP
    ports P + 1 and P + 3 are not probed, and the registry is left as it
    was. *)
Theorem getFreeBasePort_contract (s : RecordingManager.Registry) (n : nat) :
  let run := RecordingManager._getFreeBasePort env s n in
  (forall P, outcome run = Returned P ->
     exists a, (a < 50)%nat
       /\ P = 10000 + env_random env (n + 2 * a)
       /\ env_portFree env (n + 2 * a) P = true
       /\ env_portFree env (Datatypes.S (n + 2 * a)) (P + 2) = true
       /\ calls run = pairProbes env n (Datatypes.S a)
       /\ (0 <= env_random env (n + 2 * a) < 40000 -> 10000 <= P < 50000))
  /\ (outcome run = Thrown "Unable to allocate free UDP ports for recording"
      <-> forall b, (b < 50)%nat -> pairFree env (n + 2 * b) = false)
  /\ (exists k, (k <= 50)%nat /\ calls run = pairProbes env n k)
  /\ (length (calls run) <= 100)%nat
  /\ stateOf run = s.
Proof.
  cbn zeta. unfold RecordingManager._getFreeBasePort.
  destruct (freeBasePortLoop_run 50 s n) as [(a & Ha & Hfa & Hbusy & Hrun)|(Hbusy & Hrun)];
    rewrite Hrun; unfold outcome, stateOf, calls; cbn [fst snd].
  - split; [|split; [|split; [|split]]].
    + intros P HP. assert (P = baseCandidate env (n + 2 * a)) as -> by congruence.
      exists a. unfold pairFree in Hfa.
      apply andb_true_iff in Hfa as [H1 H2].
      split; [lia|]. split; [reflexivity|]. split; [exact H1|]. split; [exact H2|].
      split; [reflexivity|]. unfold baseCandidate.
      generalize (env_random env (n + 2 * a)). intros r Hr. lia.
    + split; [discriminate|]. intros Hall. rewrite (Hall a Ha) in Hfa. discriminate.
    + exists (Datatypes.S a). split; [lia|reflexivity].
    + rewrite length_pairProbes. lia.
    + reflexivity.
  - split; [|split; [|split; [|split]]].
    + discriminate.
    + split; [intros _; exact Hbusy|reflexivity].
    + exists 50%nat. split; [lia|reflexivity].
    + rewrite length_pairProbes. lia.
    + reflexivity.
Qed.

End BasePortSearch.


(** ** Symbolic runs *)

Section WeakestPreconditions.
Context {S : Type}.

Lemma wp_ret {A} (a : A) (s : S) (n : nat) Q : Q (Returned a) s [] -> wp (ret a) s n Q.
Proof. exact (fun H => H). Qed.

Lemma wp_throw {A} (e : string) (s : S) (n : nat) (Q : Outcome A -> S -> list Call -> Prop) :
  Q (Thrown e) s [] -> wp (throw e) s n Q.
Proof. exact (fun H => H). Qed.

Lemma wp_bind {A B} (m : M S A) (k : A -> M S B) (s : S) (n : nat) Q :
  wp m s n
    (fun o s1 tr1 =>
       match o with
       | Returned a => wp (k a) s1 (n + length tr1) (fun o2 s2 tr2 => Q o2 s2 (tr1 ++ tr2))
       | Thrown e => Q (Thrown e) s1 tr1
       end) ->
  wp (bind m k) s n Q.
Proof.
  unfold wp. rewrite run_bind. destruct (outcome (m s n)); exact (fun H => H).
Qed.

Lemma wp_try (m : M S unit) (s : S) (n : nat) Q :
  wp m s n (fun _ s1 tr => Q (Returned tt) s1 tr) -> wp (try_ m) s n Q.
Proof. unfold wp. rewrite outcome_try, stateOf_try, calls_try. exact (fun H => H). Qed.

Lemma wp_rethrow {A} (fallback : string) (m : M S A) (s : S) (n : nat) Q :
  wp m s n
    (fun o s1 tr =>
       match o with
       | Returned a => Q (Returned a) s1 tr
       | Thrown e => Q (Thrown (if String.eqb e "" then fallback else e)) s1 tr
       end) ->
  wp (rethrow fallback m) s n Q.
Proof.
  unfold wp, rethrow, outcome, stateOf, calls.
  destruct (m s n) as [[[a|e] s1] tr]; exact (fun H => H).
Qed.

Lemma wp_perform {A} (env : Env) (c : Call) (answer : nat -> A) (s : S) (n : nat) Q :
  match env_throws env n c with
  | Some e => Q (Thrown e) s [c]
  | None => Q (Returned (answer n)) s [c]
  end ->
  wp (perform env c answer) s n Q.
Proof. unfold wp, perform. destruct (env_throws env n c); exact (fun H => H). Qed.

Lemma wp_quiet {A} (c : Call) (answer : nat -> A) (s : S) (n : nat) Q :
  Q (Returned (answer n)) s [c] -> wp (quiet c answer) s n Q.
Proof. exact (fun H => H). Qed.

(** A computation that answers without a call and without touching the
    registry. *)
Lemma wp_silent {A} (m : M S A) (a : A) (s : S) (n : nat) Q :
  m s n = (Returned a, s, []) -> Q (Returned a) s [] -> wp m s n Q.
Proof. unfold wp. intros ->. exact (fun H => H). Qed.

Lemma wp_run {A} (m : M S A) (s s1 : S) (n : nat) (o : Outcome A) (tr : list Call) Q :
  m s n = (o, s1, tr) -> Q o s1 tr -> wp m s n Q.
Proof. unfold wp. intros ->. exact (fun H => H). Qed.

Lemma wp_consequence {A} (m : M S A) (s : S) (n : nat) (Q Q' : Outcome A -> S -> list Call -> Prop) :
  wp m s n Q -> (forall o s1 tr, Q o s1 tr -> Q' o s1 tr) -> wp m s n Q'.
Proof. unfold wp. intros H HQ. apply HQ, H. Qed.

(** The rule of [for (const x of l)]: [Inv done acc s tr] holds when the
    elements [done] have been processed, with the accumulator, the registry
    and the calls made so far. *)
Lemma wp_forOf {X Acc} (l : list X) (body : Acc -> X -> M S Acc) (acc0 : Acc) (s0 : S) (n0 : nat)
    (Inv : list X -> Acc -> S -> list Call -> Prop) Q :
  Inv [] acc0 s0 [] ->
  (forall done x rest acc s tr,
     l = done ++ x :: rest ->
     Inv done acc s tr ->
     wp (body acc x) s (n0 + length tr)
       (fun o s1 tr1 =>
          match o with
          | Returned acc1 => Inv (done ++ [x]) acc1 s1 (tr ++ tr1)
          | Thrown e => Q (Thrown e) s1 (tr ++ tr1)
          end)) ->
  (forall acc s tr, Inv l acc s tr -> Q (Returned acc) s tr) ->
  wp (forOf l body acc0) s0 n0 Q.
Proof.
  intros H0 Hbody Hend.
  assert (forall rest done acc s tr,
            l = done ++ rest -> Inv done acc s tr ->
            wp (forOf rest body acc) s (n0 + length tr)
              (fun o s1 tr1 => Q o s1 (tr ++ tr1))) as Hloop.
  { induction rest as [|x rest IH]; intros done acc s tr Hl HI.
    - rewrite app_nil_r in Hl. subst done. apply wp_ret. rewrite app_nil_r. apply Hend, HI.
    - cbn [forOf]. apply wp_bind.
      eapply wp_consequence; [exact (Hbody done x rest acc s tr Hl HI)|].
      intros [acc1|e] s1 tr1 H1; cbv beta iota in *.
      + specialize (IH (done ++ [x]) acc1 s1 (tr ++ tr1)).
        rewrite <- app_assoc in IH. specialize (IH Hl H1).
        rewrite length_app, Nat.add_assoc in IH.
        eapply wp_consequence; [exact IH|].
        intros o s2 tr2. rewrite app_assoc. exact (fun H => H).
      + exact H1. }
  specialize (Hloop l [] acc0 s0 [] eq_refl H0).
  rewrite Nat.add_0_r in Hloop. exact Hloop.
Qed.

Lemma wp_forEach {X} (l : list X) (body : X -> M S unit) (s0 : S) (n0 : nat)
    (Inv : list X -> S -> list Call -> Prop) Q :
  Inv [] s0 [] ->
  (forall done x rest s tr,
     l = done ++ x :: rest ->
     Inv done s tr ->
     wp (body x) s (n0 + length tr)
       (fun o s1 tr1 =>
          match o with
          | Returned _ => Inv (done ++ [x]) s1 (tr ++ tr1)
          | Thrown e => Q (Thrown e) s1 (tr ++ tr1)
          end)) ->
  (forall s tr, Inv l s tr -> Q (Returned tt) s tr) ->
  wp (forEach l body) s0 n0 Q.
Proof.
  intros H0 Hbody Hend.
  assert (forall rest done s tr,
            l = done ++ rest -> Inv done s tr ->
            wp (forEach rest body) s (n0 + length tr)
              (fun o s1 tr1 => Q o s1 (tr ++ tr1))) as Hloop.
  { induction rest as [|x rest IH]; intros done s tr Hl HI.
    - rewrite app_nil_r in Hl. subst done. apply wp_ret. rewrite app_nil_r. apply Hend, HI.
    - cbn [forEach]. apply wp_bind.
      eapply wp_consequence; [exact (Hbody done x rest s tr Hl HI)|].
      intros [[]|e] s1 tr1 H1; cbv beta iota in *.
      + specialize (IH (done ++ [x]) s1 (tr ++ tr1)).
        rewrite <- app_assoc in IH. specialize (IH Hl H1).
        rewrite length_app, Nat.add_assoc in IH.
        eapply wp_consequence; [exact IH|].
        intros o s2 tr2. rewrite app_assoc. exact (fun H => H).
      + exact H1. }
  specialize (Hloop l [] s0 [] eq_refl H0).
  rewrite Nat.add_0_r in Hloop. exact Hloop.
Qed.

End WeakestPreconditions.

(** One step of a symbolic run. *)
Ltac wp_prim :=
  lazymatch goal with
  | |- wp (ret _) _ _ _ => apply wp_ret
  | |- wp (throw _) _ _ _ => apply wp_throw
  | |- wp (bind _ _) _ _ _ => apply wp_bind
  | |- wp (try_ _) _ _ _ => apply wp_try
  | |- wp (rethrow _ _) _ _ _ => apply wp_rethrow
  | |- wp (perform _ _ _) _ _ _ => apply wp_perform
  | |- wp (quiet _ _) _ _ _ => apply wp_quiet
  | |- wp (dateNow _) _ _ _ => eapply wp_silent; [reflexivity|]
  | |- wp (existsSync _ _) _ _ _ => eapply wp_silent; [reflexivity|]
  | |- wp (stdinWritable _ _) _ _ _ => eapply wp_silent; [reflexivity|]
  | |- wp (randomBelow40000 _) _ _ _ => eapply wp_silent; [reflexivity|]
  | |- wp time _ _ _ => eapply wp_silent; [reflexivity|]
  | |- wp getState _ _ _ => eapply wp_silent; [reflexivity|]
  | |- wp _ _ _ _ => progress unfold_calls
  end; cbv beta iota.

(** A symbolic run up to its next call: the two outcomes of the call. *)
Ltac wp_go :=
  repeat wp_prim;
  try lazymatch goal with
      | |- match env_throws ?e ?n ?c with _ => _ end => destruct (env_throws e n c) eqn:?
      end.

Lemma Forall_isBinding_probes (env : Env) (base : Z) (n k : nat) :
  Forall isBinding (probes env base n k).
Proof. unfold probes. apply Forall_map, Forall_forall. intros j _. exact I. Qed.

Ltac binding_calls :=
  repeat lazymatch goal with
         | |- Forall _ [] => apply Forall_nil
         | |- Forall _ (probes _ _ _ _) => apply Forall_isBinding_probes
         | |- Forall _ (_ :: _) => apply List.Forall_cons
         | |- Forall _ (_ ++ _) => apply Forall_app; split
         | |- isBinding _ => exact I
         | |- True => exact I
         end.

Section MixedIteration.
Variable env : Env.

(** What one iteration of the loops of the mixed start does. *)
Lemma bindProducer_cases (kind : Kind) (sdpDir : string) (acc : Mixed.Bound)
    (producer : Producer) (s : gmap string Mixed.State) (n : nat) :
  wp (Mixed.bindProducer env kind sdpDir acc producer) s n
    (fun o s1 tr =>
       s1 = s
       /\ match o with
          | Thrown e => Forall isBinding tr /\ env_canConsume env (prod_id producer) = true
          | Returned acc1 =>
              (acc1 = acc /\ tr = [] /\ env_canConsume env (prod_id producer) = false)
              \/ (acc1 = acc /\ tr = skippingCalls producer n
                  /\ env_canConsume env (prod_id producer) = true
                  /\ Mixed._codecFromRtpParameters kind (env_consumerRtp env producer) = None)
              \/ (exists ci i,
                    let port := candidate env 15000 (Datatypes.S (Datatypes.S n) + i) in
                    env_canConsume env (prod_id producer) = true
                    /\ Mixed._codecFromRtpParameters kind (env_consumerRtp env producer) = Some ci
                    /\ (i < 200)%nat
                    /\ env_portFree env (Datatypes.S (Datatypes.S n) + i) port = true
                    /\ acc1 = boundWith env kind sdpDir acc producer n
                    /\ tr = bindingCalls env kind sdpDir producer ci n (Datatypes.S i) port)
          end).
Proof.
  unfold Mixed.bindProducer.
  destruct (env_canConsume env (prod_id producer)) eqn:Hcan; cbn [negb].
  2: { apply wp_ret. split; [reflexivity|]. left. auto. }
  wp_go.
  { split; [reflexivity|]. split; [binding_calls|reflexivity]. }
  wp_go.
  { split; [reflexivity|]. split; [binding_calls|reflexivity]. }
  cbn [length Nat.add cons_rtpParameters]. 
  replace (n + 1 + 1)%nat with (Datatypes.S (Datatypes.S n)) by lia.
  destruct (Mixed._codecFromRtpParameters kind (env_consumerRtp env producer)) as [ci|] eqn:Hci.
  - wp_go. unfold Mixed._getFreePort.
    destruct (freePortLoop_run env 15000 200 s (Datatypes.S (Datatypes.S n)))
      as [(i & Hi & Hfree & _ & Hrun)|(_ & Hrun)];
      (eapply wp_run; [exact Hrun|]); cbv beta iota.
    + wp_go.
      { split; [reflexivity|]. split; [binding_calls|reflexivity]. }
      wp_go.
      { split; [reflexivity|]. split; [binding_calls|reflexivity]. }
      split; [reflexivity|]. right. right. exists ci, i. cbn zeta.
      repeat split; try assumption.
      unfold boundWith, consumerAt, mixedSdpPath. repeat f_equal. cbn [length]. lia.
    + split; [reflexivity|]. split; [binding_calls|reflexivity].
  - wp_go; (split; [reflexivity|]); right; left; auto.
Qed.

End MixedIteration.

(** ** Resources of a trace *)

Lemma handlesOf_app (creates : Call -> bool) (n : nat) (tr1 tr2 : list Call) :
  handlesOf creates n (tr1 ++ tr2)
  = handlesOf creates n tr1 ++ handlesOf creates (n + length tr1) tr2.
Proof.
  revert n. induction tr1 as [|c tr1 IH]; intros n; cbn [app handlesOf length].
  - rewrite Nat.add_0_r. reflexivity.
  - rewrite IH, <- app_assoc. do 2 f_equal. f_equal. lia.
Qed.

Lemma handlesOf_bounds (creates : Call -> bool) (n : nat) (tr : list Call) :
  Forall (fun t => n <= t < n + length tr)%nat (handlesOf creates n tr).
Proof.
  revert n. induction tr as [|c tr IH]; intros n; cbn [handlesOf length]; [constructor|].
  apply Forall_app. split.
  - destruct (creates c); repeat constructor; lia.
  - eapply Forall_impl; [apply IH|]. cbn. intros t Ht. lia.
Qed.

Lemma handlesOf_none (creates : Call -> bool) (n : nat) (tr : list Call) :
  Forall (fun c => creates c = false) tr -> handlesOf creates n tr = [].
Proof.
  revert n. induction tr as [|c tr IH]; intros n H; [reflexivity|].
  inversion H as [|? ? Hc Htr]; subst. cbn [handlesOf]. rewrite Hc, (IH _ Htr). reflexivity.
Qed.

Lemma closedTransports_app (tr1 tr2 : list Call) :
  closedTransports (tr1 ++ tr2) = closedTransports tr1 ++ closedTransports tr2.
Proof. apply flat_map_app. Qed.

Lemma resumedConsumers_app (tr1 tr2 : list Call) :
  resumedConsumers (tr1 ++ tr2) = resumedConsumers tr1 ++ resumedConsumers tr2.
Proof. apply flat_map_app. Qed.

Lemma writtenPaths_app (tr1 tr2 : list Call) :
  writtenPaths (tr1 ++ tr2) = writtenPaths tr1 ++ writtenPaths tr2.
Proof. apply flat_map_app. Qed.

Lemma flat_map_none {A B} (f : A -> list B) (l : list A) :
  Forall (fun x => f x = []) l -> flat_map f l = [].
Proof.
  induction l as [|x l IH]; intros H; [reflexivity|].
  inversion H as [|? ? Hx Hl]; subst. cbn [flat_map]. rewrite Hx, (IH Hl). reflexivity.
Qed.

Lemma existsb_eqb_false (t : nat) (l : list nat) :
  Forall (fun u => u <> t) l -> existsb (Nat.eqb t) l = false.
Proof.
  induction l as [|u l IH]; intros H; [reflexivity|].
  inversion H as [|? ? Hu Hl]; subst. cbn [existsb].
  rewrite (IH Hl), orb_false_r. apply Nat.eqb_neq. congruence.
Qed.

(** Appending a trace that only closes transports of its own keeps the
    live transports of the first trace and adds its own. *)
Lemma liveTransports_app (n : nat) (tr1 tr2 : list Call) :
  Forall (fun t => n + length tr1 <= t)%nat (closedTransports tr2) ->
  Forall (fun t => t < n + length tr1)%nat (closedTransports tr1) ->
  liveTransports n (tr1 ++ tr2)
  = liveTransports n tr1 ++ liveTransports (n + length tr1) tr2.
Proof.
  intros H2 H1. unfold liveTransports.
  rewrite handlesOf_app, closedTransports_app, List.filter_app. f_equal.
  - apply filter_ext_in. intros t Ht. cbv beta. rewrite existsb_app.
    rewrite (existsb_eqb_false t (closedTransports tr2)); [rewrite orb_false_r; reflexivity|].
    pose proof (handlesOf_bounds isCreateTransport n tr1) as Hb.
    rewrite List.Forall_forall in Hb. specialize (Hb t Ht).
    eapply Forall_impl; [exact H2|]. cbn. intros u Hu. lia.
  - apply filter_ext_in. intros t Ht. cbv beta. rewrite existsb_app.
    rewrite (existsb_eqb_false t (closedTransports tr1)); [reflexivity|].
    pose proof (handlesOf_bounds isCreateTransport (n + length tr1) tr2) as Hb.
    rewrite List.Forall_forall in Hb. specialize (Hb t Ht).
    eapply Forall_impl; [exact H1|]. cbn. intros u Hu. lia.
Qed.

Lemma flat_map_probes {B} (f : Call -> list B) (env : Env) (base : Z) (n k : nat) :
  (forall port, f (BindProbe port) = []) -> flat_map f (probes env base n k) = [].
Proof.
  intros Hf. apply flat_map_none. unfold probes. apply Forall_map, Forall_forall.
  intros j _. apply Hf.
Qed.

Lemma handlesOf_probes (creates : Call -> bool) (env : Env) (base : Z) (m n k : nat) :
  (forall port, creates (BindProbe port) = false) ->
  handlesOf creates m (probes env base n k) = [].
Proof.
  intros Hf. apply handlesOf_none. unfold probes. apply Forall_map, Forall_forall.
  intros j _. apply Hf.
Qed.

Lemma Forall_isBinding_skip (tr : list Call) : Forall isBinding tr -> Forall isBindingOrSkip tr.
Proof.
  intros H. eapply Forall_impl; [exact H|]. intros [] Hc; try exact Hc; exact I.
Qed.

Section MixedLoops.
Variable env : Env.

Lemma skipping_resources (p : Producer) (n : nat) :
  writtenPaths (skippingCalls p n) = []
  /\ liveTransports n (skippingCalls p n) = []
  /\ closedTransports (skippingCalls p n) = [n].
Proof.
  unfold liveTransports. cbn. rewrite Nat.eqb_refl. auto.
Qed.

Lemma binding_resources (kind : Kind) (sdpDir : string) (p : Producer) (ci : CodecInfo)
    (n k : nat) (port : Z) :
  writtenPaths (bindingCalls env kind sdpDir p ci n k port) = [mixedSdpPath sdpDir kind p]
  /\ liveTransports n (bindingCalls env kind sdpDir p ci n k port) = [n]
  /\ closedTransports (bindingCalls env kind sdpDir p ci n k port) = []
  /\ Forall isBinding (bindingCalls env kind sdpDir p ci n k port).
Proof.
  assert (closedTransports (bindingCalls env kind sdpDir p ci n k port) = []) as Hclosed.
  { unfold bindingCalls. rewrite !closedTransports_app. unfold closedTransports at 2.
    rewrite flat_map_probes by reflexivity. reflexivity. }
  split; [|split; [|split]].
  - unfold bindingCalls. rewrite !writtenPaths_app. unfold writtenPaths at 2.
    rewrite flat_map_probes by reflexivity. reflexivity.
  - unfold liveTransports. rewrite Hclosed. unfold bindingCalls.
    rewrite !handlesOf_app, handlesOf_probes by reflexivity. reflexivity.
  - exact Hclosed.
  - unfold bindingCalls. binding_calls.
Qed.

(** What a loop of the mixed start over [producers] adds to the arrays
    [inputs], [transports] and [consumers]. *)
Lemma bindAll_cases (kind : Kind) (sdpDir : string) (producers : list Producer)
    (b0 : Mixed.Bound) (s : gmap string Mixed.State) (n0 : nat) :
  wp (forOf producers (Mixed.bindProducer env kind sdpDir) b0) s n0
    (fun o s1 tr =>
       s1 = s
       /\ Forall isBindingOrSkip tr
       /\ match o with
          | Thrown _ => True
          | Returned b =>
              exists ins ts cs,
                b = {| Mixed.b_inputs := Mixed.b_inputs b0 ++ ins;
                       Mixed.b_transports := Mixed.b_transports b0 ++ ts;
                       Mixed.b_consumers := Mixed.b_consumers b0 ++ cs |}
                /\ length ins = length ts
                /\ length cs = length ts
                /\ (length ts <= length producers)%nat
                /\ Forall (fun i => Mixed.in_kind i = kind) ins
                /\ map Mixed.in_sdpPath ins = writtenPaths tr
                /\ ts = liveTransports n0 tr
                /\ map cons_id cs = map Datatypes.S ts
                /\ Forall (fun c => exists p, In p producers /\ c = consumerAt env (cons_id c) p) cs
                /\ Forall (fun t => n0 <= t < n0 + length tr)%nat (closedTransports tr)
          end).
Proof.
  apply (wp_forOf producers _ b0 s n0
           (fun done b s1 tr =>
              s1 = s
              /\ Forall isBindingOrSkip tr
              /\ exists ins ts cs,
                   b = {| Mixed.b_inputs := Mixed.b_inputs b0 ++ ins;
                          Mixed.b_transports := Mixed.b_transports b0 ++ ts;
                          Mixed.b_consumers := Mixed.b_consumers b0 ++ cs |}
                   /\ length ins = length ts
                   /\ length cs = length ts
                   /\ (length ts <= length done)%nat
                   /\ Forall (fun i => Mixed.in_kind i = kind) ins
                   /\ map Mixed.in_sdpPath ins = writtenPaths tr
                   /\ ts = liveTransports n0 tr
                   /\ map cons_id cs = map Datatypes.S ts
                   /\ Forall (fun c => exists p, In p done /\ c = consumerAt env (cons_id c) p) cs
                   /\ Forall (fun t => n0 <= t < n0 + length tr)%nat (closedTransports tr))).
  - split; [reflexivity|]. split; [constructor|]. exists [], [], [].
    rewrite !app_nil_r. destruct b0. repeat split; constructor.
  - intros done x rest b s1 tr Hl (-> & Htr & ins & ts & cs & Hb & Hlen & Hlenc & Hle & Hkind
                                    & Hpaths & Hlive & Hids & Hcs & Hclosed).
    eapply wp_consequence; [apply bindProducer_cases|].
    intros [b1|e] s2 tr1 [-> H]; cbv beta iota.
    2: { destruct H as [H _]. split; [reflexivity|]. split; [|exact I].
         apply Forall_app. split; [exact Htr|apply Forall_isBinding_skip, H]. }
    assert (Forall (fun c => exists p, In p (done ++ [x]) /\ c = consumerAt env (cons_id c) p) cs)
      as Hcs'.
    { eapply Forall_impl; [exact Hcs|]. cbn. intros c (p & Hp & Hc).
      exists p. split; [apply in_or_app; left; exact Hp|exact Hc]. }
    destruct H as [(-> & -> & _)|[(-> & -> & _ & _)|(ci & i & H)]].
    + split; [reflexivity|]. rewrite app_nil_r. split; [exact Htr|].
      exists ins, ts, cs. rewrite length_app. cbn [length]. repeat split; auto. lia.
    + destruct (skipping_resources x (n0 + length tr)) as (Hw & Hlv & Hcl).
      split; [reflexivity|]. split.
      { apply Forall_app. split; [exact Htr|]. repeat constructor. }
      exists ins, ts, cs.
      rewrite writtenPaths_app, Hw, app_nil_r, closedTransports_app, Hcl.
      rewrite liveTransports_app, Hlv, app_nil_r.
      * rewrite !length_app. cbn [length skippingCalls]. repeat split; auto; try lia.
        apply Forall_app. split.
        -- eapply Forall_impl; [exact Hclosed|]. cbn. intros t Ht. lia.
        -- repeat constructor; lia.
      * rewrite Hcl. repeat constructor.
      * eapply Forall_impl; [exact Hclosed|]. cbn. intros t Ht. lia.
    + cbn zeta in H. destruct H as (_ & _ & _ & _ & -> & ->).
      destruct (binding_resources kind sdpDir x ci (n0 + length tr) (Datatypes.S i)
                  (candidate env 15000 (Datatypes.S (Datatypes.S (n0 + length tr)) + i)))
        as (Hw & Hlv & Hcl & Hbind).
      split; [reflexivity|]. split.
      { apply Forall_app. split; [exact Htr|apply Forall_isBinding_skip, Hbind]. }
      exists (ins ++ [{| Mixed.in_kind := kind;
                         Mixed.in_sdpPath := mixedSdpPath sdpDir kind x |}]),
             (ts ++ [(n0 + length tr)%nat]),
             (cs ++ [consumerAt env (Datatypes.S (n0 + length tr)) x]).
      rewrite writtenPaths_app, Hw, closedTransports_app, Hcl, app_nil_r.
      rewrite liveTransports_app, Hlv.
      * rewrite Hb. unfold boundWith.
        cbn [Mixed.b_inputs Mixed.b_transports Mixed.b_consumers].
        rewrite <- !app_assoc, !length_app, !map_app. cbn [length map].
        split; [reflexivity|]. split; [lia|]. split; [lia|]. split; [lia|].
        split; [apply Forall_app; split; [exact Hkind|repeat constructor]|].
        split; [rewrite Hpaths; reflexivity|]. split; [rewrite Hlive; reflexivity|].
        split; [rewrite Hids; reflexivity|]. split.
        -- apply Forall_app. split; [exact Hcs'|]. repeat constructor.
           exists x. split; [apply in_or_app; right; left; reflexivity|reflexivity].
        -- eapply Forall_impl; [exact Hclosed|]. cbn. intros t Ht. lia.
      * rewrite Hcl. constructor.
      * eapply Forall_impl; [exact Hclosed|]. cbn. intros t Ht. lia.
  - intros b s1 tr H. exact H.
Qed.

End MixedLoops.

Lemma wp_registryUpdate {S} (recordingId : string) (f : S -> S) (s : S) (n : nat) Q :
  Q (Returned tt) (f s) [RegistrySet recordingId] -> wp (registryUpdate recordingId f) s n Q.
Proof. exact (fun H => H). Qed.

Lemma wp_registryDelete {S} (recordingId : string) (f : S -> S) (s : S) (n : nat) Q :
  Q (Returned tt) (f s) [RegistryDelete recordingId] -> wp (registryDelete recordingId f) s n Q.
Proof. exact (fun H => H). Qed.

Section MixedAfterSpawn.
Variable env : Env.

(** The resume loop never throws and attempts the resume of every
    consumer, in order, whatever the resumes before it did. *)
Lemma resumeAll_cases (consumers : list Consumer) (s : gmap string Mixed.State) (n : nat) :
  wp (forEach consumers (Mixed.resumeConsumer env)) s n
    (fun o s1 tr =>
       o = Returned tt
       /\ s1 = s
       /\ resumedConsumers tr = map cons_id consumers
       /\ Forall isResumption tr).
Proof.
  apply (wp_forEach consumers _ s n
           (fun done s1 tr =>
              s1 = s /\ resumedConsumers tr = map cons_id done /\ Forall isResumption tr)).
  - repeat split. constructor.
  - intros done x rest s1 tr _ (-> & Hres & Htr).
    assert (forall tr1, resumedConsumers tr1 = [cons_id x] -> Forall isResumption tr1 ->
                        s = s
                        /\ resumedConsumers (tr ++ tr1) = map cons_id (done ++ [x])
                        /\ Forall isResumption (tr ++ tr1)) as Hstep.
    { intros tr1 H1 H2. split; [reflexivity|].
      rewrite resumedConsumers_app, Hres, H1, map_app. split; [reflexivity|].
      apply Forall_app. split; assumption. }
    unfold Mixed.resumeConsumer. wp_go.
    + apply Hstep; [reflexivity|repeat constructor].
    + destruct (cons_kind x); wp_go; apply Hstep; try reflexivity; repeat constructor.
  - intros s1 tr (-> & Hres & Htr). auto.
Qed.

Lemma handlesOf_snoc (creates : Call -> bool) (n : nat) (tr : list Call) (c : Call) :
  handlesOf creates n (tr ++ [c])
  = handlesOf creates n tr ++ (if creates c then [(n + length tr)%nat] else []).
Proof. rewrite handlesOf_app. cbn [handlesOf]. rewrite app_nil_r. reflexivity. Qed.

(** The keyframe pump sets one timer per video consumer and returns the
    handles of the timers it has set. *)
Lemma startKeyframePump_cases (consumers : list Consumer) (s : gmap string Mixed.State)
    (n : nat) :
  wp (Mixed.startKeyframePump env consumers) s n
    (fun o s1 tr =>
       s1 = s
       /\ (exists k, tr = firstn k (pumpCalls consumers))
       /\ match o with
          | Returned hs => hs = handlesOf isSetInterval n tr /\ tr = pumpCalls consumers
          | Thrown _ => True
          end).
Proof.
  unfold Mixed.startKeyframePump.
  apply (wp_forOf consumers _ [] s n
           (fun done hs s1 tr =>
              s1 = s /\ hs = handlesOf isSetInterval n tr /\ tr = pumpCalls done)).
  - repeat split.
  - intros done x rest hs s1 tr Hl (-> & -> & ->).
    assert (pumpCalls consumers
            = pumpCalls done
              ++ match cons_kind x with
                 | video => [SetInterval (cons_id x) 2000]
                 | audio => []
                 end ++ pumpCalls rest) as Hall.
    { rewrite Hl. unfold pumpCalls. rewrite flat_map_app. reflexivity. }
    destruct (cons_kind x) eqn:Hkind.
    + wp_go.
      * split; [reflexivity|]. split; [|exact I].
        exists (length (pumpCalls done) + 1)%nat. rewrite Hall.
        rewrite firstn_app, firstn_all2 by lia.
        replace (length (pumpCalls done) + 1 - length (pumpCalls done))%nat with 1%nat by lia.
        reflexivity.
      * wp_go. rewrite app_nil_r. split; [reflexivity|].
        rewrite handlesOf_snoc. cbn [isSetInterval]. split; [reflexivity|].
        unfold pumpCalls. rewrite flat_map_app. cbn [flat_map]. rewrite Hkind, app_nil_r.
        reflexivity.
    + wp_go. rewrite app_nil_r. split; [reflexivity|]. split; [reflexivity|].
      unfold pumpCalls. rewrite flat_map_app. cbn [flat_map]. rewrite Hkind, app_nil_r.
      reflexivity.
  - intros hs s1 tr (-> & -> & ->). split; [reflexivity|]. split; [|split; reflexivity].
    exists (length (pumpCalls consumers)). symmetry. apply firstn_all.
Qed.

End MixedAfterSpawn.

(** ** The trace of a mixed start, part by part *)

Lemma Forall_flat_map_nil {B} (P : Call -> Prop) (f : Call -> list B) (tr : list Call) :
  (forall c, P c -> f c = []) -> Forall P tr -> flat_map f tr = [].
Proof.
  intros Hf H. apply flat_map_none. eapply Forall_impl; [exact H|exact Hf].
Qed.

Lemma Forall_handlesOf_nil (P : Call -> Prop) (creates : Call -> bool) (n : nat)
    (tr : list Call) :
  (forall c, P c -> creates c = false) -> Forall P tr -> handlesOf creates n tr = [].
Proof.
  intros Hf H. apply handlesOf_none. eapply Forall_impl; [exact H|exact Hf].
Qed.

Lemma liveTransports_none (n : nat) (tr : list Call) :
  handlesOf isCreateTransport n tr = [] -> liveTransports n tr = [].
Proof. unfold liveTransports. intros ->. reflexivity. Qed.

Lemma find_app_none {A} (f : A -> bool) (l1 l2 : list A) :
  Forall (fun x => f x = false) l1 -> find f (l1 ++ l2) = find f l2.
Proof.
  induction l1 as [|x l1 IH]; intros H; [reflexivity|].
  inversion H as [|? ? Hx Hl]; subst. cbn [app find]. rewrite Hx. apply IH, Hl.
Qed.

Lemma transportFree_resources (n : nat) (tr : list Call) :
  transportFree tr -> liveTransports n tr = [] /\ closedTransports tr = [].
Proof.
  intros H. split.
  - apply liveTransports_none. eapply Forall_handlesOf_nil; [|exact H]. cbn. tauto.
  - eapply Forall_flat_map_nil; [|exact H]. intros [] [_ Hc]; try reflexivity. destruct Hc.
Qed.

Lemma transportFree_app (tr1 tr2 : list Call) :
  transportFree tr1 -> transportFree tr2 -> transportFree (tr1 ++ tr2).
Proof. intros H1 H2. apply Forall_app. split; assumption. Qed.

Lemma liveTransports_app_free_l (n : nat) (tr1 tr2 : list Call) :
  transportFree tr1 ->
  liveTransports n (tr1 ++ tr2) = liveTransports (n + length tr1) tr2.
Proof.
  intros H. destruct (transportFree_resources n tr1 H) as (Hl & Hc).
  unfold liveTransports in *. rewrite handlesOf_app, closedTransports_app, Hc, List.filter_app.
  cbn [app].
  assert (handlesOf isCreateTransport n tr1 = []) as ->; [|reflexivity].
  eapply Forall_handlesOf_nil; [|exact H]. cbn. tauto.
Qed.

Lemma liveTransports_app_free_r (n : nat) (tr1 tr2 : list Call) :
  transportFree tr2 ->
  liveTransports n (tr1 ++ tr2) = liveTransports n tr1.
Proof.
  intros H. destruct (transportFree_resources (n + length tr1) tr2 H) as (Hl & Hc).
  unfold liveTransports in *. rewrite handlesOf_app, closedTransports_app, Hc, List.filter_app.
  rewrite app_nil_r.
  assert (handlesOf isCreateTransport (n + length tr1) tr2 = []) as ->.
  { eapply Forall_handlesOf_nil; [|exact H]. cbn. tauto. }
  cbn [List.filter]. apply app_nil_r.
Qed.

Ltac inert_for H :=
  first [ eapply Forall_flat_map_nil; [|exact H] | eapply Forall_handlesOf_nil; [|exact H] ];
  intros [] Hc; try reflexivity; try (destruct Hc; fail); cbn in Hc; try tauto;
  try discriminate.

Lemma transportFree_of (P : Call -> Prop) (tr : list Call) :
  (forall c, P c -> isCreateTransport c = false
                    /\ match c with CloseTransport _ => False | _ => True end) ->
  Forall P tr -> transportFree tr.
Proof. intros HP H. eapply Forall_impl; [exact H|exact HP]. Qed.

Lemma Forall_pumpCalls (consumers : list Consumer) :
  Forall (fun c => isSetInterval c = true) (pumpCalls consumers).
Proof.
  unfold pumpCalls. induction consumers as [|c cs IH]; cbn [flat_map]; [constructor|].
  apply Forall_app. split; [|exact IH]. destruct (cons_kind c); repeat constructor.
Qed.

(** The resources of the trace of a mixed start that reaches its end: the
    directories, the two loops, the spawn, the resumes, the timers and the
    set of the registry entry. *)
Lemma mixed_trace_resources (n : nat) (P tr1 tr2 tr3 tr4 : list Call) (args : list string)
    (id : string) :
  Forall isMkdir P ->
  Forall isBindingOrSkip tr1 ->
  Forall isBindingOrSkip tr2 ->
  Forall isResumption tr3 ->
  Forall (fun c => isSetInterval c = true) tr4 ->
  Forall (fun t => n + length P <= t < n + length P + length tr1)%nat (closedTransports tr1) ->
  Forall (fun t => n + length P + length tr1 <= t < n + length P + length tr1 + length tr2)%nat
    (closedTransports tr2) ->
  let tr := P ++ tr1 ++ tr2 ++ [Spawn "ffmpeg" args] ++ tr3 ++ tr4 ++ [RegistrySet id] in
  liveTransports n tr
  = liveTransports (n + length P) tr1 ++ liveTransports (n + length P + length tr1) tr2
  /\ resumedConsumers tr = resumedConsumers tr3
  /\ handlesOf (isSpawnOf "ffmpeg") n tr = [(n + length P + length tr1 + length tr2)%nat]
  /\ handlesOf isSetInterval n tr
     = handlesOf isSetInterval (n + length P + length tr1 + length tr2 + 1 + length tr3) tr4
  /\ spawnedArgs "ffmpeg" tr = Some args
  /\ writtenPaths tr = writtenPaths tr1 ++ writtenPaths tr2.
Proof.
  intros HP H1 H2 H3 H4 Hc1 Hc2 tr.
  assert (transportFree P) as HfP.
  { eapply transportFree_of; [|exact HP]. intros [] Hc; try destruct Hc; split; auto. }
  assert (transportFree ([Spawn "ffmpeg" args] ++ tr3 ++ tr4 ++ [RegistrySet id])) as Hfrest.
  { apply transportFree_app; [repeat constructor|].
    apply transportFree_app; [|apply transportFree_app; [|repeat constructor]].
    - eapply transportFree_of; [|exact H3]. intros [] Hc; try destruct Hc; split; auto.
    - eapply transportFree_of; [|exact H4]. intros [] Hc; try discriminate Hc; split; auto. }
  split; [|split; [|split; [|split; [|split]]]]; subst tr.
  - rewrite (liveTransports_app_free_l n P _ HfP).
    rewrite liveTransports_app.
    + f_equal. apply liveTransports_app_free_r, Hfrest.
    + rewrite closedTransports_app.
      rewrite (proj2 (transportFree_resources 0 _ Hfrest)), app_nil_r.
      eapply Forall_impl; [exact Hc2|]. cbn. intros t Ht. lia.
    + eapply Forall_impl; [exact Hc1|]. cbn. intros t Ht. lia.
  - rewrite !resumedConsumers_app.
    assert (resumedConsumers P = []) as -> by inert_for HP.
    assert (resumedConsumers tr1 = []) as -> by inert_for H1.
    assert (resumedConsumers tr2 = []) as -> by inert_for H2.
    assert (resumedConsumers tr4 = []) as -> by inert_for H4.
    cbn. apply app_nil_r.
  - rewrite !handlesOf_app.
    assert (forall m, handlesOf (isSpawnOf "ffmpeg") m P = []) as -> by (intros m; inert_for HP).
    assert (forall m, handlesOf (isSpawnOf "ffmpeg") m tr1 = []) as -> by (intros m; inert_for H1).
    assert (forall m, handlesOf (isSpawnOf "ffmpeg") m tr2 = []) as -> by (intros m; inert_for H2).
    assert (forall m, handlesOf (isSpawnOf "ffmpeg") m tr3 = []) as -> by (intros m; inert_for H3).
    assert (forall m, handlesOf (isSpawnOf "ffmpeg") m tr4 = []) as -> by (intros m; inert_for H4).
    cbn. reflexivity.
  - rewrite !handlesOf_app.
    assert (forall m, handlesOf isSetInterval m P = []) as -> by (intros m; inert_for HP).
    assert (forall m, handlesOf isSetInterval m tr1 = []) as -> by (intros m; inert_for H1).
    assert (forall m, handlesOf isSetInterval m tr2 = []) as -> by (intros m; inert_for H2).
    assert (forall m, handlesOf isSetInterval m tr3 = []) as -> by (intros m; inert_for H3).
    cbn [handlesOf isSetInterval app length]. rewrite app_nil_r. f_equal.
  - unfold spawnedArgs.
    rewrite (find_app_none _ P), (find_app_none _ tr1), (find_app_none _ tr2).
    + cbn. reflexivity.
    + eapply Forall_impl; [exact H2|]. intros [] Hc; try reflexivity; destruct Hc.
    + eapply Forall_impl; [exact H1|]. intros [] Hc; try reflexivity; destruct Hc.
    + eapply Forall_impl; [exact HP|]. intros [] Hc; try reflexivity; destruct Hc.
  - rewrite !writtenPaths_app.
    assert (writtenPaths P = []) as -> by inert_for HP.
    assert (writtenPaths tr3 = []) as -> by inert_for H3.
    assert (writtenPaths tr4 = []) as -> by inert_for H4.
    cbn. rewrite !app_nil_r. reflexivity.
Qed.


Section MixedStartRun.
Variable env : Env.

Lemma bindingOrSkip_paused (t : TransportId) (id : string) (paused : bool) :
  isBindingOrSkip (Consume t id paused) -> paused = true.
Proof. destruct paused; cbn; tauto. Qed.

(** The run of a mixed start. *)
Lemma startMixedRecording_run (r : Room) (width height : option Z)
    (s : gmap string Mixed.State) (n : nat) :
  wp (Mixed.startMixedRecording env (Some r) width height) s n
    (mixedStartPost env r (default 1280 width) (default 720 height) s n).
Proof.
  unfold Mixed.startMixedRecording. cbv zeta.
  destruct (negb (router r)); [exact eq_refl|].
  destruct (_ && _)%bool; [exact eq_refl|].
  wp_go. wp_go. cbn [length app]. rewrite !Nat.add_0_r.
  match goal with
  | |- wp _ _ _ (fun o s1 tr1 =>
                   match o with
                   | Returned _ => wp ?rest _ _ _
                   | Thrown _ => _
                   end) => set (k := rest)
  end.
  assert (forall pre, Forall isMkdir pre ->
            wp k s (n + length pre)
              (fun o2 s2 tr2 =>
                 mixedStartPost env r (default 1280 width) (default 720 height) s n o2 s2
                   (pre ++ tr2))) as Hrest.
  { intros pre Hpre. subst k. wp_go; [exact eq_refl|].
    apply wp_bind. eapply wp_consequence; [apply bindAll_cases|].
    intros [b1|e] s1 tr1 (-> & Htr1 & H1); [|exact eq_refl].
    destruct H1 as (vs & ts1 & cs1 & -> & Hlen1 & Hlenc1 & Hle1 & Hkind1 & Hpaths1 & Hlive1
                    & Hids1 & Hcs1 & Hclosed1).
    cbn [app]. cbv beta iota.
    apply wp_bind. eapply wp_consequence; [apply bindAll_cases|].
    intros [b2|e] s2 tr2 (-> & Htr2 & H2); [|exact eq_refl].
    destruct H2 as (as_ & ts2 & cs2 & -> & Hlen2 & Hlenc2 & Hle2 & Hkind2 & Hpaths2 & Hlive2
                    & Hids2 & Hcs2 & Hclosed2).
    cbn [app Mixed.b_inputs Mixed.b_transports Mixed.b_consumers]. cbv beta iota.
    destruct (length (vs ++ as_) =? 0)%nat eqn:Hempty; [exact eq_refl|].
    wp_go; [exact eq_refl|].
    apply wp_bind. eapply wp_consequence; [apply resumeAll_cases|].
    intros o s3 tr3 (-> & -> & Hres & Htr3). cbv beta iota.
    apply wp_bind. eapply wp_consequence; [apply startKeyframePump_cases|].
    intros [hs|e] s4 tr4 (-> & _ & H4); [|exact eq_refl].
    destruct H4 as (-> & Hpump). cbv beta iota.
    wp_go. apply wp_registryUpdate. wp_go.
    set (id := "rec-mix-" +:+ JS.showZ (env_now env n)) in *.
    set (m := Mkdir (JS.pathJoin (JS.pathJoin (recordDir env) "sdp") id)) in *.
    set (args := Mixed.ffArgs (vs ++ as_) (default 1280 width) (default 720 height)
                   (JS.pathJoin (recordDir env) ("mixed-" +:+ id +:+ ".mp4"))) in *.
    replace (n + length pre + length [m])%nat with (n + length (pre ++ [m]))%nat in *
      by (rewrite length_app; cbn [length]; lia).
    assert (Forall isMkdir (pre ++ [m])) as HP
      by (apply Forall_app; split; [exact Hpre|repeat constructor]).
    pose proof (Forall_pumpCalls (cs1 ++ cs2)) as H4. rewrite <- Hpump in H4.
    destruct (mixed_trace_resources n (pre ++ [m]) tr1 tr2 tr3 tr4 args id
                HP Htr1 Htr2 Htr3 H4 Hclosed1 Hclosed2)
      as (Hlive & Hresumed & Hspawn & Htimers & Hargs & Hwritten).
    match goal with
    | |- mixedStartPost _ _ _ _ _ _ _ _ ?t =>
        replace t
          with ((pre ++ [m]) ++ tr1 ++ tr2 ++ [Spawn "ffmpeg" args] ++ tr3 ++ tr4
                ++ [RegistrySet id])
          by (rewrite <- !app_assoc; cbn [app]; rewrite ?app_nil_r; reflexivity)
    end.
    unfold mixedStartPost. cbv zeta. split; [reflexivity|].
    eexists. exists vs, as_, ((pre ++ [m]) ++ tr1 ++ tr2 ++ [Spawn "ffmpeg" args] ++ tr3 ++ tr4).
    split; [reflexivity|].
    cbn [Mixed.st_recordingId Mixed.st_fileName Mixed.st_outputPath Mixed.st_sdpDir
         Mixed.st_startedAt Mixed.st_transports Mixed.st_consumers Mixed.st_ff
         Mixed.st_keyframeIntervals].
    split; [rewrite <- !app_assoc; reflexivity|].
    split; [reflexivity|]. split; [reflexivity|]. split; [reflexivity|]. split; [reflexivity|].
    split; [f_equal; rewrite !length_app; cbn [length]; lia|].
    split; [rewrite Hlive, <- Hlive1, <- Hlive2; reflexivity|].
    split; [rewrite Hresumed, Hres; reflexivity|].
    split; [rewrite Hspawn; reflexivity|].
    split; [rewrite Htimers; f_equal; cbn [length]; lia|].
    split; [rewrite !length_app; lia|].
    split; [exact Hargs|].
    split; [exact Hkind1|]. split; [exact Hkind2|].
    split; [rewrite length_take in Hle1; lia|].
    split; [apply Nat.eqb_neq in Hempty; lia|].
    split; [rewrite !length_app; lia|].
    rewrite Hwritten, map_app, Hpaths1, Hpaths2. reflexivity. }
  destruct (env_exists env n (recordDir env)).
  - apply wp_ret. cbn [length app]. rewrite Nat.add_0_r.
    specialize (Hrest [] (List.Forall_nil _)). cbn [length app] in Hrest.
    rewrite Nat.add_0_r in Hrest. exact Hrest.
  - wp_go; [exact eq_refl|].
    apply (Hrest [Mkdir (recordDir env)]). repeat constructor.
Qed.
End MixedStartRun.


(** ** The mixed start and the registry *)




(** X9: a mixed start that throws leaves the registry as it was. A start
    that returns has set exactly one entry, under the id it returns, and the
    set of that entry is its last call. The id is [rec-mix-] followed by the
    clock at the start, in milliseconds, and the file name is [mixed-],
    the id and [.mp4]; the entry carries the id, the file name and the
    output path that the start returns, and the clock at its
    registration. *)
Theorem mixed_start_sets_its_entry_last_or_nothing (env : Env) (room : option Room)
    (width height : option Z) (s : gmap string Mixed.State) (n : nat) :
  let run := Mixed.startMixedRecording env room width height s n in
  match outcome run with
  | Thrown _ => stateOf run = s
  | Returned res =>
      Mixed.recording_id res = "rec-mix-" +:+ JS.showZ (env_now env n)
      /\ Mixed.file_name res = "mixed-" +:+ Mixed.recording_id res +:+ ".mp4"
      /\ exists st tr0,
           stateOf run = <[Mixed.recording_id res := st]> s
           /\ calls run = tr0 ++ [RegistrySet (Mixed.recording_id res)]
           /\ Mixed.st_recordingId st = Mixed.recording_id res
           /\ Mixed.st_fileName st = Mixed.file_name res
           /\ Mixed.st_outputPath st = Mixed.file_path res
           /\ Mixed.st_startedAt st = env_now env (n + length tr0)
  end.
Proof.
  cbn zeta. destruct room as [r|]; [|reflexivity].
  pose proof (startMixedRecording_run env r width height s n) as Hrun.
  unfold wp, mixedStartPost in Hrun.
  destruct (outcome (Mixed.startMixedRecording env (Some r) width height s n)) as [res|e];
    [|exact Hrun].
  cbv zeta in Hrun.
  destruct Hrun as (-> & st & vs & as_ & tr0 & Hs & Htr & Hid & Hfile & Hpath & _ & Hat & _).
  cbn [Mixed.recording_id Mixed.file_name Mixed.file_path].
  repeat split. exists st, tr0. repeat split; assumption.
Qed.



(** X11: the registry entry of a mixed start that returns holds exactly
    what the start has left open: the transports it created and did not
    close, in creation order, the consumers it resumed, the muxer it spawned
    and the keyframe timers it set; there is one consumer per transport. *)
Theorem mixed_entry_holds_what_start_left_open (env : Env) (room : option Room)
    (width height : option Z) (s : gmap string Mixed.State) (n : nat)
    (res : Mixed.StartResult) :
  let run := Mixed.startMixedRecording env room width height s n in
  outcome run = Returned res ->
  exists st,
    stateOf run !! Mixed.recording_id res = Some st
    /\ Mixed.st_transports st = liveTransports n (calls run)
    /\ map cons_id (Mixed.st_consumers st) = resumedConsumers (calls run)
    /\ [Mixed.st_ff st] = handlesOf (isSpawnOf "ffmpeg") n (calls run)
    /\ Mixed.st_keyframeIntervals st = handlesOf isSetInterval n (calls run)
    /\ length (Mixed.st_consumers st) = length (Mixed.st_transports st).
Proof.
  cbn zeta. destruct room as [r|]; [|discriminate].
  pose proof (startMixedRecording_run env r width height s n) as Hrun.
  unfold wp, mixedStartPost in Hrun. intros Hres. rewrite Hres in Hrun. cbv zeta in Hrun.
  destruct Hrun as (-> & st & vs & as_ & tr0 & Hs & _ & _ & _ & _ & _ & _ & Hts & Hcs & Hff
                    & Htimers & Hlen & _).
  exists st. cbn [Mixed.recording_id]. rewrite Hs, lookup_insert_eq.
  repeat split; assumption.
Qed.

(** ** The mixed stop and the registry *)

Section MixedStopState.
Variable env : Env.

Lemma wp_closeResources (st : Mixed.State) (s : gmap string Mixed.State) (n : nat) Q :
  Q (Returned tt) s (closeCalls (Mixed.st_consumers st) (Mixed.st_transports st)) ->
  wp (Mixed.closeResources env st) s n Q.
Proof. eapply wp_run. apply run_closeResources. Qed.

Lemma wp_clearIntervals {S} (hs : list TimerId) (s : S) (n : nat) Q :
  Q (Returned tt) s (map ClearInterval hs) -> wp (forEach hs clearInterval) s n Q.
Proof. eapply wp_run. apply (run_forEach_quiet ClearInterval). Qed.

(** Whatever happens, the mixed stop leaves the registry without the entry
    of the id it is given. *)
Lemma stopMixedRecording_state (id : string) (s : gmap string Mixed.State) (n : nat) :
  wp (Mixed.stopMixedRecording env id) s n (fun _ s1 _ => s1 = delete id s).
Proof.
  unfold Mixed.stopMixedRecording. wp_go.
  destruct (s !! id) as [st|] eqn:Hst.
  2: { apply wp_ret. symmetry. apply delete_id, Hst. }
  unfold Mixed.checkDuration.
  repeat first [ apply wp_closeResources
               | apply wp_clearIntervals
               | apply wp_registryDelete
               | wp_prim
               | lazymatch goal with
                 | |- wp (if ?b then _ else _) _ _ _ => destruct b
                 | |- match env_throws ?e ?t ?c with _ => _ end => destruct (env_throws e t c)
                 end ];
    reflexivity.
Qed.

End MixedStopState.

Section RevisedStopState.
Variable env : Env.
Variable socket : bool.

Lemma wp_closeResources_revised (st : MixedRevised.State) (s : gmap string MixedRevised.State)
    (n : nat) Q :
  Q (Returned tt) s
    (closeCalls (MixedRevised.st_consumers st) (MixedRevised.st_transports st)) ->
  wp (MixedRevised.closeResources env st) s n Q.
Proof.
  eapply wp_run. unfold MixedRevised.closeResources, closeConsumer, closeTransport.
  rewrite (bind_returned _ _ s s n tt
             (map (fun c => CloseConsumer (cons_id c)) (MixedRevised.st_consumers st)))
    by apply (run_forEach_try env (fun c => CloseConsumer (cons_id c))).
  rewrite (run_forEach_try env CloseTransport). reflexivity.
Qed.

(** The revised stop too leaves the registry without the entry. *)
Lemma stopRevised_state (id : string) (s : gmap string MixedRevised.State) (n : nat) :
  wp (MixedRevised.stopMixedRecording env socket id) s n (fun _ s1 _ => s1 = delete id s).
Proof.
  unfold MixedRevised.stopMixedRecording. wp_go.
  destruct (s !! id) as [st|] eqn:Hst.
  2: { apply wp_ret. symmetry. apply delete_id, Hst. }
  unfold MixedRevised.checkDuration, MixedRevised.emitIfSocket.
  repeat first [ apply wp_closeResources_revised
               | apply wp_clearIntervals
               | apply wp_registryDelete
               | wp_prim
               | lazymatch goal with
                 | |- wp (if ?b then _ else _) _ _ _ => destruct b
                 | |- wp (match ?x with _ => _ end) _ _ _ => destruct x
                 | |- match env_throws ?e ?t ?c with _ => _ end => destruct (env_throws e t c)
                 end ];
    reflexivity.
Qed.

End RevisedStopState.

(** X12: whatever the outside world answers, a mixed stop leaves the
    registry without the entry of the id it is given and otherwise as it
    found it, also when it throws because the duration probe cannot be
    spawned; for an id that is not registered it makes no call and reports
    'Not found'. So a second stop of the same id makes no call. The same
    holds of the revised manager. *)
Theorem mixed_stop_always_unregisters (env env' : Env) (socket : bool) (id : string)
    (s : gmap string Mixed.State) (sR : gmap string MixedRevised.State) (n n' : nat) :
  let first := Mixed.stopMixedRecording env id s n in
  let firstR := MixedRevised.stopMixedRecording env socket id sR n in
  stateOf first = delete id s
  /\ Mixed.stopMixedRecording env' id (stateOf first) n'
     = (Returned Mixed.NotFound, stateOf first, [])
  /\ (s !! id = None -> first = (Returned Mixed.NotFound, s, []))
  /\ stateOf firstR = delete id sR
  /\ MixedRevised.stopMixedRecording env' socket id (stateOf firstR) n'
     = (Returned MixedRevised.NotFound, stateOf firstR, [])
  /\ (sR !! id = None -> firstR = (Returned MixedRevised.NotFound, sR, [])).
Proof.
  cbn zeta.
  pose proof (stopMixedRecording_state env id s n) as H. unfold wp in H.
  pose proof (stopRevised_state env socket id sR n) as HR. unfold wp in HR.
  assert (forall e t (a : gmap string Mixed.State), a !! id = None ->
            Mixed.stopMixedRecording e id a t = (Returned Mixed.NotFound, a, [])) as Hnone.
  { intros e t a Ha. unfold Mixed.stopMixedRecording.
    rewrite (bind_silent _ _ a t a) by reflexivity. rewrite Ha. reflexivity. }
  assert (forall e t (a : gmap string MixedRevised.State), a !! id = None ->
            MixedRevised.stopMixedRecording e socket id a t
            = (Returned MixedRevised.NotFound, a, [])) as HnoneR.
  { intros e t a Ha. unfold MixedRevised.stopMixedRecording.
    rewrite (bind_silent _ _ a t a) by reflexivity. rewrite Ha. reflexivity. }
  split; [exact H|]. split; [apply Hnone; rewrite H; apply lookup_delete_eq|].
  split; [apply Hnone|]. split; [exact HR|].
  split; [apply HnoneR; rewrite HR; apply lookup_delete_eq|]. apply HnoneR.
Qed.



(** ** The per-participant start *)

Lemma spawnOutputs_app (tr1 tr2 : list Call) :
  spawnOutputs (tr1 ++ tr2) = spawnOutputs tr1 ++ spawnOutputs tr2.
Proof. apply flat_map_app. Qed.

Lemma Forall_isRecording_probes (env : Env) (base : Z) (n k : nat) :
  Forall isRecordingCall (probes env base n k).
Proof. unfold probes. apply Forall_map, Forall_forall. intros j _. exact I. Qed.

Ltac recording_calls :=
  repeat lazymatch goal with
         | |- Forall _ [] => apply List.Forall_nil
         | |- Forall _ (probes _ _ _ _) => apply Forall_isRecording_probes
         | |- Forall _ (_ :: _) => apply List.Forall_cons
         | |- Forall _ (_ ++ _) => apply Forall_app; split
         | |- Forall _ (match ?k with video => _ | audio => _ end) => destruct k
         | |- isRecordingCall _ => exact I
         | |- True => exact I
         end.

Section PerParticipantStart.
Variable env : Env.

Lemma last_ffArgs (kind : Kind) (sdpPath outFile : string) :
  List.last (PerParticipant.ffArgs kind sdpPath outFile) "" = outFile.
Proof. destruct kind; reflexivity. Qed.

Lemma recording_resources (baseDir : string) (entry : Peer * Producer) (ci : CodecInfo)
    (n k : nat) (port : Z) :
  let tr := recordingCalls env baseDir entry ci n k port in
  handlesOf isCreateTransport n tr = [n]
  /\ resumedConsumers tr = [Datatypes.S n]
  /\ handlesOf (isSpawnOf "ffmpeg") n tr = [(Datatypes.S (Datatypes.S n) + k + 2)%nat]
  /\ writtenPaths tr = [perSdpPath baseDir entry]
  /\ spawnOutputs tr = [perOutFile baseDir entry]
  /\ Forall isRecordingCall tr.
Proof.
  cbn zeta. unfold recordingCalls.
  assert (length (probes env 20000 (Datatypes.S (Datatypes.S n)) k) = k) as Hk
    by (unfold probes; rewrite length_map, length_seq; reflexivity).
  split; [|split; [|split; [|split; [|split]]]].
  - rewrite !handlesOf_app, handlesOf_probes by reflexivity.
    destruct (prod_kind (snd entry)); reflexivity.
  - rewrite !resumedConsumers_app. unfold resumedConsumers at 2.
    rewrite flat_map_probes by reflexivity.
    destruct (prod_kind (snd entry)); reflexivity.
  - rewrite !handlesOf_app, handlesOf_probes by reflexivity.
    cbn [length handlesOf isSpawnOf String.eqb app Ascii.eqb Bool.eqb]. rewrite Hk.
    destruct (prod_kind (snd entry)); cbn; f_equal; lia.
  - rewrite !writtenPaths_app. unfold writtenPaths at 2.
    rewrite flat_map_probes by reflexivity.
    destruct (prod_kind (snd entry)); reflexivity.
  - rewrite !spawnOutputs_app. unfold spawnOutputs at 2.
    rewrite flat_map_probes by reflexivity.
    unfold spawnOutputs. cbn [flat_map app]. cbn [String.eqb Ascii.eqb Bool.eqb].
    rewrite last_ffArgs. destruct (prod_kind (snd entry)); reflexivity.
  - recording_calls.
Qed.

(** What one iteration of the loop of the per-participant start does. *)
Lemma recordProducer_cases (baseDir : string) (items : list PerParticipant.Item)
    (entry : Peer * Producer) (s : gmap string PerParticipant.State) (n : nat) :
  wp (PerParticipant.recordProducer env baseDir items entry) s n
    (fun o s1 tr =>
       s1 = s
       /\ Forall isRecordingCall tr
       /\ match o with
          | Thrown e => True
          | Returned items1 =>
              (items1 = items /\ tr = [])
              \/ (exists ci i,
                    let port := candidate env 20000 (Datatypes.S (Datatypes.S n) + i) in
                    PerParticipant._codecInfo (prod_kind (snd entry))
                      (env_consumerRtp env (snd entry)) = Some ci
                    /\ (i < 200)%nat
                    /\ env_portFree env (Datatypes.S (Datatypes.S n) + i) port = true
                    /\ items1
                       = items ++ [itemAt env baseDir entry n
                                     (Datatypes.S (Datatypes.S n) + Datatypes.S i + 2)]
                    /\ tr = recordingCalls env baseDir entry ci n (Datatypes.S i) port)
          end).
Proof.
  unfold PerParticipant.recordProducer. cbv zeta.
  destruct (env_canConsume env (prod_id (snd entry))) eqn:Hcan; cbn [negb].
  2: { apply wp_ret. split; [reflexivity|]. split; [constructor|]. left. auto. }
  wp_go.
  { split; [reflexivity|]. split; [recording_calls|exact I]. }
  wp_go.
  { split; [reflexivity|]. split; [recording_calls|exact I]. }
  cbn [length Nat.add cons_rtpParameters].
  replace (n + 1 + 1)%nat with (Datatypes.S (Datatypes.S n)) by lia.
  wp_go. unfold PerParticipant._getFreePort.
  destruct (freePortLoop_run env 20000 200 s (Datatypes.S (Datatypes.S n)))
    as [(i & Hi & Hfree & _ & Hrun)|(_ & Hrun)];
    (eapply wp_run; [exact Hrun|]); cbv beta iota.
  2: { split; [reflexivity|]. split; [recording_calls|exact I]. }
  wp_go.
  { split; [reflexivity|]. split; [recording_calls|exact I]. }
  destruct (PerParticipant._codecInfo (prod_kind (snd entry)) (env_consumerRtp env (snd entry)))
    as [ci|] eqn:Hci.
  2: { wp_go. split; [reflexivity|]. split; [recording_calls|exact I]. }
  wp_go.
  { split; [reflexivity|]. split; [recording_calls|exact I]. }
  wp_go.
  { split; [reflexivity|]. split; [recording_calls|exact I]. }
  assert (length (probes env 20000 (Datatypes.S (Datatypes.S n)) (Datatypes.S i))
          = Datatypes.S i) as Hk
    by (unfold probes; rewrite length_map, length_seq; reflexivity).
  destruct (prod_kind (snd entry)) eqn:Hkind; repeat wp_go;
    (split; [reflexivity|]);
    (split; [recording_calls|]);
    right; exists ci, i; cbn zeta;
    (split; [reflexivity|]); (split; [exact Hi|]); (split; [exact Hfree|]);
    (split;
     [ unfold itemAt, consumerAt, perSdpPath, perOutFile, perStem; rewrite ?Hkind;
       repeat f_equal; cbn [length]; rewrite ?Hk; lia
     | unfold recordingCalls, perSdpPath, perOutFile, perStem; rewrite ?Hkind;
       cbn [app cons_id]; rewrite <- ?app_assoc, ?Nat.add_1_r; reflexivity ]).
Qed.

End PerParticipantStart.

Section PerParticipantStartRun.
Variable env : Env.

(** The run of a per-participant start. *)
Lemma per_participant_start_run (room : option Room) (roomId : string)
    (s : gmap string PerParticipant.State) (n : nat) :
  wp (PerParticipant.start env room roomId) s n (perStartPost env roomId s n).
Proof.
  unfold PerParticipant.start.
  destruct room as [r|]; [|split; [constructor|reflexivity]].
  destruct (negb (router r)); [split; [constructor|reflexivity]|].
  cbv zeta.
  destruct (length (roomProducers r) =? 0)%nat; [split; [constructor|reflexivity]|].
  wp_go; [split; [recording_calls|reflexivity]|].
  set (id := "rec-per-" +:+ JS.showZ (env_now env n)) in *.
  set (baseDir := JS.pathJoin (JS.pathJoin (JS.pathJoin (recordDir env) "per") roomId) id) in *.
  cbn [length app]. rewrite Nat.add_0_r.
  apply wp_bind.
  apply (wp_forOf (roomProducers r) _ [] s (n + 1)
           (fun done items s1 tr =>
              s1 = s
              /\ Forall isRecordingCall tr
              /\ map PerParticipant.it_transport items = handlesOf isCreateTransport (n + 1) tr
              /\ map (fun it => cons_id (PerParticipant.it_consumer it)) items
                 = resumedConsumers tr
              /\ map PerParticipant.it_ff items = handlesOf (isSpawnOf "ffmpeg") (n + 1) tr
              /\ map PerParticipant.it_sdpPath items = writtenPaths tr
              /\ map PerParticipant.it_outFile items = spawnOutputs tr)).
  - repeat split; constructor.
  - intros done x rest items s1 tr _ (-> & Htr & Ht & Hc & Hf & Hp & Ho).
    eapply wp_consequence; [apply recordProducer_cases|].
    intros [items1|e] s2 tr1 (-> & Htr1 & H1).
    + split; [reflexivity|]. split; [apply Forall_app; split; assumption|].
      destruct H1 as [(-> & ->)|(ci & i & H1)].
      * rewrite app_nil_r. repeat split; assumption.
      * cbn zeta in H1. destruct H1 as (_ & _ & _ & -> & ->).
        destruct (recording_resources env baseDir x ci (n + 1 + length tr) (Datatypes.S i)
                    (candidate env 20000
                       (Datatypes.S (Datatypes.S (n + 1 + length tr)) + i)))
          as (Rt & Rc & Rf & Rp & Ro & _).
        cbn zeta in Rt, Rc, Rf, Rp, Ro.
        rewrite !map_app, !handlesOf_app, resumedConsumers_app, writtenPaths_app,
          spawnOutputs_app, Rt, Rc, Rf, Rp, Ro, Ht, Hc, Hf, Hp, Ho.
        repeat split; reflexivity.
    + cbv beta iota. split; [|reflexivity].
      apply List.Forall_cons; [exact I|]. apply Forall_app; split; assumption.
  - intros items s1 tr (-> & Htr & Ht & Hc & Hf & Hp & Ho). cbv beta iota.
    wp_go. apply wp_registryUpdate. wp_go.
    split.
    { apply List.Forall_cons; [exact I|]. rewrite app_nil_r.
      apply Forall_app; split; [exact Htr|]. apply Forall_app; split; [constructor|].
      repeat constructor. }
    split; [reflexivity|].
    eexists. exists (Mkdir baseDir :: tr).
    split; [reflexivity|].
    cbn [PerParticipant.st_id PerParticipant.st_roomId PerParticipant.st_baseDir
         PerParticipant.st_startedAt PerParticipant.st_items].
    split; [cbn [app]; rewrite ?app_nil_r; reflexivity|].
    split; [reflexivity|]. split; [reflexivity|]. split; [reflexivity|].
    split; [f_equal; cbn [length]; rewrite ?length_app; cbn [length]; lia|].
    cbn [app].
    replace (Mkdir baseDir :: tr ++ [RegistrySet id])
      with ([Mkdir baseDir] ++ tr ++ [RegistrySet id]) by reflexivity.
    rewrite !handlesOf_app, !resumedConsumers_app, !writtenPaths_app, !spawnOutputs_app.
    cbn [length handlesOf isCreateTransport isSpawnOf resumedConsumers writtenPaths
         spawnOutputs flat_map app].
    rewrite ?app_nil_r.
    repeat split; assumption.
Qed.

End PerParticipantStartRun.


(** A room with one video producer: the entry of the start has one
    consumer per transport. *)
Lemma mixed_entry_holds_what_start_left_open_witness :
  exists st,
    stateOf (Mixed.startMixedRecording mountedEnv (Some videoRoom) None None ∅ 0%nat)
      !! "rec-mix-1700000000000" = Some st
    /\ length (Mixed.st_consumers st) = length (Mixed.st_transports st).
Proof.
  destruct (mixed_entry_holds_what_start_left_open mountedEnv (Some videoRoom) None None ∅ 0%nat
              {| Mixed.recording_id := "rec-mix-1700000000000";
                 Mixed.file_name := "mixed-rec-mix-1700000000000.mp4";
                 Mixed.file_path := "/recordings/mixed-rec-mix-1700000000000.mp4" |}
              ltac:(vm_compute; reflexivity))
    as (st & Hst & _ & _ & _ & _ & Hlen).
  exists st. split; [exact Hst|exact Hlen].
Defined.


(** ** The per-participant recorder and the registry *)

Lemma Forall_recording_no_release (tr : list Call) :
  Forall isRecordingCall tr -> Forall (fun c => releases c = false) tr.
Proof.
  intros H. induction H as [|c tr Hc _ IH]; constructor; [|exact IH].
  destruct c; try reflexivity; destruct Hc.
Qed.


Section PerParticipantStopRun.
Variable env : Env.


End PerParticipantStopRun.

(** X14: a per-participant start that throws leaves the registry as it
    was; a start that returns has set exactly one entry, under the id it
    returns, as its last call. In both cases the start has released nothing:
    no call of the run kills a process or closes a consumer or a transport,
    so what a failing start has created stays open and is in no registry
    entry. *)
Theorem per_participant_start_registers_last_and_releases_nothing (env : Env)
    (room : option Room) (roomId : string) (s : gmap string PerParticipant.State) (n : nat) :
  let run := PerParticipant.start env room roomId s n in
  Forall (fun c => releases c = false) (calls run)
  /\ match outcome run with
     | Thrown _ => stateOf run = s
     | Returned id =>
         id = "rec-per-" +:+ JS.showZ (env_now env n)
         /\ exists st tr0,
              stateOf run = <[id := st]> s
              /\ calls run = tr0 ++ [RegistrySet id]
              /\ PerParticipant.st_id st = id
              /\ PerParticipant.st_roomId st = roomId
              /\ PerParticipant.st_startedAt st = env_now env (n + length tr0)
     end.
Proof.
  cbn zeta.
  pose proof (per_participant_start_run env room roomId s n) as Hrun.
  unfold wp, perStartPost in Hrun. destruct Hrun as (Hcalls & Hrun).
  split; [apply Forall_recording_no_release, Hcalls|].
  destruct (outcome (PerParticipant.start env room roomId s n)) as [id|e]; [|exact Hrun].
  destruct Hrun as (-> & st & tr0 & Hs & Htr & Hid & Hroom & _ & Hat & _).
  split; [reflexivity|]. exists st, tr0. repeat split; assumption.
Qed.

(** X15: the registry entry of a per-participant start that returns has
    one item per muxer that the start spawned, in spawning order: the items
    hold the transports that the start created, the consumers that it
    resumed, the muxers that it spawned, the SDP files that it wrote and the
    output files that it gave to the muxers. *)
Theorem per_participant_entry_holds_what_start_opened (env : Env) (room : option Room)
    (roomId : string) (s : gmap string PerParticipant.State) (n : nat) (id : string) :
  let run := PerParticipant.start env room roomId s n in
  outcome run = Returned id ->
  exists st,
    stateOf run !! id = Some st
    /\ map PerParticipant.it_transport (PerParticipant.st_items st)
       = handlesOf isCreateTransport n (calls run)
    /\ map (fun it => cons_id (PerParticipant.it_consumer it)) (PerParticipant.st_items st)
       = resumedConsumers (calls run)
    /\ map PerParticipant.it_ff (PerParticipant.st_items st)
       = handlesOf (isSpawnOf "ffmpeg") n (calls run)
    /\ map PerParticipant.it_sdpPath (PerParticipant.st_items st) = writtenPaths (calls run)
    /\ map PerParticipant.it_outFile (PerParticipant.st_items st) = spawnOutputs (calls run).
Proof.
  cbn zeta. intros Hres.
  pose proof (per_participant_start_run env room roomId s n) as Hrun.
  unfold wp, perStartPost in Hrun. rewrite Hres in Hrun.
  destruct Hrun as (_ & -> & st & tr0 & Hs & _ & _ & _ & _ & _ & Ht & Hc & Hf & Hp & Ho).
  exists st. rewrite Hs, lookup_insert_eq. repeat split; assumption.
Qed.

(** A room with one video producer: the entry has one item, whose muxer
    writes [video-alice-v1.webm]. *)
Lemma per_participant_entry_holds_what_start_opened_witness :
  exists st,
    stateOf (PerParticipant.start mountedEnv (Some videoRoom) "room1" ∅ 0%nat)
      !! "rec-per-1700000000000" = Some st
    /\ map PerParticipant.it_outFile (PerParticipant.st_items st)
       = ["/recordings/per/room1/rec-per-1700000000000/video-alice-v1.webm"].
Proof.
  destruct (per_participant_entry_holds_what_start_opened mountedEnv (Some videoRoom) "room1" ∅
              0%nat "rec-per-1700000000000" ltac:(vm_compute; reflexivity))
    as (st & Hst & _ & _ & _ & _ & Ho).
  exists st. split; [exact Hst|]. rewrite Ho. vm_compute. reflexivity.
Defined.




(** ** The stop of the single-file recorders *)

Lemma wp_eq {S A} (m : M S A) (s : S) (n : nat) (x : Outcome A * S * list Call) :
  wp m s n (fun o s1 tr => (o, s1, tr) = x) -> m s n = x.
Proof. unfold wp, outcome, stateOf, calls. destruct (m s n) as [[o s1] tr]. exact (fun H => H). Qed.

(** A symbolic run through every outcome of every call. *)
Ltac wp_all :=
  repeat first [ apply wp_registryDelete; cbv beta iota
               | apply wp_registryUpdate; cbv beta iota
               | wp_prim
               | lazymatch goal with
                 | |- match env_throws ?e ?t ?c with _ => _ end =>
                     destruct (env_throws e t c) eqn:?
                 end ].

Section SingleFileStop.
Variable env : Env.

Lemma wp_closeConsumers {S} (consumers : list Consumer) (s : S) (n : nat) Q :
  Q (Returned tt) s (map (fun c => CloseConsumer (cons_id c)) consumers) ->
  wp (forEach consumers (fun c => try_ (closeConsumer env c))) s n Q.
Proof.
  eapply wp_run. apply (run_forEach_try env (fun c => CloseConsumer (cons_id c))).
Qed.

Lemma stopRecording_run (id : string) (s : gmap string RecordingManager.Recording) (n : nat) :
  RecordingManager.stopRecording env id s n
  = match s !! id with
    | None => (Thrown "Recording not found", s, [])
    | Some rec =>
        singleFileStop env id s n (RecordingManager.rec_producers rec)
          (Some (RecordingManager.rec_ffmpeg rec))
          (option_list (RecordingManager.rec_videoTransport rec)
           ++ option_list (RecordingManager.rec_audioTransport rec))
          (RecordingManager.rec_fileName rec) (RecordingManager.rec_filePath rec)
          (RecordingManager.rec_startTime rec)
    end.
Proof.
  apply wp_eq. unfold RecordingManager.stopRecording. apply wp_rethrow. wp_go.
  destruct (s !! id) as [rec|]; [|reflexivity].
  apply wp_bind, wp_closeConsumers. cbv beta iota. cbn [length]. rewrite Nat.add_0_r.
  unfold singleFileStop, FFmpeg.kill, RecordingManager.closeIfSet. cbv zeta beta iota.
  wp_go; [reflexivity|].
  destruct (RecordingManager.rec_videoTransport rec) as [v|],
           (RecordingManager.rec_audioTransport rec) as [a|];
    wp_all;
    unfold stoppedAt, option_list; cbn [option_rect app map length];
    rewrite ?length_app, ?app_nil_r; cbn [length app];
    repeat first [lia | reflexivity | f_equal].
Qed.

Lemma stopRecording_single_transport_run (id : string)
    (s : gmap string RecordingManagerSingleTransport.Recording) (n : nat) :
  RecordingManagerSingleTransport.stopRecording env id s n
  = match s !! id with
    | None => (Thrown "Recording not found", s, [])
    | Some rec =>
        singleFileStop env id s n (RecordingManagerSingleTransport.rec_producers rec)
          (Some (RecordingManagerSingleTransport.rec_ffmpeg rec))
          [RecordingManagerSingleTransport.rec_transport rec]
          (RecordingManagerSingleTransport.rec_fileName rec)
          (RecordingManagerSingleTransport.rec_filePath rec)
          (RecordingManagerSingleTransport.rec_startTime rec)
    end.
Proof.
  apply wp_eq. unfold RecordingManagerSingleTransport.stopRecording. apply wp_rethrow. wp_go.
  destruct (s !! id) as [rec|]; [|reflexivity].
  apply wp_bind, wp_closeConsumers. cbv beta iota. cbn [length]. rewrite Nat.add_0_r.
  unfold singleFileStop, FFmpeg.kill. cbv zeta beta iota.
  wp_go; [reflexivity|].
  wp_all;
    unfold stoppedAt, option_list; cbn [option_rect app map length];
    rewrite ?length_app, ?app_nil_r; cbn [length app];
    repeat first [lia | reflexivity | f_equal].
Qed.

Lemma stopRecording_collect_run (id : string) (s : gmap string RecordingManagerCollect.Recording)
    (n : nat) :
  RecordingManagerCollect.stopRecording env id s n
  = match s !! id with
    | None => (Thrown "Recording not found", s, [])
    | Some rec =>
        singleFileStop env id s n (RecordingManagerCollect.rec_producers rec)
          (RecordingManagerCollect.rec_ffmpeg rec)
          (option_list (RecordingManagerCollect.rec_videoTransport rec)
           ++ option_list (RecordingManagerCollect.rec_audioTransport rec))
          (RecordingManagerCollect.rec_fileName rec) (RecordingManagerCollect.rec_filePath rec)
          (RecordingManagerCollect.rec_startTime rec)
    end.
Proof.
  apply wp_eq. unfold RecordingManagerCollect.stopRecording. apply wp_rethrow. wp_go.
  destruct (s !! id) as [rec|]; [|reflexivity].
  apply wp_bind, wp_closeConsumers. cbv beta iota. cbn [length]. rewrite Nat.add_0_r.
  unfold singleFileStop, FFmpeg.kill, RecordingManagerCollect.closeIfSet. cbv zeta.
  destruct (RecordingManagerCollect.rec_ffmpeg rec) as [ff|]; cbv beta iota;
    [wp_go; [reflexivity|]|wp_go];
    destruct (RecordingManagerCollect.rec_videoTransport rec) as [v|],
             (RecordingManagerCollect.rec_audioTransport rec) as [a|];
    wp_all;
    unfold stoppedAt, option_list; cbn [option_rect app map length];
    rewrite ?length_app, ?app_nil_r; cbn [length app];
    repeat first [lia | reflexivity | f_equal].
Qed.

End SingleFileStop.


(** ** The recorder that creates its consumers first *)

Lemma consumedAt_app (env : Env) (n : nat) (tr1 tr2 : list Call) :
  consumedAt env n (tr1 ++ tr2)
  = consumedAt env n tr1 ++ consumedAt env (n + length tr1) tr2.
Proof.
  revert n. induction tr1 as [|c tr1 IH]; intros n; cbn [app consumedAt length].
  - rewrite Nat.add_0_r. reflexivity.
  - rewrite IH, <- app_assoc. do 2 f_equal. f_equal. lia.
Qed.

Lemma consumedAt_none (env : Env) (n : nat) (tr : list Call) :
  Forall (fun c => isConsume c = false) tr -> consumedAt env n tr = [].
Proof.
  intros H. revert n. induction H as [|c tr Hc _ IH]; intros n; [reflexivity|].
  cbn [consumedAt]. rewrite Hc, IH. reflexivity.
Qed.

Lemma collectedRtp_snoc (k : Kind) (cs : list Consumer) (c : Consumer) :
  collectedRtp k (cs ++ [c])
  = if Kind_eqb (cons_kind c) k then cons_rtpParameters c else collectedRtp k cs.
Proof. unfold collectedRtp. rewrite fold_left_app. reflexivity. Qed.

Lemma withConsumers_snoc (cs : list Consumer) (c : Consumer)
    (rec : RecordingManagerCollect.Recording) :
  withConsumers (cs ++ [c]) rec = RecordingManagerCollect.pushConsumer c (withConsumers cs rec).
Proof. unfold withConsumers. rewrite fold_left_app. reflexivity. Qed.

Lemma withConsumers_fields (cs : list Consumer) (rec : RecordingManagerCollect.Recording) :
  RecordingManagerCollect.rec_producers (withConsumers cs rec)
  = RecordingManagerCollect.rec_producers rec ++ cs
  /\ RecordingManagerCollect.rec_videoTransport (withConsumers cs rec)
     = RecordingManagerCollect.rec_videoTransport rec
  /\ RecordingManagerCollect.rec_audioTransport (withConsumers cs rec)
     = RecordingManagerCollect.rec_audioTransport rec
  /\ RecordingManagerCollect.rec_ffmpeg (withConsumers cs rec)
     = RecordingManagerCollect.rec_ffmpeg rec
  /\ RecordingManagerCollect.rec_fileName (withConsumers cs rec)
     = RecordingManagerCollect.rec_fileName rec
  /\ RecordingManagerCollect.rec_filePath (withConsumers cs rec)
     = RecordingManagerCollect.rec_filePath rec
  /\ RecordingManagerCollect.rec_startTime (withConsumers cs rec)
     = RecordingManagerCollect.rec_startTime rec.
Proof.
  induction cs as [|c cs IH] using rev_ind.
  - rewrite app_nil_r. repeat split.
  - rewrite withConsumers_snoc. destruct IH as (Hp & Hv & Ha & Hf & Hn & Hpath & Ht).
    cbn. rewrite Hp, Hv, Ha, Hf, Hn, Hpath, Ht, app_assoc. repeat split.
Qed.

Section CollectRun.
Variable env : Env.

Lemma wp_tryKeeping {A} (acc : A) (m : M RecordingManagerCollect.Registry A)
    (s : RecordingManagerCollect.Registry) (n : nat) Q :
  wp m s n
    (fun o s1 tr =>
       match o with
       | Returned a => Q (Returned a) s1 tr
       | Thrown _ => Q (Returned acc) s1 tr
       end) ->
  wp (RecordingManagerCollect.tryKeeping acc m) s n Q.
Proof.
  unfold wp, RecordingManagerCollect.tryKeeping, outcome, stateOf, calls.
  destruct (m s n) as [[[a|e] s1] tr]; exact (fun H => H).
Qed.

Lemma wp_modifyState {S} (f : S -> S) (s : S) (n : nat) Q :
  Q (Returned tt) (f s) [] -> wp (modifyState f) s n Q.
Proof. exact (fun H => H). Qed.

(** What one iteration of the loop of [_connectAndCollectRtp] does, from a
    registry that holds the entry with the consumers pushed so far. *)
Lemma collectProducer_cases (id : string) (rec0 : RecordingManagerCollect.Recording)
    (cs : list Consumer) (producer : Producer) (s : RecordingManagerCollect.Registry)
    (n : nat) :
  wp (RecordingManagerCollect.collectProducer env id (withConsumers cs rec0)
        (collectedRtp video cs, collectedRtp audio cs) producer)
    (<[id := withConsumers cs rec0]> s) n
    (fun o s1 tr =>
       exists cs1,
         o = Returned (collectedRtp video (cs ++ cs1), collectedRtp audio (cs ++ cs1))
         /\ s1 = <[id := withConsumers (cs ++ cs1) rec0]> s
         /\ map cons_id cs1 = consumedAt env n tr
         /\ Forall isSetup tr
         /\ Forall (fun c => isCreateTransport c = false) tr
         /\ Forall (fun c => c = consumerAt env (cons_id c) producer) cs1).
Proof.
  unfold RecordingManagerCollect.collectProducer. apply wp_tryKeeping.
  assert (forall tr, tr = [] \/ (exists t e, tr = [Consume t (prod_id producer) true]
                                  /\ env_throws env n (Consume t (prod_id producer) true)
                                     = Some e) ->
            exists cs1,
              Returned (collectedRtp video cs, collectedRtp audio cs)
              = Returned (collectedRtp video (cs ++ cs1), collectedRtp audio (cs ++ cs1))
              /\ <[id := withConsumers cs rec0]> s = <[id := withConsumers (cs ++ cs1) rec0]> s
              /\ map cons_id cs1 = consumedAt env n tr
              /\ Forall isSetup tr
              /\ Forall (fun c => isCreateTransport c = false) tr
              /\ Forall (fun c => c = consumerAt env (cons_id c) producer) cs1) as Hkeep.
  { intros tr Htr. exists []. rewrite app_nil_r. split; [reflexivity|]. split; [reflexivity|].
    destruct Htr as [->|(t & e & -> & He)].
    - repeat split; constructor.
    - cbn [consumedAt isConsume]. rewrite He. repeat split; repeat constructor. }
  destruct (env_canConsume env (prod_id producer)); cbn [negb];
    [|apply wp_ret, Hkeep; left; reflexivity].
  destruct (withConsumers_fields cs rec0) as (_ & Hv & Ha & _).
  match goal with
  | |- wp (match ?t with _ => _ end) _ _ _ => destruct t as [transport|] eqn:Ht
  end; [|apply wp_ret, Hkeep; left; reflexivity].
  wp_go; [apply Hkeep; right; eauto|].
  apply wp_bind, wp_modifyState. cbv beta iota. wp_go.
  exists [consumerAt env n producer].
  unfold RecordingManagerCollect.updateRecording. rewrite lookup_insert_eq, insert_insert_eq.
  rewrite !collectedRtp_snoc, withConsumers_snoc.
  cbn [map cons_id consumerAt consumedAt isConsume cons_kind cons_rtpParameters app].
  rewrite Heqo.
  split; [destruct (prod_kind producer); reflexivity|].
  split; [reflexivity|]. split; [reflexivity|].
  split; [repeat constructor|]. split; [repeat constructor|]. repeat constructor.
Qed.

(** The loop of [_connectAndCollectRtp] never throws: it pushes one
    consumer per consume call that did not throw, and collects the
    rtpParameters of the last consumer of each kind. *)
Lemma collectAll_cases (id : string) (rec0 : RecordingManagerCollect.Recording)
    (producers : list Producer) (s : RecordingManagerCollect.Registry) (n : nat) :
  wp (forOf producers
        (RecordingManagerCollect.collectProducer env id (withConsumers [] rec0))
        (collectedRtp video [], collectedRtp audio []))
    (<[id := withConsumers [] rec0]> s) n
    (fun o s1 tr =>
       exists cs,
         o = Returned (collectedRtp video cs, collectedRtp audio cs)
         /\ s1 = <[id := withConsumers cs rec0]> s
         /\ map cons_id cs = consumedAt env n tr
         /\ Forall isSetup tr
         /\ Forall (fun c => isCreateTransport c = false) tr
         /\ Forall (consumerOf env producers) cs).
Proof.
  apply (wp_forOf producers _ _ _ n
           (fun done acc s1 tr =>
              exists cs,
                acc = (collectedRtp video cs, collectedRtp audio cs)
                /\ s1 = <[id := withConsumers cs rec0]> s
                /\ map cons_id cs = consumedAt env n tr
                /\ Forall isSetup tr
                /\ Forall (fun c => isCreateTransport c = false) tr
                /\ Forall (consumerOf env done) cs)).
  - exists []. repeat split; constructor.
  - intros done x rest acc s1 tr Hl (cs & -> & -> & Hids & Htr & Hnt & Hcs).
    assert (withConsumers [] rec0 = rec0) as Hnil by reflexivity. rewrite Hnil.
    pose proof (collectProducer_cases id rec0 cs x s (n + length tr)) as Hstep.
    assert (RecordingManagerCollect.collectProducer env id rec0
            = RecordingManagerCollect.collectProducer env id (withConsumers cs rec0)) as ->.
    { unfold RecordingManagerCollect.collectProducer.
      destruct (withConsumers_fields cs rec0) as (_ & -> & -> & _). reflexivity. }
    eapply wp_consequence; [exact Hstep|].
    intros o s2 tr1 (cs1 & -> & -> & Hids1 & Htr1 & Hnt1 & Hcs1).
    exists (cs ++ cs1). split; [reflexivity|]. split; [reflexivity|].
    split; [rewrite map_app, consumedAt_app, Hids, Hids1; reflexivity|].
    split; [apply Forall_app; split; assumption|].
    split; [apply Forall_app; split; assumption|].
    apply Forall_app; split.
    + eapply List.Forall_impl; [|exact Hcs]. intros c (p & Hp & Hc).
      exists p. split; [apply in_or_app; left; exact Hp|exact Hc].
    + eapply List.Forall_impl; [|exact Hcs1]. intros c Hc.
      exists x. split; [apply in_or_app; right; left; reflexivity|exact Hc].
  - intros acc s1 tr (cs & -> & -> & H). exists cs. split; [reflexivity|]. split; [reflexivity|].
    exact H.
Qed.

(** The search of the base port makes bind probes only. *)
Lemma collect_freeBasePortLoop_cases (attempts : nat) (s : RecordingManagerCollect.Registry)
    (n : nat) :
  wp (RecordingManagerCollect.freeBasePortLoop env attempts) s n
    (fun o s1 tr =>
       s1 = s /\ Forall (fun c => match c with BindProbe _ => True | _ => False end) tr).
Proof.
  revert n. induction attempts as [|attempts IH]; intros n.
  - split; [reflexivity|constructor].
  - cbn [RecordingManagerCollect.freeBasePortLoop]. wp_go.
    match goal with
    | |- wp (if ?b then _ else _) _ _ _ => destruct b
    end.
    + apply wp_ret. split; [reflexivity|repeat constructor].
    + eapply wp_consequence; [apply IH|].
      intros o s1 tr (-> & Htr). split; [reflexivity|].
      rewrite ?app_nil_r. cbn [app]. repeat constructor. exact Htr.
Qed.

(** The creation of the muxer: the SDP is synthesized, the process spawned
    and the SDP piped to it. *)
Lemma ffmpegNew_cases {S} (rtp : Sdp.FfmpegRtpParameters) (s : S) (n : nat) :
  wp (FFmpeg.new env rtp) s n
    (fun o s1 tr =>
       s1 = s
       /\ match o with
          | Returned p =>
              p = n
              /\ exists sdp args,
                   Sdp.createSdpText rtp = Returned sdp
                   /\ tr = [Spawn "ffmpeg" args; StdinWrite n sdp; StdinEnd n]
                   /\ List.last args EmptyString
                      = recordDir env +:+ "/" +:+ "recording-" +:+ JS.showZ (env_now env n)
                        +:+ ".mp4"
          | Thrown _ => Forall isMuxerCall tr
          end).
Proof.
  unfold FFmpeg.new. destruct (Sdp.createSdpText rtp) as [sdp|e].
  2: { split; [reflexivity|constructor]. }
  unfold FFmpeg._commandArgs.
  wp_go; [split; [reflexivity|repeat constructor]|].
  wp_go; [split; [reflexivity|repeat constructor]|].
  wp_go; [split; [reflexivity|repeat constructor]|].
  split; [reflexivity|]. cbn [app length]. rewrite !Nat.add_0_r.
  split; [reflexivity|].
  eexists. eexists. split; [reflexivity|]. split; [reflexivity|].
  destruct (Sdp.videoCodec rtp), (Sdp.audioCodec rtp); reflexivity.
Qed.

(** The resume loop never throws and attempts the resume of every
    consumer, in order. *)
Lemma collect_resumeAll_cases (consumers : list Consumer)
    (s : RecordingManagerCollect.Registry) (n : nat) :
  wp (forEach consumers (RecordingManagerCollect.resumeConsumer env)) s n
    (fun o s1 tr =>
       o = Returned tt
       /\ s1 = s
       /\ resumedConsumers tr = map cons_id consumers
       /\ Forall isResumption tr).
Proof.
  apply (wp_forEach consumers _ s n
           (fun done s1 tr =>
              s1 = s /\ resumedConsumers tr = map cons_id done /\ Forall isResumption tr)).
  - repeat split. constructor.
  - intros done x rest s1 tr _ (-> & Hres & Htr).
    assert (forall tr1, resumedConsumers tr1 = [cons_id x] -> Forall isResumption tr1 ->
                        s = s
                        /\ resumedConsumers (tr ++ tr1) = map cons_id (done ++ [x])
                        /\ Forall isResumption (tr ++ tr1)) as Hstep.
    { intros tr1 H1 H2. split; [reflexivity|].
      rewrite resumedConsumers_app, Hres, H1, map_app. split; [reflexivity|].
      apply Forall_app. split; assumption. }
    unfold RecordingManagerCollect.resumeConsumer. wp_go.
    + apply Hstep; [reflexivity|repeat constructor].
    + destruct (cons_kind x); wp_go; apply Hstep; try reflexivity; repeat constructor.
  - intros s1 tr (-> & Hres & Htr). auto.
Qed.

(** The creation of the transport of a kind. *)
Lemma collect_createAndConnect_cases (wanted : bool) (port : Z)
    (s : RecordingManagerCollect.Registry) (n : nat) :
  wp (RecordingManagerCollect.createAndConnect env wanted port) s n
    (fun o s1 tr =>
       s1 = s
       /\ Forall isSetup tr
       /\ Forall (fun c => isConsume c = false) tr
       /\ ~ (exists id, In (RegistrySet id) tr)
       /\ match o with
          | Returned t =>
              option_list t = handlesOf isCreateTransport n tr
              /\ forall x, t = Some x -> In (Connect x port (port + 1)) tr
          | Thrown _ => True
          end).
Proof.
  unfold RecordingManagerCollect.createAndConnect.
  assert (forall tr : list Call,
            Forall (fun c => c = CreatePlainTransport \/ exists t p q, c = Connect t p q) tr ->
            Forall isSetup tr /\ Forall (fun c => isConsume c = false) tr
            /\ ~ (exists id, In (RegistrySet id) tr)) as Hcalls.
  { intros tr Htr. split; [|split].
    - eapply List.Forall_impl; [|exact Htr]. intros c [->|(t & p & q & ->)]; exact I.
    - eapply List.Forall_impl; [|exact Htr]. intros c [->|(t & p & q & ->)]; reflexivity.
    - intros (id & Hin). rewrite List.Forall_forall in Htr.
      destruct (Htr _ Hin) as [H|(t & p & q & H)]; discriminate H. }
  destruct wanted.
  - wp_go.
    { split; [reflexivity|].
      destruct (Hcalls [CreatePlainTransport]) as (H1 & H2 & H3); [repeat first [apply List.Forall_nil | apply List.Forall_cons; [first [left; reflexivity | right; eauto]|]]|].
      cbn [app]; (split; [exact H1|]); (split; [exact H2|]); (split; [exact H3|]); first [exact I | reflexivity]. }
    wp_go.
    { split; [reflexivity|].
      destruct (Hcalls [CreatePlainTransport; Connect n port (port + 1)]) as (H1 & H2 & H3);
        [repeat first [apply List.Forall_nil | apply List.Forall_cons; [first [left; reflexivity | right; eauto]|]]|].
      cbn [app]; (split; [exact H1|]); (split; [exact H2|]); (split; [exact H3|]); first [exact I | reflexivity]. }
    split; [reflexivity|].
    destruct (Hcalls [CreatePlainTransport; Connect n port (port + 1)]) as (H1 & H2 & H3);
      [repeat first [apply List.Forall_nil | apply List.Forall_cons; [first [left; reflexivity | right; eauto]|]]|].
    cbn [app]; (split; [exact H1|]); (split; [exact H2|]); (split; [exact H3|]).
    split; [reflexivity|]. intros x [= <-]. right. left. reflexivity.
  - apply wp_ret. split; [reflexivity|].
    destruct (Hcalls []) as (H1 & H2 & H3); [constructor|].
    (split; [exact H1|]); (split; [exact H2|]); (split; [exact H3|]).
    split; [reflexivity|]. intros x Hx. discriminate Hx.
Qed.

End CollectRun.


Section CollectStartRun.
Variable env : Env.

Lemma Forall_mkdir_setup (pre : list Call) :
  Forall isMkdir pre ->
  Forall isSetup pre /\ Forall (fun c => isConsume c = false) pre
  /\ Forall (fun c => isCreateTransport c = false) pre
  /\ forall id, ~ In (RegistrySet id) pre.
Proof.
  intros H. repeat split.
  - eapply List.Forall_impl; [|exact H]. intros [] Hc; try destruct Hc; exact I.
  - eapply List.Forall_impl; [|exact H]. intros [] Hc; try destruct Hc; reflexivity.
  - eapply List.Forall_impl; [|exact H]. intros [] Hc; try destruct Hc; reflexivity.
  - intros id Hin. rewrite List.Forall_forall in H. exact (H _ Hin).
Qed.

Lemma Forall_probe_setup (tr : list Call) :
  Forall (fun c => match c with BindProbe _ => True | _ => False end) tr ->
  Forall isSetup tr /\ Forall (fun c => isConsume c = false) tr
  /\ Forall (fun c => isCreateTransport c = false) tr
  /\ forall id, ~ In (RegistrySet id) tr.
Proof.
  intros H. repeat split.
  - eapply List.Forall_impl; [|exact H]. intros [] Hc; try destruct Hc; exact I.
  - eapply List.Forall_impl; [|exact H]. intros [] Hc; try destruct Hc; reflexivity.
  - eapply List.Forall_impl; [|exact H]. intros [] Hc; try destruct Hc; reflexivity.
  - intros id Hin. rewrite List.Forall_forall in H. exact (H _ Hin).
Qed.

Lemma updateRecording_insert (id : string)
    (f : RecordingManagerCollect.Recording -> RecordingManagerCollect.Recording)
    (rec : RecordingManagerCollect.Recording) (s : RecordingManagerCollect.Registry) :
  RecordingManagerCollect.updateRecording id f (<[id := rec]> s) = <[id := f rec]> s.
Proof.
  unfold RecordingManagerCollect.updateRecording.
  rewrite lookup_insert_eq, insert_insert_eq. reflexivity.
Qed.

(** The run of a start of the recorder that creates its consumers first. *)
Lemma collect_startRecording_run (r : Room) (room_id user_name : string)
    (s : RecordingManagerCollect.Registry) (n : nat) :
  wp (RecordingManagerCollect.startRecording env (Some r) room_id user_name) s n
    (collectStartPost env r room_id user_name s n).
Proof.
  unfold RecordingManagerCollect.startRecording. apply wp_rethrow.
  assert (forall e tr, Forall isSetup tr ->
            (forall id, ~ In (RegistrySet id) tr) ->
            collectStartPost env r room_id user_name s n (Thrown e) s tr) as Hearly.
  { intros e tr H1 H2. left. split; [reflexivity|]. split; [exact H1|apply H2]. }
  destruct (negb (router r)).
  { apply wp_throw. apply Hearly; [constructor|intros id []]. }
  cbv zeta. wp_go. wp_go. cbn [length app]. rewrite !Nat.add_0_r.
  set (id := "rec-" +:+ JS.showZ (env_now env n)) in *.
  match goal with
  | |- wp _ _ _ (fun o s1 tr1 =>
                   match o with
                   | Returned _ => wp ?rest _ _ _
                   | Thrown _ => _
                   end) => set (k := rest)
  end.
  assert (forall pre, Forall isMkdir pre ->
            wp k s (n + length pre)
              (fun o2 s2 tr2 =>
                 match o2 with
                 | Returned a =>
                     collectStartPost env r room_id user_name s n (Returned a) s2 (pre ++ tr2)
                 | Thrown e =>
                     collectStartPost env r room_id user_name s n
                       (Thrown (if String.eqb e "" then "Failed to start recording" else e))
                       s2 (pre ++ tr2)
                 end)) as Hrest.
  { intros pre Hpre. subst k.
    destruct (Forall_mkdir_setup pre Hpre) as (Hp1 & Hp2 & Hp3 & Hp4).
    destruct (negb (RecordingManagerCollect.hasKind video r)
              && negb (RecordingManagerCollect.hasKind audio r))%bool.
    { apply wp_throw. rewrite app_nil_r. apply Hearly; assumption. }
    apply wp_bind. unfold RecordingManagerCollect._getFreeBasePort.
    eapply wp_consequence; [apply collect_freeBasePortLoop_cases|].
    intros [port|e] s1 tr1 (-> & Htr1);
      destruct (Forall_probe_setup tr1 Htr1) as (Hq1 & Hq2 & Hq3 & Hq4).
    2: { apply Hearly; [apply Forall_app; split; assumption|].
         intros i Hi. apply in_app_or in Hi as [Hi|Hi]; [exact (Hp4 _ Hi)|exact (Hq4 _ Hi)]. }
    apply wp_bind.
    eapply wp_consequence; [apply collect_createAndConnect_cases|].
    intros [vt|e] s2 tr2 (-> & Hv1 & Hv2 & Hv3 & Hv4); [destruct Hv4 as (Hv4 & Hv5)|].
    2: { apply Hearly; [repeat (apply Forall_app; split); assumption|].
         intros i Hi. apply in_app_or in Hi as [Hi|Hi]; [exact (Hp4 _ Hi)|].
         apply in_app_or in Hi as [Hi|Hi]; [exact (Hq4 _ Hi)|]. apply Hv3. eauto. }
    apply wp_bind.
    eapply wp_consequence; [apply collect_createAndConnect_cases|].
    intros [at_|e] s3 tr3 (-> & Ha1 & Ha2 & Ha3 & Ha4); [destruct Ha4 as (Ha4 & Ha5)|].
    2: { apply Hearly; [repeat (apply Forall_app; split); assumption|].
         intros i Hi. apply in_app_or in Hi as [Hi|Hi]; [exact (Hp4 _ Hi)|].
         apply in_app_or in Hi as [Hi|Hi]; [exact (Hq4 _ Hi)|].
         apply in_app_or in Hi as [Hi|Hi]; [apply Hv3; eauto|apply Ha3; eauto]. }
    wp_prim. wp_prim. apply wp_bind, wp_registryUpdate. cbv beta iota.
    unfold RecordingManagerCollect._connectAndCollectRtp.
    wp_prim. wp_prim. wp_prim. rewrite lookup_insert_eq.
    cbn [length]. rewrite !Nat.add_0_r.
    set (t0 := (n + length pre + length tr1 + length tr2 + length tr3)%nat) in *.
    change (wp ?m (<[id := ?rec]> s) ?t ?Q)
      with (wp m (<[id := registeredRecording vt at_ id room_id user_name (env_now env t0)]> s)
              t Q).
    match goal with
    | |- context [RecordingManagerCollect.collectProducer env id ?rec] =>
        change rec with (registeredRecording vt at_ id room_id user_name (env_now env t0))
    end.
    set (rec0 := registeredRecording vt at_ id room_id user_name (env_now env t0)) in *.
    apply wp_bind.
    eapply wp_consequence; [apply (collectAll_cases env id rec0)|].
    intros o s4 tr4 (cs & -> & -> & Hids & Hc1 & Hc3 & Hcs). cbv beta iota.
    apply wp_bind, wp_modifyState. cbv beta iota. wp_prim.
    rewrite updateRecording_insert. cbn [fst snd app]. rewrite ?app_nil_r.
    assert (Forall isSetup (pre ++ tr1 ++ tr2 ++ tr3 ++ RegistrySet id :: tr4)) as Hsetup.
    { repeat (apply Forall_app; split; [assumption|]). constructor; [exact I|exact Hc1]. }
    assert (In (RegistrySet id) (pre ++ tr1 ++ tr2 ++ tr3 ++ RegistrySet id :: tr4)) as Hreg.
    { repeat (apply in_or_app; right). left. reflexivity. }
    assert (option_list vt ++ option_list at_
            = handlesOf isCreateTransport n (pre ++ tr1 ++ tr2 ++ tr3 ++ RegistrySet id :: tr4))
      as Hts.
    { rewrite !handlesOf_app, (handlesOf_none _ _ pre Hp3), (handlesOf_none _ _ tr1 Hq3).
      cbn [handlesOf isCreateTransport app].
      rewrite (handlesOf_none _ _ tr4 Hc3), app_nil_r, Hv4, Ha4.
      reflexivity. }
    assert (map cons_id cs
            = consumedAt env n (pre ++ tr1 ++ tr2 ++ tr3 ++ RegistrySet id :: tr4)) as Hcons.
    { rewrite !consumedAt_app, (consumedAt_none _ _ pre Hp2), (consumedAt_none _ _ tr1 Hq2),
        (consumedAt_none _ _ tr2 Hv2), (consumedAt_none _ _ tr3 Ha2).
      cbn [consumedAt isConsume app]. rewrite Hids. f_equal. subst t0. lia. }
    apply wp_bind.
    eapply wp_consequence; [apply ffmpegNew_cases|].
    intros [ff|e] s5 tr5 (-> & H5).
    2: { right. exists vt, at_, (env_now env t0), cs,
           (pre ++ tr1 ++ tr2 ++ tr3 ++ RegistrySet id :: tr4), tr5.
         split; [reflexivity|].
         split; [rewrite <- !app_assoc; reflexivity|].
         repeat split; assumption. }
    destruct H5 as (-> & sdp & args & Hsdp & -> & Hout). cbv beta iota.
    apply wp_bind, wp_modifyState. cbv beta iota.
    rewrite updateRecording_insert. wp_prim. wp_prim. rewrite lookup_insert_eq.
    apply wp_bind.
    assert (RecordingManagerCollect.rec_producers
              (RecordingManagerCollect.setFfmpeg (t0 + 1 + length tr4)%nat
                 (RecordingManagerCollect.setRtpParameters
                    (collectedRtp video cs) (collectedRtp audio cs)
                    (withConsumers cs rec0))) = cs) as ->.
    { cbn. destruct (withConsumers_fields cs rec0) as (-> & _). reflexivity. }
    eapply wp_consequence; [apply collect_resumeAll_cases|].
    intros o s6 tr6 (-> & -> & Hres & Hres2). cbv beta iota. wp_prim.
    split; [reflexivity|].
    exists vt, at_, (env_now env t0), cs, port, sdp, args,
      (pre ++ tr1 ++ tr2 ++ tr3 ++ RegistrySet id :: tr4), tr6.
    cbv zeta.
    assert ((n + length (pre ++ tr1 ++ tr2 ++ tr3 ++ RegistrySet id :: tr4))%nat
            = (t0 + 1 + length tr4)%nat) as ->.
    { rewrite !length_app. cbn [length]. subst t0. lia. }
    split; [reflexivity|].
    split; [rewrite <- !app_assoc; cbn [app]; rewrite ?app_nil_r; reflexivity|].
    split; [exact Hsetup|]. split; [exact Hres2|]. split; [exact Hreg|]. split; [exact Hts|].
    split; [exact Hcons|]. split; [exact Hcs|]. split; [exact Hres|]. split; [exact Hsdp|].
    split; [|split; [|exact Hout]].
    + intros t Ht. apply in_or_app. right. apply in_or_app. right. apply in_or_app. left.
      apply Hv5, Ht.
    + intros t Ht. do 3 (apply in_or_app; right). apply in_or_app. left. apply Ha5, Ht. }
  destruct (env_exists env n (recordDir env)).
  - apply wp_ret. cbn [length app]. rewrite Nat.add_0_r.
    specialize (Hrest [] (List.Forall_nil _)). cbn [length app] in Hrest.
    rewrite Nat.add_0_r in Hrest. exact Hrest.
  - wp_go.
    + apply Hearly; [repeat constructor|]. intros i [Hi|[]]. discriminate Hi.
    + apply (Hrest [Mkdir (recordDir env)]). repeat constructor.
Qed.

End CollectStartRun.


(** X17: the stop of each of the three single-file recorders, for an id
    that is not registered, throws 'Recording not found' without a call.
    Otherwise it closes every consumer of the entry, whatever the closes
    answer, and then sends SIGKILL to the muxer of the entry, if the entry
    has one. If that kill throws, the stop throws its message, or 'Failed to
    stop recording' for an empty one: the entry stays in the registry and
    no transport is closed. If not, the stop closes the transports of the
    entry, removes the entry, and returns the file name and path of the
    entry, whether that path exists after the closes, and the clock after
    the removal minus the start time. *)
Theorem single_file_stop_keeps_entry_when_kill_throws (env : Env) (id : string)
    (s1 : gmap string RecordingManager.Recording)
    (s2 : gmap string RecordingManagerSingleTransport.Recording)
    (s3 : gmap string RecordingManagerCollect.Recording) (n : nat) :
  RecordingManager.stopRecording env id s1 n
  = match s1 !! id with
    | None => (Thrown "Recording not found", s1, [])
    | Some rec =>
        singleFileStop env id s1 n (RecordingManager.rec_producers rec)
          (Some (RecordingManager.rec_ffmpeg rec))
          (option_list (RecordingManager.rec_videoTransport rec)
           ++ option_list (RecordingManager.rec_audioTransport rec))
          (RecordingManager.rec_fileName rec) (RecordingManager.rec_filePath rec)
          (RecordingManager.rec_startTime rec)
    end
  /\ RecordingManagerSingleTransport.stopRecording env id s2 n
     = match s2 !! id with
       | None => (Thrown "Recording not found", s2, [])
       | Some rec =>
           singleFileStop env id s2 n (RecordingManagerSingleTransport.rec_producers rec)
             (Some (RecordingManagerSingleTransport.rec_ffmpeg rec))
             [RecordingManagerSingleTransport.rec_transport rec]
             (RecordingManagerSingleTransport.rec_fileName rec)
             (RecordingManagerSingleTransport.rec_filePath rec)
             (RecordingManagerSingleTransport.rec_startTime rec)
       end
  /\ RecordingManagerCollect.stopRecording env id s3 n
     = match s3 !! id with
       | None => (Thrown "Recording not found", s3, [])
       | Some rec =>
           singleFileStop env id s3 n (RecordingManagerCollect.rec_producers rec)
             (RecordingManagerCollect.rec_ffmpeg rec)
             (option_list (RecordingManagerCollect.rec_videoTransport rec)
              ++ option_list (RecordingManagerCollect.rec_audioTransport rec))
             (RecordingManagerCollect.rec_fileName rec)
             (RecordingManagerCollect.rec_filePath rec)
             (RecordingManagerCollect.rec_startTime rec)
       end.
Proof.
  split; [apply stopRecording_run|].
  split; [apply stopRecording_single_transport_run|apply stopRecording_collect_run].
Qed.

(** ** The start of the recorder that creates its consumers first *)

Lemma setup_consumes_paused (tr : list Call) : Forall isSetup tr -> Forall consumesPaused tr.
Proof.
  intros H. eapply List.Forall_impl; [|exact H].
  intros [] Hc; try exact I. destruct paused; [reflexivity|destruct Hc].
Qed.

Lemma setup_resumes_nothing (tr : list Call) :
  Forall isSetup tr -> Forall (fun c => ~ isResume c) tr.
Proof.
  intros H. eapply List.Forall_impl; [|exact H]. intros [] Hc Hr; try exact Hr; destruct Hc.
Qed.

Lemma muxer_calls_neither (tr : list Call) :
  Forall isMuxerCall tr -> Forall consumesPaused tr /\ Forall (fun c => ~ isResume c) tr.
Proof.
  intros H. split; (eapply List.Forall_impl; [|exact H]).
  - intros [] Hc; try exact I. destruct Hc.
  - intros [] Hc Hr; try exact Hr; destruct Hc.
Qed.

Lemma resumption_consumes_nothing (tr : list Call) :
  Forall isResumption tr -> Forall consumesPaused tr.
Proof.
  intros H. eapply List.Forall_impl; [|exact H]. intros [] Hc; try exact I. destruct Hc.
Qed.


(** ** The start of the single-file recorder *)

Lemma resumedOk_app (env : Env) (n : nat) (tr1 tr2 : list Call) :
  resumedOk env n (tr1 ++ tr2) = resumedOk env n tr1 ++ resumedOk env (n + length tr1) tr2.
Proof.
  revert n. induction tr1 as [|c tr1 IH]; intros n; cbn [app resumedOk length].
  - rewrite Nat.add_0_r. reflexivity.
  - rewrite IH, <- app_assoc. do 2 f_equal. f_equal. lia.
Qed.

Lemma resumedOk_none (env : Env) (n : nat) (tr : list Call) :
  Forall (fun c => isResumeCall c = false) tr -> resumedOk env n tr = [].
Proof.
  intros H. revert n. induction H as [|c tr Hc _ IH]; intros n; [reflexivity|].
  cbn [resumedOk]. rewrite IH. destruct c; try reflexivity. discriminate Hc.
Qed.

Section SingleStartRun.
Variable env : Env.

Lemma single_pushConsumer_insert (id : string) (ff : ProcId) (vt at_ : option TransportId)
    (room_id user_name : string) (startTime : Z) (cs : list Consumer) (c : Consumer)
    (s : RecordingManager.Registry) :
  RecordingManager.pushConsumer id c
    (<[id := singleFileEntry ff vt at_ id room_id user_name startTime cs]> s)
  = <[id := singleFileEntry ff vt at_ id room_id user_name startTime (cs ++ [c])]> s.
Proof.
  unfold RecordingManager.pushConsumer. rewrite lookup_insert_eq, insert_insert_eq. reflexivity.
Qed.

(** What one iteration of the loop of [connectProducersToRecording] does:
    the consumer is pushed when both its creation and its resume
    succeeded. *)
Lemma connectProducer_cases (id : string) (rec : RecordingManager.Recording) (ff : ProcId)
    (vt at_ : option TransportId) (room_id user_name : string) (startTime : Z)
    (cs : list Consumer) (producer : Producer) (s : RecordingManager.Registry) (n : nat) :
  wp (RecordingManager.connectProducer env id rec producer)
    (<[id := singleFileEntry ff vt at_ id room_id user_name startTime cs]> s) n
    (fun o s1 tr =>
       exists cs1,
         o = Returned tt
         /\ s1 = <[id := singleFileEntry ff vt at_ id room_id user_name startTime (cs ++ cs1)]> s
         /\ map cons_id cs1 = resumedOk env n tr
         /\ Forall isAttach tr
         /\ Forall (fun c => isCreateTransport c = false) tr
         /\ Forall (fun c => releases c = false) tr
         /\ Forall (fun c => c = consumerAt env (cons_id c) producer) cs1).
Proof.
  unfold RecordingManager.connectProducer. apply wp_try.
  assert (forall tr,
            tr = []
            \/ (exists t, tr = [Consume t (prod_id producer) true])
            \/ (exists t e, tr = [Consume t (prod_id producer) true; Resume n]
                            /\ env_throws env (Datatypes.S n) (Resume n) = Some e) ->
            exists cs1,
              Returned tt = Returned tt
              /\ <[id := singleFileEntry ff vt at_ id room_id user_name startTime cs]> s
                 = <[id := singleFileEntry ff vt at_ id room_id user_name startTime
                             (cs ++ cs1)]> s
              /\ map cons_id cs1 = resumedOk env n tr
              /\ Forall isAttach tr
              /\ Forall (fun c => isCreateTransport c = false) tr
              /\ Forall (fun c => releases c = false) tr
              /\ Forall (fun c => c = consumerAt env (cons_id c) producer) cs1) as Hkeep.
  { intros tr Htr. exists []. rewrite app_nil_r. split; [reflexivity|]. split; [reflexivity|].
    destruct Htr as [->|[(t & ->)|(t & e & -> & He)]].
    - repeat split; constructor.
    - repeat split; repeat constructor.
    - cbn [resumedOk]. rewrite He. repeat split; repeat constructor. }
  destruct (env_canConsume env (prod_id producer)); cbn [negb];
    [|apply wp_ret, Hkeep; left; reflexivity].
  match goal with
  | |- wp (match ?t with _ => _ end) _ _ _ => destruct t as [transport|]
  end; [|apply wp_ret, Hkeep; left; reflexivity].
  wp_go; [apply Hkeep; right; left; eauto|].
  cbn [cons_id length]. rewrite Nat.add_1_r.
  wp_go; [apply Hkeep; right; right; eauto|].
  apply wp_modifyState. rewrite single_pushConsumer_insert.
  exists [consumerAt env n producer].
  split; [reflexivity|]. split; [reflexivity|].
  cbn [app resumedOk map cons_id consumerAt]. rewrite Heqo0.
  repeat split; repeat constructor.
Qed.

(** The loop of [connectProducersToRecording] never throws. *)
Lemma connectAll_cases (id : string) (rec : RecordingManager.Recording) (ff : ProcId)
    (vt at_ : option TransportId) (room_id user_name : string) (startTime : Z)
    (producers : list Producer) (s : RecordingManager.Registry) (n : nat) :
  wp (forEach producers (RecordingManager.connectProducer env id rec))
    (<[id := singleFileEntry ff vt at_ id room_id user_name startTime []]> s) n
    (fun o s1 tr =>
       exists cs,
         o = Returned tt
         /\ s1 = <[id := singleFileEntry ff vt at_ id room_id user_name startTime cs]> s
         /\ map cons_id cs = resumedOk env n tr
         /\ Forall isAttach tr
         /\ Forall (fun c => isCreateTransport c = false) tr
         /\ Forall (fun c => releases c = false) tr
         /\ Forall (consumerOf env producers) cs).
Proof.
  apply (wp_forEach producers _ _ n
           (fun done s1 tr =>
              exists cs,
                s1 = <[id := singleFileEntry ff vt at_ id room_id user_name startTime cs]> s
                /\ map cons_id cs = resumedOk env n tr
                /\ Forall isAttach tr
                /\ Forall (fun c => isCreateTransport c = false) tr
                /\ Forall (fun c => releases c = false) tr
                /\ Forall (consumerOf env done) cs)).
  - exists []. repeat split; constructor.
  - intros done x rest s1 tr Hl (cs & -> & Hids & Htr & Hnt & Hnr & Hcs).
    eapply wp_consequence; [apply connectProducer_cases|].
    intros o s2 tr1 (cs1 & -> & -> & Hids1 & Htr1 & Hnt1 & Hnr1 & Hcs1).
    exists (cs ++ cs1). split; [reflexivity|].
    split; [rewrite map_app, resumedOk_app, Hids, Hids1; reflexivity|].
    split; [apply Forall_app; split; assumption|].
    split; [apply Forall_app; split; assumption|].
    split; [apply Forall_app; split; assumption|].
    apply Forall_app; split.
    + eapply List.Forall_impl; [|exact Hcs]. intros c (p & Hp & Hc).
      exists p. split; [apply in_or_app; left; exact Hp|exact Hc].
    + eapply List.Forall_impl; [|exact Hcs1]. intros c Hc.
      exists x. split; [apply in_or_app; right; left; reflexivity|exact Hc].
  - intros s1 tr (cs & -> & H). exists cs. split; [reflexivity|]. split; [reflexivity|].
    exact H.
Qed.

(** The search of the base port makes bind probes only. *)
Lemma single_freeBasePortLoop_cases (attempts : nat) (s : RecordingManager.Registry)
    (n : nat) :
  wp (RecordingManager.freeBasePortLoop env attempts) s n
    (fun o s1 tr =>
       s1 = s /\ Forall (fun c => match c with BindProbe _ => True | _ => False end) tr).
Proof.
  revert n. induction attempts as [|attempts IH]; intros n.
  - split; [reflexivity|constructor].
  - cbn [RecordingManager.freeBasePortLoop]. wp_go.
    match goal with
    | |- wp (if ?b then _ else _) _ _ _ => destruct b
    end.
    + apply wp_ret. split; [reflexivity|repeat constructor].
    + eapply wp_consequence; [apply IH|].
      intros o s1 tr (-> & Htr). split; [reflexivity|].
      rewrite ?app_nil_r. cbn [app]. repeat constructor. exact Htr.
Qed.

(** The creation of the transport of a kind. *)
Lemma single_createAndConnect_cases (wanted : bool) (port : Z)
    (s : RecordingManager.Registry) (n : nat) :
  wp (RecordingManager.createAndConnect env wanted port) s n
    (fun o s1 tr =>
       s1 = s
       /\ Forall (fun c => c = CreatePlainTransport \/ exists t p q, c = Connect t p q) tr
       /\ match o with
          | Returned t =>
              option_list t = handlesOf isCreateTransport n tr
              /\ forall x, t = Some x -> In (Connect x port (port + 1)) tr
          | Thrown _ => True
          end).
Proof.
  unfold RecordingManager.createAndConnect.
  destruct wanted.
  - wp_go; [split; [reflexivity|]; split; [repeat constructor; auto|exact I]|].
    wp_go; (split; [reflexivity|]);
      (split; [apply List.Forall_cons; [left; reflexivity|];
               apply List.Forall_cons; [right; eauto|constructor]|]);
      [exact I|].
    split; [reflexivity|]. intros x [= <-]. right. left. reflexivity.
  - apply wp_ret. split; [reflexivity|]. split; [constructor|].
    split; [reflexivity|]. intros x Hx. discriminate Hx.
Qed.

Lemma unregistered_calls (tr : list Call) :
  Forall isUnregistered tr ->
  Forall (fun c => releases c = false) tr
  /\ Forall (fun c => isConsume c = false /\ isResumeCall c = false) tr.
Proof.
  intros H. split; (eapply List.Forall_impl; [|exact H]); intros [] Hc;
    try destruct Hc; repeat split.
Qed.

Lemma Forall_unregistered_mkdir (tr : list Call) : Forall isMkdir tr -> Forall isUnregistered tr.
Proof.
  intros H. eapply List.Forall_impl; [|exact H]. intros [] Hc; try destruct Hc; exact I.
Qed.

Lemma Forall_unregistered_probes (tr : list Call) :
  Forall (fun c => match c with BindProbe _ => True | _ => False end) tr ->
  Forall isUnregistered tr.
Proof.
  intros H. eapply List.Forall_impl; [|exact H]. intros [] Hc; try destruct Hc; exact I.
Qed.

Lemma Forall_unregistered_muxer (tr : list Call) :
  Forall isMuxerCall tr -> Forall isUnregistered tr.
Proof.
  intros H. eapply List.Forall_impl; [|exact H]. intros [] Hc; try destruct Hc; exact I.
Qed.

Lemma Forall_unregistered_transport (tr : list Call) :
  Forall (fun c => c = CreatePlainTransport \/ exists t p q, c = Connect t p q) tr ->
  Forall isUnregistered tr /\ Forall isAttach tr
  /\ Forall (fun c => isResumeCall c = false) tr.
Proof.
  intros H. repeat split; (eapply List.Forall_impl; [|exact H]);
    intros c [->|(t & p & q & ->)]; first [exact I | reflexivity].
Qed.

(** The run of a start of the single-file recorder. *)
Lemma single_startRecording_run (r : Room) (room_id user_name : string)
    (s : RecordingManager.Registry) (n : nat) :
  wp (RecordingManager.startRecording env (Some r) room_id user_name) s n
    (singleStartPost env r room_id user_name s n).
Proof.
  unfold RecordingManager.startRecording. apply wp_rethrow.
  assert (forall e tr, Forall isUnregistered tr ->
            singleStartPost env r room_id user_name s n (Thrown e) s tr) as Hearly.
  { intros e tr H. destruct (unregistered_calls tr H) as (H1 & H2).
    split; [exact H1|]. split; [reflexivity|exact H2]. }
  destruct (negb (router r)).
  { apply wp_throw. apply Hearly. constructor. }
  cbv zeta. wp_go. wp_go. cbn [length app]. rewrite !Nat.add_0_r.
  set (id := "rec-" +:+ JS.showZ (env_now env n)) in *.
  match goal with
  | |- wp _ _ _ (fun o s1 tr1 =>
                   match o with
                   | Returned _ => wp ?rest _ _ _
                   | Thrown _ => _
                   end) => set (k := rest)
  end.
  assert (forall pre, Forall isMkdir pre ->
            wp k s (n + length pre)
              (fun o2 s2 tr2 =>
                 match o2 with
                 | Returned a =>
                     singleStartPost env r room_id user_name s n (Returned a) s2 (pre ++ tr2)
                 | Thrown e =>
                     singleStartPost env r room_id user_name s n
                       (Thrown (if String.eqb e "" then "Failed to start recording" else e))
                       s2 (pre ++ tr2)
                 end)) as Hrest.
  { intros pre Hpre. subst k.
    pose proof (Forall_unregistered_mkdir pre Hpre) as Hp.
    match goal with
    | |- wp (if ?b then _ else _) _ _ _ => destruct b
    end.
    { apply wp_throw. rewrite app_nil_r. apply Hearly, Hp. }
    apply wp_bind. unfold RecordingManager._getFreeBasePort.
    eapply wp_consequence; [apply single_freeBasePortLoop_cases|].
    intros [port|e] s1 tr1 (-> & Htr1).
    2: { apply Hearly, Forall_app. split; [exact Hp|apply Forall_unregistered_probes, Htr1]. }
    pose proof (Forall_unregistered_probes tr1 Htr1) as Hq.
    apply wp_bind.
    eapply wp_consequence; [apply ffmpegNew_cases|].
    intros [ff|e] s2 tr2 (-> & H2).
    2: { apply Hearly. repeat (apply Forall_app; split; [assumption|]).
         apply Forall_unregistered_muxer, H2. }
    destruct H2 as (-> & sdp & args & Hsdp & -> & Hout).
    set (ff := (n + length pre + length tr1)%nat) in *.
    cbn [length]. replace (ff + 3)%nat with (Datatypes.S (Datatypes.S (Datatypes.S ff))) by lia.
    set (muxer := [Spawn "ffmpeg" args; StdinWrite ff sdp; StdinEnd ff]) in *.
    assert (Forall isUnregistered muxer) as Hm by repeat constructor.
    set (t3 := Datatypes.S (Datatypes.S (Datatypes.S ff))) in *.
    apply wp_bind.
    eapply wp_consequence; [apply single_createAndConnect_cases|].
    intros [vt|e] s3 tr3 (-> & Htr3 & H3);
      destruct (Forall_unregistered_transport tr3 Htr3) as (Hv1 & Hv2 & Hv3).
    2: { apply Hearly. repeat (apply Forall_app; split; [assumption|]). exact Hv1. }
    destruct H3 as (Hvt & Hvc).
    apply wp_bind.
    eapply wp_consequence; [apply single_createAndConnect_cases|].
    intros [at_|e] s4 tr4 (-> & Htr4 & H4);
      destruct (Forall_unregistered_transport tr4 Htr4) as (Ha1 & Ha2 & Ha3).
    2: { apply Hearly. repeat (apply Forall_app; split; [assumption|]). exact Ha1. }
    destruct H4 as (Hat & Hac).
    wp_prim. wp_prim. apply wp_bind, wp_registryUpdate. cbv beta iota.
    unfold RecordingManager.connectProducersToRecording.
    wp_prim. wp_prim. wp_prim. rewrite lookup_insert_eq.
    cbn [length]. rewrite !Nat.add_0_r.
    set (t5 := (t3 + length tr3 + length tr4)%nat) in *.
    match goal with
    | |- wp (forEach _ (RecordingManager.connectProducer env id ?rec)) _ _ _ =>
        eapply wp_consequence;
        [apply (connectAll_cases id rec ff vt at_ room_id user_name (env_now env t5))|]
    end.
    intros o s6 tr6 (cs & -> & -> & Hids & Htr6 & Hnt6 & Hnr6 & Hcs). cbv beta iota. wp_prim.
    destruct (unregistered_calls _ Hp) as (Hp1 & Hp2).
    destruct (unregistered_calls _ Hq) as (Hq1 & Hq2).
    destruct (unregistered_calls _ Hv1) as (Hv4 & Hv5).
    destruct (unregistered_calls _ Ha1) as (Ha4 & Ha5).
    split.
    { repeat (apply Forall_app; split; [assumption|]).
      apply Forall_app. split; [repeat constructor|].
      repeat (apply Forall_app; split; [assumption|]).
      cbn [app]. constructor; [reflexivity|]. rewrite !app_nil_r. exact Hnr6. }
    split; [reflexivity|].
    exists vt, at_, (env_now env t5), cs, port, sdp, args, (pre ++ tr1),
      (tr3 ++ tr4 ++ RegistrySet id :: tr6).
    cbv zeta.
    assert ((n + length (pre ++ tr1))%nat = ff) as -> by (rewrite length_app; subst ff; lia).
    fold t3.
    split; [reflexivity|].
    split; [rewrite <- !app_assoc; cbn [app]; rewrite ?app_nil_r; reflexivity|].
    split. { apply Forall_app. split.
             - eapply List.Forall_impl; [|exact Hpre]. intros [] Hc; try destruct Hc; exact I.
             - eapply List.Forall_impl; [|exact Htr1]. intros [] Hc; try destruct Hc; exact I. }
    split. { repeat (apply Forall_app; split; [assumption|]). constructor; [exact I|exact Htr6]. }
    split. { rewrite !handlesOf_app. cbn [handlesOf isCreateTransport app].
             rewrite (handlesOf_none _ _ tr6 Hnt6), app_nil_r, Hvt, Hat. reflexivity. }
    split. { rewrite !resumedOk_app, (resumedOk_none _ _ tr3 Hv3), (resumedOk_none _ _ tr4 Ha3).
             cbn [resumedOk app]. rewrite Hids. f_equal. subst t5. lia. }
    split; [exact Hcs|]. split; [exact Hsdp|].
    split; [|split; [|exact Hout]].
    + intros t Ht. apply in_or_app. left. apply Hvc, Ht.
    + intros t Ht. apply in_or_app. right. apply in_or_app. left. apply Hac, Ht. }
  destruct (env_exists env n (recordDir env)).
  - apply wp_ret. cbn [length app]. rewrite Nat.add_0_r.
    specialize (Hrest [] (List.Forall_nil _)). cbn [length app] in Hrest.
    rewrite Nat.add_0_r in Hrest. exact Hrest.
  - wp_go.
    + apply Hearly. repeat constructor.
    + apply (Hrest [Mkdir (recordDir env)]). repeat constructor.
Qed.

End SingleStartRun.


(** ** The starts of the single-file recorders *)

Lemma attach_consumes_paused (tr : list Call) : Forall isAttach tr -> Forall consumesPaused tr.
Proof.
  intros H. eapply List.Forall_impl; [|exact H].
  intros [] Hc; try exact I. destruct paused; [reflexivity|destruct Hc].
Qed.

Lemma probing_calls (tr : list Call) :
  Forall isProbing tr ->
  Forall consumesPaused tr
  /\ Forall (fun c => ~ isResume c) tr
  /\ Forall (fun c => isSpawnOf "ffmpeg" c = false) tr
  /\ Forall (fun c => isCreateTransport c = false) tr
  /\ Forall (fun c => isResumeCall c = false) tr
  /\ Forall (fun c => match c with StdinWrite _ _ => false | _ => true end = true) tr.
Proof.
  intros H. repeat split; (eapply List.Forall_impl; [|exact H]); intros [] Hc;
    try destruct Hc; first [exact I | reflexivity | exact (fun F => F)].
Qed.

Lemma attach_spawns_nothing (tr : list Call) :
  Forall isAttach tr -> Forall (fun c => isSpawnOf "ffmpeg" c = false) tr.
Proof.
  intros H. eapply List.Forall_impl; [|exact H]. intros [] Hc; try destruct Hc; reflexivity.
Qed.

Lemma unregistered_consumes_paused (tr : list Call) :
  Forall (fun c => isConsume c = false /\ isResumeCall c = false) tr ->
  Forall consumesPaused tr /\ Forall (fun c => ~ isResume c) tr.
Proof.
  intros H. split; (eapply List.Forall_impl; [|exact H]); intros [] [Hc Hr];
    first [exact I | discriminate | exact (fun F => F)].
Qed.

(** X18: in the two single-file recorders that give each kind its own
    transport, every consume call of a start passes paused: true, and a
    consumer is resumed only after the muxer has been spawned. *)
Theorem single_file_starts_consume_paused_and_resume_after_spawn (env : Env)
    (room : option Room) (room_id user_name : string)
    (s1 : gmap string RecordingManager.Recording)
    (s3 : gmap string RecordingManagerCollect.Recording) (n : nat) :
  let run1 := RecordingManager.startRecording env room room_id user_name s1 n in
  let run3 := RecordingManagerCollect.startRecording env room room_id user_name s3 n in
  Forall consumesPaused (calls run1)
  /\ gatedBy isMuxerSpawn isResume (calls run1)
  /\ Forall consumesPaused (calls run3)
  /\ gatedBy isMuxerSpawn isResume (calls run3).
Proof.
  cbn zeta. destruct room as [r|].
  2: { repeat split; first [constructor | apply gatedBy_free; constructor]. }
  assert (Forall consumesPaused
            (calls (RecordingManager.startRecording env (Some r) room_id user_name s1 n))
          /\ gatedBy isMuxerSpawn isResume
               (calls (RecordingManager.startRecording env (Some r) room_id user_name s1 n)))
    as [H1 H2].
  { pose proof (single_startRecording_run env r room_id user_name s1 n) as Hrun.
    unfold wp, singleStartPost in Hrun. destruct Hrun as (_ & Hrun).
    destruct (outcome (RecordingManager.startRecording env (Some r) room_id user_name s1 n))
      as [res|e].
    - cbv zeta in Hrun.
      destruct Hrun as (_ & vt & at_ & startTime & cs & port & sdp & args & pre & post
                        & _ & -> & Hpre & Hpost & _).
      destruct (probing_calls pre Hpre) as (Hp1 & Hp2 & _).
      split.
      + apply Forall_app. split; [exact Hp1|].
        repeat (apply List.Forall_cons; [exact I|]). apply attach_consumes_paused, Hpost.
      + apply gatedBy_app_free; [exact Hp2|].
        apply gatedBy_cons_gate; [reflexivity|exact (fun H => H)].
    - destruct Hrun as (_ & Htr). destruct (unregistered_consumes_paused _ Htr) as (Ht1 & Ht2).
      split; [exact Ht1|apply gatedBy_free, Ht2]. }
  split; [exact H1|]. split; [exact H2|].
  pose proof (collect_startRecording_run env r room_id user_name s3 n) as Hrun.
  unfold wp, collectStartPost in Hrun.
  destruct (outcome (RecordingManagerCollect.startRecording env (Some r) room_id user_name s3 n))
    as [res|e].
  - cbv zeta in Hrun.
    destruct Hrun as (_ & vt & at_ & startTime & cs & port & sdp & args & pre & resumption
                      & _ & -> & Hpre & Hres & _).
    split.
    + apply Forall_app. split; [apply setup_consumes_paused, Hpre|].
      repeat (apply List.Forall_cons; [exact I|]). apply resumption_consumes_nothing, Hres.
    + apply gatedBy_app_free; [apply setup_resumes_nothing, Hpre|].
      apply gatedBy_cons_gate; [reflexivity|exact (fun H => H)].
  - destruct Hrun as [(_ & Htr & _)|(vt & at_ & startTime & cs & pre & muxer & _ & -> & Hpre
                                     & Hmux & _)].
    + split; [apply setup_consumes_paused, Htr|].
      apply gatedBy_free, setup_resumes_nothing, Htr.
    + destruct (muxer_calls_neither muxer Hmux) as (Hm1 & Hm2).
      split; [apply Forall_app; split; [apply setup_consumes_paused, Hpre|exact Hm1]|].
      apply gatedBy_free, Forall_app; split; [apply setup_resumes_nothing, Hpre|exact Hm2].
Qed.

(** Where a predicate on calls implies another, decided by cases on the
    call. *)
Ltac by_call H :=
  eapply List.Forall_impl; [|exact H];
  let c := fresh "c" in
  let Hc := fresh "Hc" in
  intros c Hc; destruct c; try destruct Hc;
  first [exact I | reflexivity | exact (fun F => F) | discriminate | idtac].

Lemma muxer_in_trace (n : nat) (pre post : list Call) (args : list string) (ff : ProcId)
    (sdp : string) :
  Forall (fun c => isSpawnOf "ffmpeg" c = false) pre ->
  Forall (fun c => match c with StdinWrite _ _ => false | _ => true end = true) pre ->
  Forall (fun c => isSpawnOf "ffmpeg" c = false) post ->
  let tr := pre ++ Spawn "ffmpeg" args :: StdinWrite ff sdp :: StdinEnd ff :: post in
  handlesOf (isSpawnOf "ffmpeg") n tr = [(n + length pre)%nat]
  /\ pipedSdp tr = Some sdp
  /\ spawnedArgs "ffmpeg" tr = Some args.
Proof.
  intros Hpre Hw Hpost. cbv zeta. split; [|split].
  - rewrite handlesOf_app, (handlesOf_none _ _ pre Hpre).
    cbn [handlesOf isSpawnOf app]. rewrite (handlesOf_none _ _ post Hpost). reflexivity.
  - unfold pipedSdp. rewrite find_app_none; [reflexivity|].
    eapply List.Forall_impl; [|exact Hw]. intros [] Hc; first [reflexivity | discriminate Hc].
  - unfold spawnedArgs. rewrite find_app_none; [reflexivity|].
    eapply List.Forall_impl; [|exact Hpre]. intros [] Hc; first [reflexivity | exact Hc].
Qed.


(** X19: a start of the single-file recorder that throws leaves the
    registry as it was; a start that returns has set one entry under the id
    it returns. The entry holds the muxer that the start spawned, the
    transports that it created, and exactly the consumers whose resume did
    not throw. No start kills a process or closes a consumer or a transport:
    a start that throws after it has spawned the muxer leaves the muxer
    running. *)
Theorem single_file_start_registers_what_it_attached (env : Env) (room : option Room)
    (room_id user_name : string) (s : gmap string RecordingManager.Recording) (n : nat) :
  let run := RecordingManager.startRecording env room room_id user_name s n in
  Forall (fun c => releases c = false) (calls run)
  /\ match outcome run with
     | Thrown _ => stateOf run = s
     | Returned res =>
         exists rec,
           stateOf run = <[RecordingManager.recording_id res := rec]> s
           /\ RecordingManager.recording_id res = "rec-" +:+ JS.showZ (env_now env n)
           /\ RecordingManager.file_name res = RecordingManager.rec_fileName rec
           /\ RecordingManager.rec_room_id rec = room_id
           /\ RecordingManager.rec_user_name rec = user_name
           /\ [RecordingManager.rec_ffmpeg rec] = handlesOf (isSpawnOf "ffmpeg") n (calls run)
           /\ option_list (RecordingManager.rec_videoTransport rec)
              ++ option_list (RecordingManager.rec_audioTransport rec)
              = handlesOf isCreateTransport n (calls run)
           /\ map cons_id (RecordingManager.rec_producers rec) = resumedOk env n (calls run)
     end.
Proof.
  cbn zeta. destruct room as [r|]; [|split; [constructor|reflexivity]].
  pose proof (single_startRecording_run env r room_id user_name s n) as Hrun.
  unfold wp, singleStartPost in Hrun. destruct Hrun as (Hrel & Hrun).
  split; [exact Hrel|].
  destruct (outcome (RecordingManager.startRecording env (Some r) room_id user_name s n))
    as [res|e]; [|apply Hrun].
  cbv zeta in Hrun.
  destruct Hrun as (-> & vt & at_ & startTime & cs & port & sdp & args & pre & post
                    & -> & -> & Hpre & Hpost & Hts & Hcs & _).
  destruct (probing_calls pre Hpre) as (_ & _ & Hp3 & Hp4 & Hp5 & Hp6).
  destruct (muxer_in_trace n pre post args (n + length pre)%nat sdp Hp3 Hp6
              (attach_spawns_nothing post Hpost)) as (Hff & _).
  cbv zeta in Hff.
  eexists. split; [reflexivity|].
  cbn [RecordingManager.recording_id RecordingManager.file_name singleFileEntry
       RecordingManager.rec_fileName RecordingManager.rec_room_id RecordingManager.rec_user_name
       RecordingManager.rec_ffmpeg RecordingManager.rec_videoTransport
       RecordingManager.rec_audioTransport RecordingManager.rec_producers].
  split; [reflexivity|]. split; [reflexivity|]. split; [reflexivity|]. split; [reflexivity|].
  split; [rewrite Hff; reflexivity|].
  split.
  - rewrite handlesOf_app, (handlesOf_none _ _ pre Hp4). cbn [handlesOf isCreateTransport app].
    rewrite Hts. reflexivity.
  - rewrite resumedOk_app, (resumedOk_none _ _ pre Hp5). cbn [resumedOk app].
    rewrite Hcs. reflexivity.
Qed.

Lemma consumerOf_room (env : Env) (producers : list Producer) (cs : list Consumer) :
  Forall (consumerOf env producers) cs ->
  Forall
    (fun c =>
       exists p, In p producers
         /\ cons_producerId c = prod_id p
         /\ cons_kind c = prod_kind p
         /\ cons_rtpParameters c = env_consumerRtp env p)
    cs.
Proof.
  intros H. eapply List.Forall_impl; [|exact H]. intros c (p & Hp & Hc).
  exists p. split; [exact Hp|]. rewrite Hc. repeat split.
Qed.



Lemma resumption_calls (tr : list Call) :
  Forall isResumption tr ->
  Forall (fun c => isSpawnOf "ffmpeg" c = false) tr
  /\ Forall (fun c => isConsume c = false) tr
  /\ Forall (fun c => isCreateTransport c = false) tr.
Proof. intros H. repeat split; by_call H. Qed.

Lemma setup_calls (tr : list Call) :
  Forall isSetup tr ->
  Forall (fun c => isSpawnOf "ffmpeg" c = false) tr
  /\ Forall (fun c => match c with StdinWrite _ _ => false | _ => true end = true) tr
  /\ Forall (fun c => match c with Resume x => [x] | _ => [] end = []) tr.
Proof. intros H. repeat split; by_call H. Qed.

Lemma muxer_calls (tr : list Call) :
  Forall isMuxerCall tr ->
  Forall (fun c => isConsume c = false) tr
  /\ Forall (fun c => isCreateTransport c = false) tr
  /\ Forall (fun c => match c with Resume x => [x] | _ => [] end = []) tr.
Proof. intros H. repeat split; by_call H. Qed.

(** X21: when a start of the recorder that creates its consumers first
    returns, the entry holds the muxer that the start spawned, the
    transports that it created, and the consumers that it created, all of
    them resumed after the spawn. The SDP piped to the muxer is the text
    that [createSdpText] synthesizes from the rtpParameters that the router
    assigned to the last consumer of each kind, for the base port P and,
    with an audio consumer, the audio port P + 2; the transports of the
    entry are connected to these ports. *)
Theorem collect_start_pipes_sdp_of_its_consumers (env : Env) (r : Room)
    (room_id user_name : string) (s : gmap string RecordingManagerCollect.Recording) (n : nat)
    (res : RecordingManager.StartResult) :
  let run := RecordingManagerCollect.startRecording env (Some r) room_id user_name s n in
  outcome run = Returned res ->
  exists rec port sdp,
    stateOf run = <[RecordingManager.recording_id res := rec]> s
    /\ RecordingManager.recording_id res = "rec-" +:+ JS.showZ (env_now env n)
    /\ RecordingManager.file_name res = RecordingManagerCollect.rec_fileName rec
    /\ option_list (RecordingManagerCollect.rec_ffmpeg rec)
       = handlesOf (isSpawnOf "ffmpeg") n (calls run)
    /\ option_list (RecordingManagerCollect.rec_videoTransport rec)
       ++ option_list (RecordingManagerCollect.rec_audioTransport rec)
       = handlesOf isCreateTransport n (calls run)
    /\ map cons_id (RecordingManagerCollect.rec_producers rec) = consumedAt env n (calls run)
    /\ resumedConsumers (calls run) = map cons_id (RecordingManagerCollect.rec_producers rec)
    /\ pipedSdp (calls run) = Some sdp
    /\ Sdp.createSdpText (collectedParameters (RecordingManagerCollect.rec_producers rec) port)
       = Returned sdp
    /\ RecordingManagerCollect.rec_videoRtpParameters rec
       = collectedRtp video (RecordingManagerCollect.rec_producers rec)
    /\ RecordingManagerCollect.rec_audioRtpParameters rec
       = collectedRtp audio (RecordingManagerCollect.rec_producers rec)
    /\ (forall t, RecordingManagerCollect.rec_videoTransport rec = Some t ->
        In (Connect t port (port + 1)) (calls run))
    /\ (forall t, RecordingManagerCollect.rec_audioTransport rec = Some t ->
        In (Connect t (port + 2) (port + 2 + 1)) (calls run))
    /\ Forall
         (fun c =>
            exists p, In p (map snd (roomProducers r))
              /\ cons_producerId c = prod_id p
              /\ cons_kind c = prod_kind p
              /\ cons_rtpParameters c = env_consumerRtp env p)
         (RecordingManagerCollect.rec_producers rec).
Proof.
  cbn zeta. intros Hres.
  pose proof (collect_startRecording_run env r room_id user_name s n) as Hrun.
  unfold wp, collectStartPost in Hrun. rewrite Hres in Hrun. cbv zeta in Hrun.
  destruct Hrun as (-> & vt & at_ & startTime & cs & port & sdp & args & pre & resumption
                    & -> & -> & Hpre & Hresum & _ & Hts & Hcons & Hcs & Hresumed & Hsdp
                    & Hv & Ha & _).
  destruct (setup_calls pre Hpre) as (Hp1 & Hp2 & Hp3).
  destruct (resumption_calls resumption Hresum) as (Hr1 & Hr2 & Hr3).
  destruct (muxer_in_trace n pre resumption args (n + length pre)%nat sdp Hp1 Hp2 Hr1)
    as (Hff & Hpiped & _).
  cbv zeta in Hff.
  assert (RecordingManagerCollect.rec_producers
            (startedRecording (n + length pre)%nat cs
               (registeredRecording vt at_ ("rec-" +:+ JS.showZ (env_now env n)) room_id
                  user_name startTime)) = cs) as Hprod.
  { unfold startedRecording. cbn [RecordingManagerCollect.setFfmpeg
      RecordingManagerCollect.setRtpParameters RecordingManagerCollect.rec_producers].
    destruct (withConsumers_fields cs
                (registeredRecording vt at_ ("rec-" +:+ JS.showZ (env_now env n)) room_id
                   user_name startTime)) as (-> & _). reflexivity. }
  destruct (withConsumers_fields cs
              (registeredRecording vt at_ ("rec-" +:+ JS.showZ (env_now env n)) room_id
                 user_name startTime)) as (_ & Hfv & Hfa & _ & Hfn & _).
  eexists. exists port, sdp.
  split; [reflexivity|]. rewrite Hprod.
  cbn [RecordingManager.recording_id RecordingManager.file_name startedRecording
       RecordingManagerCollect.setFfmpeg RecordingManagerCollect.setRtpParameters
       RecordingManagerCollect.rec_fileName RecordingManagerCollect.rec_ffmpeg
       RecordingManagerCollect.rec_videoTransport RecordingManagerCollect.rec_audioTransport
       RecordingManagerCollect.rec_videoRtpParameters
       RecordingManagerCollect.rec_audioRtpParameters].
  rewrite Hfv, Hfa, Hfn.
  split; [reflexivity|]. split; [reflexivity|].
  split; [rewrite Hff; reflexivity|].
  split.
  { rewrite handlesOf_app. cbn [handlesOf isCreateTransport app].
    rewrite (handlesOf_none _ _ resumption Hr3), app_nil_r. exact Hts. }
  split.
  { rewrite consumedAt_app. cbn [consumedAt isConsume app].
    rewrite (consumedAt_none _ _ resumption Hr2), app_nil_r. exact Hcons. }
  split.
  { rewrite resumedConsumers_app. unfold resumedConsumers at 1.
    rewrite (flat_map_none _ pre Hp3). cbn [resumedConsumers flat_map app]. exact Hresumed. }
  split; [exact Hpiped|]. split; [exact Hsdp|]. split; [reflexivity|]. split; [reflexivity|].
  cbn [registeredRecording RecordingManagerCollect.rec_videoTransport
       RecordingManagerCollect.rec_audioTransport].
  split; [|split].
  - intros t Ht. apply in_or_app. left. apply Hv, Ht.
  - intros t Ht. apply in_or_app. left. apply Ha, Ht.
  - apply consumerOf_room, Hcs.
Qed.

(** A room with one video producer: the SDP piped to the muxer is
    synthesized from the parameters of the consumers of the entry. *)
Lemma collect_start_pipes_sdp_of_its_consumers_witness :
  exists rec port sdp,
    stateOf (RecordingManagerCollect.startRecording calmEnv (Some videoRoom) "room" "alice"
               ∅ 0%nat)
    = <["rec-1700000000000" := rec]> ∅
    /\ pipedSdp
         (calls (RecordingManagerCollect.startRecording calmEnv (Some videoRoom) "room" "alice"
                   ∅ 0%nat))
       = Some sdp
    /\ Sdp.createSdpText (collectedParameters (RecordingManagerCollect.rec_producers rec) port)
       = Returned sdp.
Proof.
  assert (outcome
            (RecordingManagerCollect.startRecording calmEnv (Some videoRoom) "room" "alice"
               ∅ 0%nat)
          = Returned {| RecordingManager.recording_id := "rec-1700000000000";
                        RecordingManager.file_name := "recording-rec-1700000000000.webm" |})
    as Hres by (vm_compute; reflexivity).
  destruct (collect_start_pipes_sdp_of_its_consumers calmEnv videoRoom "room" "alice" ∅ 0%nat
              _ Hres)
    as (rec & port & sdp & Hs & _ & _ & _ & _ & _ & _ & Hpiped & Hsdp & _).
  exists rec, port, sdp. split; [exact Hs|]. split; [exact Hpiped|exact Hsdp].
Defined.


(** X22: a start of the recorder that creates its consumers first sets
    its registry entry before it creates the consumers and the muxer. When
    it throws after that, because the muxer cannot be created, the entry
    stays: it has no muxer, it holds the transports and the consumers that
    the start created, and none of these consumers has been resumed. A stop
    of that id then closes these consumers and transports, kills nothing,
    and removes the entry. *)
Theorem collect_failed_start_leaves_entry_without_muxer (env env' : Env) (r : Room)
    (room_id user_name : string) (s : gmap string RecordingManagerCollect.Recording)
    (n n' : nat) (e : string) :
  let run := RecordingManagerCollect.startRecording env (Some r) room_id user_name s n in
  let id := "rec-" +:+ JS.showZ (env_now env n) in
  let stop := RecordingManagerCollect.stopRecording env' id (stateOf run) n' in
  outcome run = Thrown e ->
  In (RegistrySet id) (calls run) ->
  exists rec,
    stateOf run = <[id := rec]> s
    /\ RecordingManagerCollect.rec_ffmpeg rec = None
    /\ map cons_id (RecordingManagerCollect.rec_producers rec) = consumedAt env n (calls run)
    /\ resumedConsumers (calls run) = []
    /\ option_list (RecordingManagerCollect.rec_videoTransport rec)
       ++ option_list (RecordingManagerCollect.rec_audioTransport rec)
       = handlesOf isCreateTransport n (calls run)
    /\ calls stop
       = map (fun c => CloseConsumer (cons_id c)) (RecordingManagerCollect.rec_producers rec)
         ++ map CloseTransport
              (option_list (RecordingManagerCollect.rec_videoTransport rec)
               ++ option_list (RecordingManagerCollect.rec_audioTransport rec))
         ++ [RegistryDelete id]
    /\ (exists result, outcome stop = Returned result)
    /\ stateOf stop = delete id s.
Proof.
  cbn zeta. intros Hres Hreg.
  pose proof (collect_startRecording_run env r room_id user_name s n) as Hrun.
  unfold wp, collectStartPost in Hrun. rewrite Hres in Hrun. cbv zeta in Hrun.
  destruct Hrun as [(_ & _ & Hno)|(vt & at_ & startTime & cs & pre & muxer & Hs & Htr & Hpre
                                   & Hmux & _ & Hts & Hcons)];
    [contradiction|].
  set (id := "rec-" +:+ JS.showZ (env_now env n)) in *.
  set (rec0 := registeredRecording vt at_ id room_id user_name startTime) in *.
  destruct (withConsumers_fields cs rec0) as (Hfp & Hfv & Hfa & Hff & _).
  destruct (setup_calls pre Hpre) as (_ & _ & Hp3).
  destruct (muxer_calls muxer Hmux) as (Hm1 & Hm2 & Hm3).
  rewrite stopRecording_collect_run, Hs, lookup_insert_eq, Htr.
  eexists. split; [reflexivity|].
  cbn [RecordingManagerCollect.setRtpParameters RecordingManagerCollect.rec_ffmpeg
       RecordingManagerCollect.rec_producers RecordingManagerCollect.rec_videoTransport
       RecordingManagerCollect.rec_audioTransport RecordingManagerCollect.rec_fileName
       RecordingManagerCollect.rec_filePath RecordingManagerCollect.rec_startTime].
  rewrite Hfp, Hfv, Hff, Hfa.
  split; [reflexivity|].
  split; [rewrite consumedAt_app, (consumedAt_none _ _ muxer Hm1), app_nil_r; exact Hcons|].
  split.
  { unfold resumedConsumers. rewrite flat_map_app, (flat_map_none _ pre Hp3),
      (flat_map_none _ muxer Hm3). reflexivity. }
  split; [rewrite handlesOf_app, (handlesOf_none _ _ muxer Hm2), app_nil_r; exact Hts|].
  unfold singleFileStop. cbn [option_list map app rec0 registeredRecording
    RecordingManagerCollect.rec_ffmpeg RecordingManagerCollect.rec_producers].
  unfold calls, outcome, stateOf. cbn [fst snd app].
  split; [reflexivity|]. split; [eexists; reflexivity|]. apply delete_insert_eq.
Qed.

(** A room with one video producer, in a world where no process can be
    spawned: the start throws after it has registered the recording, and
    the entry stays. *)
Lemma collect_failed_start_leaves_entry_without_muxer_witness :
  exists rec,
    stateOf (RecordingManagerCollect.startRecording noMuxerEnv (Some videoRoom) "room" "alice"
               ∅ 0%nat)
    = <["rec-1700000000000" := rec]> ∅
    /\ RecordingManagerCollect.rec_ffmpeg rec = None.
Proof.
  assert (outcome
            (RecordingManagerCollect.startRecording noMuxerEnv (Some videoRoom) "room" "alice"
               ∅ 0%nat)
          = Thrown "spawn ffmpeg ENOENT") as Hres by (vm_compute; reflexivity).
  assert (In (RegistrySet "rec-1700000000000")
            (calls (RecordingManagerCollect.startRecording noMuxerEnv (Some videoRoom) "room"
                      "alice" ∅ 0%nat))) as Hreg
    by (vm_compute; repeat first [left; reflexivity | right]).
  destruct (collect_failed_start_leaves_entry_without_muxer noMuxerEnv calmEnv videoRoom "room"
              "alice" ∅ 0%nat 100%nat _ Hres Hreg)
    as (rec & Hs & Hff & _).
  exists rec. split; [exact Hs|exact Hff].
Defined.


